(** * Aeiden-AI: the in-memory models and the rate limiter

    A shallow embedding of [src/models/chat_models.py],
    [src/models/response_models.py], [src/models/user_models.py] and
    [src/utils/rate_limiting.py], with the properties the specification
    states about them.

    Conventions of the embedding:
    - a Python [str] is a [string] holding its UTF-8 bytes;
    - a Python [int] is a [Z];
    - a naive [datetime] is the number of microseconds elapsed since
      0001-01-01T00:00:00 (the resolution and origin of the library
      type), a [timedelta] a number of microseconds; the year-9999
      range check of the library type is not modelled;
    - every [datetime.now()] of the source is an explicit argument of
      the embedded function, in the order the calls are made;
    - a [dict] whose iteration order the code observes is an insertion
      ordered association list ([odict]); a [dict] used only through
      lookups, stores and deletions is a [gmap];
    - a method that mutates [self] returns the new state next to its
      result; a method that can raise returns a [result]. *)

From Stdlib Require Import ZArith Lia Bool Ascii String Sorting.Sorted Sorting.Permutation.
From Stdlib Require Import Floats.PrimFloat.
From stdpp Require Import base option list strings gmap fin_maps.

Set Warnings "-register-all,-inexact-float".
Local Open Scope string_scope.
Local Open Scope list_scope.
Local Open Scope Z_scope.

(** ** Python values and idioms *)

Module Py.

(** Exceptions the embedded code can raise. *)
Inductive exn : Type :=
  | NameError (name : string)
  | KeyError (key : string)
  | ValueError (what : string)
  | TypeError (what : string)
  | AttributeError (what : string)
  | StopIteration.

Inductive result (A : Type) : Type :=
  | Ok (a : A)
  | Raise (e : exn).
Arguments Ok {A} a.
Arguments Raise {A} e.

(** Sequencing stops at the first exception; with these instances the
    embedded code is written [x ← step; rest]. *)
#[global] Instance result_ret : MRet result := fun A a => Ok a.
#[global] Instance result_bind : MBind result := fun A B k r =>
  match r with
  | Ok a => k a
  | Raise e => Raise e
  end.

Definition datetime := Z.
Definition timedelta := Z.

(** [timedelta(minutes=m)] and [timedelta(hours=h)], in microseconds. *)
Definition timedelta_minutes (m : Z) : timedelta := m * 60000000.
Definition timedelta_hours (h : Z) : timedelta := h * 3600000000.

(** Truth value of a [str] and of an [Optional[str]]: [None] and the
    empty string are false. *)
Definition truthy_str (s : string) : bool :=
  match s with
  | EmptyString => false
  | String _ _ => true
  end.

Definition truthy_opt_str (o : option string) : bool :=
  match o with
  | None => false
  | Some s => truthy_str s
  end.

(** [l[i:]] for a possibly negative [i]: a negative index counts from
    the end, and both ends are clamped. In particular [l[-0:]] is
    [l[0:]], the whole list. *)
Definition slice_from {A} (i : Z) (l : list A) : list A :=
  let n := Z.of_nat (length l) in
  let start := if i <? 0 then Z.max 0 (n + i) else Z.min i n in
  drop (Z.to_nat start) l.

(** [sorted(l, key=key)]: the stable sort by [key]. The library runs
    Timsort; a list has one stable sorted arrangement, computed here by
    insertion, each element going in front of the elements that follow
    it in [l] and have an equal key. *)
Fixpoint insert_by {A} (key : A -> Z) (x : A) (l : list A) : list A :=
  match l with
  | [] => [x]
  | y :: l' => if key x <=? key y then x :: y :: l' else y :: insert_by key x l'
  end.

Definition sorted {A} (key : A -> Z) (l : list A) : list A :=
  foldr (insert_by key) [] l.

(** The order [sorted] arranges by. *)
Definition key_le {A} (key : A -> Z) (a b : A) : Prop := key a <= key b.

(** *** Insertion-ordered dictionaries with string keys *)

Definition odict (V : Type) := list (string * V).

Section odict.
Context {V : Type}.

Definition keys (d : odict V) : list string := d.*1.

(** [d.get(k)] *)
Fixpoint od_get (k : string) (d : odict V) : option V :=
  match d with
  | [] => None
  | (k', v) :: d' => if String.eqb k k' then Some v else od_get k d'
  end.

(** [k in d] *)
Definition od_mem (k : string) (d : odict V) : bool :=
  match od_get k d with Some _ => true | None => false end.

(** [d[k] = v]: an existing key keeps its position, a new key goes
    last. *)
Fixpoint od_set (k : string) (v : V) (d : odict V) : odict V :=
  match d with
  | [] => [(k, v)]
  | (k', v') :: d' =>
      if String.eqb k k' then (k, v) :: d' else (k', v') :: od_set k v d'
  end.

(** [del d[k]] for a key that is present. *)
Fixpoint od_del (k : string) (d : odict V) : odict V :=
  match d with
  | [] => []
  | (k', v') :: d' =>
      if String.eqb k k' then d' else (k', v') :: od_del k d'
  end.

(** [dict(items)] *)
Definition od_of_items (items : list (string * V)) : odict V :=
  fold_left (fun d kv => od_set kv.1 kv.2 d) items [].

(** [next(iter(d))] *)
Definition od_first_key (d : odict V) : result string :=
  match d with
  | [] => Raise StopIteration
  | (k, _) :: _ => Ok k
  end.
End odict.

(** A value of type [Any], as far as the models store one. *)
Inductive pyval : Type :=
  | PNone
  | PBool (b : bool)
  | PInt (z : Z)
  | PFloat (f : float)
  | PStr (s : string)
  | PDatetime (d : datetime)
  | PList (l : list pyval)
  | PDict (d : list (string * pyval)).

(** *** Dictionaries of values *)

(** Truth value of a value. *)
Definition truthy (v : pyval) : bool :=
  match v with
  | PNone => false
  | PBool b => b
  | PInt z => negb (z =? 0)
  | PFloat f => negb (PrimFloat.eqb f 0%float)
  | PStr s => truthy_str s
  | PDatetime _ => true
  | PList l => match l with [] => false | _ => true end
  | PDict d => match d with [] => false | _ => true end
  end.

(** [data[k]] *)
Definition getitem (data : odict pyval) (k : string) : result pyval :=
  match od_get k data with
  | Some v => Ok v
  | None => Raise (KeyError k)
  end.

(** [data.get(k)] and [data.get(k, dflt)] *)
Definition get_or (data : odict pyval) (k : string) (dflt : pyval) : pyval :=
  default dflt (od_get k data).

Definition get_or_none (data : odict pyval) (k : string) : pyval :=
  get_or data k PNone.

(** The models are embedded with the field types of their annotations.
    Python stores whatever value it is given; a value outside the
    annotated type is reported here as [TypeError]. *)
Definition as_str (v : pyval) : result string :=
  match v with PStr s => Ok s | _ => Raise (TypeError "str") end.

Definition as_bool (v : pyval) : result bool :=
  match v with PBool b => Ok b | _ => Raise (TypeError "bool") end.

Definition as_int (v : pyval) : result Z :=
  match v with PInt z => Ok z | _ => Raise (TypeError "int") end.

Definition as_float (v : pyval) : result float :=
  match v with PFloat f => Ok f | _ => Raise (TypeError "float") end.

Definition as_dict (v : pyval) : result (odict pyval) :=
  match v with PDict d => Ok d | _ => Raise (TypeError "dict") end.

Definition as_optional {A} (read : pyval -> result A) (v : pyval)
    : result (option A) :=
  match v with
  | PNone => Ok None
  | _ => a ← read v; Ok (Some a)
  end.

Fixpoint read_all {A} (read : pyval -> result A) (l : list pyval)
    : result (list A) :=
  match l with
  | [] => Ok []
  | v :: l' => a ← read v; rest ← read_all read l'; Ok (a :: rest)
  end.

Definition as_list {A} (read : pyval -> result A) (v : pyval) : result (list A) :=
  match v with
  | PList l => read_all read l
  | _ => Raise (TypeError "list")
  end.

Fixpoint read_all_items {A} (read : pyval -> result A) (d : list (string * pyval))
    : result (odict A) :=
  match d with
  | [] => Ok []
  | (k, v) :: d' => a ← read v; rest ← read_all_items read d'; Ok ((k, a) :: rest)
  end.

Definition as_dict_of {A} (read : pyval -> result A) (v : pyval) : result (odict A) :=
  match v with
  | PDict d => read_all_items read d
  | _ => Raise (TypeError "dict")
  end.

Definition of_optional {A} (inj : A -> pyval) (o : option A) : pyval :=
  match o with
  | Some a => inj a
  | None => PNone
  end.

(** A dataclass built from a dictionary unpacked into keywords: a
    keyword that is not a field is a [TypeError]; a field without
    keyword takes its default. *)
Definition check_keywords (fields : list string) (kw : odict pyval) : result unit :=
  if forallb (fun k => bool_decide (k ∈ fields)) (keys kw) then Ok tt
  else Raise (TypeError "unexpected keyword argument").

Definition keyword {A} (kw : odict pyval) (k : string)
    (read : pyval -> result A) (dflt : A) : result A :=
  match od_get k kw with
  | Some v => read v
  | None => Ok dflt
  end.

(** *** datetime.isoformat and datetime.fromisoformat *)

(** The proleptic Gregorian calendar, as the library computes it. *)
Definition is_leap (y : Z) : bool :=
  (y mod 4 =? 0) && (negb (y mod 100 =? 0) || (y mod 400 =? 0)).

Definition days_before_year (y : Z) : Z :=
  let y1 := y - 1 in y1 * 365 + y1 / 4 - y1 / 100 + y1 / 400.

Definition month_lengths : list Z :=
  [31; 28; 31; 30; 31; 30; 31; 31; 30; 31; 30; 31].

Definition month_starts : list Z :=
  [0; 31; 59; 90; 120; 151; 181; 212; 243; 273; 304; 334].

Definition days_in_month (y m : Z) : Z :=
  if (m =? 2) && is_leap y then 29 else nth (Z.to_nat (m - 1)) month_lengths 0.

Definition days_before_month (y m : Z) : Z :=
  nth (Z.to_nat (m - 1)) month_starts 0 + (if (2 <? m) && is_leap y then 1 else 0).

(** Day number of a date, 0001-01-01 being day 1. *)
Definition ymd2ord (y m d : Z) : Z :=
  days_before_year y + days_before_month y m + d.

(** Month and day of the day number [n] (from 0) within a year. *)
Definition month_and_day (leapyear : bool) (n : Z) : Z * Z :=
  let month := Z.shiftr (n + 50) 5 in
  let preceding :=
    nth (Z.to_nat (month - 1)) month_starts 0
    + (if (2 <? month) && leapyear then 1 else 0) in
  if n <? preceding then
    let month' := month - 1 in
    let preceding' :=
      preceding
      - (nth (Z.to_nat (month' - 1)) month_lengths 0
         + (if (month' =? 2) && leapyear then 1 else 0)) in
    (month', n - preceding' + 1)
  else (month, n - preceding + 1).

(** The date of a day number: 400-year, 100-year and 4-year cycles,
    then single years. *)
Definition ord2ymd (ordinal : Z) : Z * Z * Z :=
  let n := ordinal - 1 in
  let n400 := n / 146097 in
  let n := n mod 146097 in
  let n100 := n / 36524 in
  let n := n mod 36524 in
  let n4 := n / 1461 in
  let n := n mod 1461 in
  let n1 := n / 365 in
  let n := n mod 365 in
  let year := n400 * 400 + 1 + n100 * 100 + n4 * 4 + n1 in
  if (n1 =? 4) || (n100 =? 4) then (year - 1, 12, 31)
  else
    let leapyear := (n1 =? 3) && (negb (n4 =? 24) || (n100 =? 3)) in
    let '(month, day) := month_and_day leapyear n in
    (year, month, day).

Definition digit_char (d : Z) : ascii := ascii_of_nat (48 + Z.to_nat d).

(** [x] in [n] decimal digits, zero padded, as the library prints a
    number below [10^n]. *)
Fixpoint zero_padded (n : nat) (x : Z) : list ascii :=
  match n with
  | O => []
  | S n' => zero_padded n' (x / 10) ++ [digit_char (x mod 10)]
  end.

Definition digit_value (c : ascii) : option Z :=
  let n := Z.of_nat (nat_of_ascii c) in
  if (48 <=? n) && (n <=? 57) then Some (n - 48) else None.

Fixpoint read_digits (n : nat) (acc : Z) (s : list ascii) : option (Z * list ascii) :=
  match n with
  | O => Some (acc, s)
  | S n' =>
      match s with
      | c :: s' =>
          match digit_value c with
          | Some d => read_digits n' (10 * acc + d) s'
          | None => None
          end
      | [] => None
      end
  end.

Definition expect_char (c : ascii) (s : list ascii) : option (list ascii) :=
  match s with
  | c' :: s' => if Ascii.eqb c c' then Some s' else None
  | [] => None
  end.

Definition microseconds_per_day : Z := 86400000000.

(** [d.isoformat()] of a naive datetime:
    [YYYY-MM-DDTHH:MM:SS], followed by [.ffffff] when the microseconds
    are not 0. *)
Definition isoformat (d : datetime) : string :=
  let us := d mod 1000000 in
  let secs := d / 1000000 in
  let ss := secs mod 60 in
  let mins := secs / 60 in
  let mm := mins mod 60 in
  let hours := mins / 60 in
  let hh := hours mod 24 in
  let days := hours / 24 in
  let '(y, m, dd) := ord2ymd (days + 1) in
  string_of_list_ascii
    (zero_padded 4 y ++ "-"%char :: zero_padded 2 m ++ "-"%char :: zero_padded 2 dd
     ++ "T"%char :: zero_padded 2 hh ++ ":"%char :: zero_padded 2 mm
     ++ ":"%char :: zero_padded 2 ss
     ++ (if us =? 0 then [] else "."%char :: zero_padded 6 us)).

Definition parse_isoformat (s : list ascii) : option datetime :=
  '(y, s) ← read_digits 4 0 s;
  s ← expect_char "-" s;
  '(m, s) ← read_digits 2 0 s;
  s ← expect_char "-" s;
  '(dd, s) ← read_digits 2 0 s;
  s ← expect_char "T" s;
  '(hh, s) ← read_digits 2 0 s;
  s ← expect_char ":" s;
  '(mm, s) ← read_digits 2 0 s;
  s ← expect_char ":" s;
  '(ss, s) ← read_digits 2 0 s;
  '(us, s) ← match s with
             | [] => Some (0, [])
             | _ => s ← expect_char "." s; read_digits 6 0 s
             end;
  if (match s with [] => true | _ => false end)
     && (1 <=? y) && (1 <=? m) && (m <=? 12) && (1 <=? dd)
     && (dd <=? days_in_month y m) && (hh <? 24) && (mm <? 60) && (ss <? 60)
  then Some (((((ymd2ord y m dd - 1) * 24 + hh) * 60 + mm) * 60 + ss) * 1000000 + us)
  else None.

(** [datetime.fromisoformat(v)], on the strings [isoformat] produces for
    naive datetimes; the library reads further ISO 8601 spellings, which
    are reported here as [ValueError] like any other string. A value
    that is not a string is a [TypeError]. *)
Definition fromisoformat (v : pyval) : result datetime :=
  match v with
  | PStr s =>
      match parse_isoformat (list_ascii_of_string s) with
      | Some d => Ok d
      | None => Raise (ValueError "Invalid isoformat string")
      end
  | _ => Raise (TypeError "fromisoformat: argument must be str")
  end.

(** [f] holds on the [2^bits] numbers from [lo] on. *)
Fixpoint range_all (bits : nat) (f : Z -> bool) (lo : Z) : bool :=
  match bits with
  | O => f lo
  | S b => range_all b f lo && range_all b f (lo + 2 ^ Z.of_nat b)
  end.

(** [month_and_day] gives a month, a day of that month, and the day
    number it started from. *)
Definition month_day_ok (leap : bool) (k : Z) : bool :=
  let '(m, dd) := month_and_day leap k in
  (1 <=? m) && (m <=? 12) && (1 <=? dd)
  && (dd <=? (if (m =? 2) && leap then 29 else nth (Z.to_nat (m - 1)) month_lengths 0))
  && (nth (Z.to_nat (m - 1)) month_starts 0
      + (if (2 <? m) && leap then 1 else 0) + dd =? k + 1).

(** The datetimes of the library: 0001-01-01T00:00:00 up to
    9999-12-31T23:59:59.999999. *)
Definition datetime_in_range (d : datetime) : Prop :=
  0 <= d < 3652059 * microseconds_per_day.

End Py.
Import Py.

(** ** hashlib.md5

    The digest of RFC 1321, on bytes given as numbers below 256 and
    32-bit words as numbers below [2^32]. *)

Module Hashlib.

Definition mask32 (x : Z) : Z := x mod 4294967296.
Definition not32 (x : Z) : Z := Z.lxor x 4294967295.
Definition rotl32 (x c : Z) : Z :=
  mask32 (Z.lor (Z.shiftl x c) (Z.shiftr x (32 - c))).

Definition shifts : list Z :=
  [ 7; 12; 17; 22; 7; 12; 17; 22; 7; 12; 17; 22; 7; 12; 17; 22;
    5; 9; 14; 20; 5; 9; 14; 20; 5; 9; 14; 20; 5; 9; 14; 20;
    4; 11; 16; 23; 4; 11; 16; 23; 4; 11; 16; 23; 4; 11; 16; 23;
    6; 10; 15; 21; 6; 10; 15; 21; 6; 10; 15; 21; 6; 10; 15; 21 ].

(** [floor(2^32 * abs(sin(i + 1)))] for [i] from 0 to 63. *)
Definition sines : list Z :=
  [ 3614090360; 3905402710; 606105819; 3250441966; 4118548399; 1200080426;
    2821735955; 4249261313; 1770035416; 2336552879; 4294925233; 2304563134;
    1804603682; 4254626195; 2792965006; 1236535329; 4129170786; 3225465664;
    643717713; 3921069994; 3593408605; 38016083; 3634488961; 3889429448;
    568446438; 3275163606; 4107603335; 1163531501; 2850285829; 4243563512;
    1735328473; 2368359562; 4294588738; 2272392833; 1839030562; 4259657740;
    2763975236; 1272893353; 4139469664; 3200236656; 681279174; 3936430074;
    3572445317; 76029189; 3654602809; 3873151461; 530742520; 3299628645;
    4096336452; 1126891415; 2878612391; 4237533241; 1700485571; 2399980690;
    4293915773; 2240044497; 1873313359; 4264355552; 2734768916; 1309151649;
    4149444226; 3174756917; 718787259; 3951481745 ].

Definition at_index (l : list Z) (i : Z) : Z := nth (Z.to_nat i) l 0.

(** [n] bytes of [x], least significant first. *)
Fixpoint le_bytes (n : nat) (x : Z) : list Z :=
  match n with
  | O => []
  | S n' => x mod 256 :: le_bytes n' (x / 256)
  end.

Fixpoint le_words (bs : list Z) : list Z :=
  match bs with
  | b0 :: b1 :: b2 :: b3 :: bs' =>
      (b0 + 256 * b1 + 65536 * b2 + 16777216 * b3) :: le_words bs'
  | _ => []
  end.

Definition padded (msg : list Z) : list Z :=
  let len := Z.of_nat (length msg) in
  msg ++ [128] ++ replicate (Z.to_nat ((55 - len) mod 64)) 0
      ++ le_bytes 8 ((8 * len) mod 18446744073709551616).

Definition state : Type := Z * Z * Z * Z.

Definition round (block : list Z) (st : state) (i : Z) : state :=
  let '(a, b, c, d) := st in
  let '(f, g) :=
    if i <? 16 then (Z.lor (Z.land b c) (Z.land (not32 b) d), i)
    else if i <? 32 then (Z.lor (Z.land d b) (Z.land (not32 d) c), (5 * i + 1) mod 16)
    else if i <? 48 then (Z.lxor (Z.lxor b c) d, (3 * i + 5) mod 16)
    else (Z.lxor c (Z.lor b (not32 d)), (7 * i) mod 16) in
  let f' := mask32 (f + a + at_index sines i + at_index block g) in
  (d, mask32 (b + rotl32 f' (at_index shifts i)), b, c).

Definition process_block (st : state) (block : list Z) : state :=
  let '(a0, b0, c0, d0) := st in
  let '(a, b, c, d) := fold_left (round block) (seqZ 0 64) st in
  (mask32 (a0 + a), mask32 (b0 + b), mask32 (c0 + c), mask32 (d0 + d)).

Fixpoint blocks (n : nat) (ws : list Z) : list (list Z) :=
  match n with
  | O => []
  | S n' => take 16 ws :: blocks n' (drop 16 ws)
  end.

Definition digest_words (msg : list Z) : state :=
  let ws := le_words (padded msg) in
  fold_left process_block (blocks (length ws / 16) ws)
    (1732584193, 4023233417, 2562383102, 271733878).

Definition hex_digit (d : Z) : ascii :=
  nth (Z.to_nat d) (list_ascii_of_string "0123456789abcdef") "0"%char.

Definition hex_byte (b : Z) : list ascii := [hex_digit (b / 16); hex_digit (b mod 16)].

Definition bytes_of_string (s : string) : list Z :=
  (fun a => Z.of_N (N_of_ascii a)) <$> list_ascii_of_string s.

(** [hashlib.md5(s.encode()).hexdigest()] *)
Definition md5_hexdigest (s : string) : string :=
  let '(a, b, c, d) := digest_words (bytes_of_string s) in
  string_of_list_ascii
    (mjoin (hex_byte <$> (le_bytes 4 a ++ le_bytes 4 b ++ le_bytes 4 c ++ le_bytes 4 d))).

End Hashlib.

(** ** chat_models.py *)

Module Chat.

Inductive MessageRole := USER | MODEL | SYSTEM.
Inductive MessageStatus := PENDING | SENT | DELIVERED | FAILED.

Record ChatMessage := {
  id : string;
  role : MessageRole;
  content : string;
  timestamp : datetime;
  status : MessageStatus;
  metadata : odict pyval
}.

(** The [value] of an enumeration member, and the member of a value. *)
Definition MessageRole_value (r : MessageRole) : string :=
  match r with USER => "user" | MODEL => "model" | SYSTEM => "system" end.

Definition MessageRole_of (v : pyval) : result MessageRole :=
  match v with
  | PStr s =>
      if String.eqb s "user" then Ok USER
      else if String.eqb s "model" then Ok MODEL
      else if String.eqb s "system" then Ok SYSTEM
      else Raise (ValueError "MessageRole")
  | _ => Raise (ValueError "MessageRole")
  end.

Definition MessageStatus_value (st : MessageStatus) : string :=
  match st with
  | PENDING => "pending" | SENT => "sent" | DELIVERED => "delivered"
  | FAILED => "failed"
  end.

Definition MessageStatus_of (v : pyval) : result MessageStatus :=
  match v with
  | PStr s =>
      if String.eqb s "pending" then Ok PENDING
      else if String.eqb s "sent" then Ok SENT
      else if String.eqb s "delivered" then Ok DELIVERED
      else if String.eqb s "failed" then Ok FAILED
      else Raise (ValueError "MessageStatus")
  | _ => Raise (ValueError "MessageStatus")
  end.

(** [ChatMessage.to_dict] *)
Definition to_dict (m : ChatMessage) : odict pyval :=
  [ ("id", PStr (id m));
    ("role", PStr (MessageRole_value (role m)));
    ("content", PStr (content m));
    ("timestamp", PStr (isoformat (timestamp m)));
    ("status", PStr (MessageStatus_value (status m)));
    ("metadata", PDict (metadata m)) ].

(** [ChatMessage.from_dict] *)
Definition from_dict (data : odict pyval) : result ChatMessage :=
  id' ← getitem data "id" ≫= as_str;
  role' ← getitem data "role" ≫= MessageRole_of;
  content' ← getitem data "content" ≫= as_str;
  timestamp' ← getitem data "timestamp" ≫= fromisoformat;
  status' ← getitem data "status" ≫= MessageStatus_of;
  metadata' ← as_dict (get_or data "metadata" (PDict []));
  Ok {| id := id'; role := role'; content := content'; timestamp := timestamp';
        status := status'; metadata := metadata' |}.

Record ChatSession := {
  session_id : string;
  user_id : option string;
  messages : list ChatMessage;
  created_at : datetime;
  last_activity : datetime;
  is_active : bool;
  settings : odict pyval
}.

(** [ChatSession(session_id=..., user_id=...)]: the two default
    factories read the clock one after the other. *)
Definition ChatSession_new (sid : string) (uid : option string)
    (t_created t_activity : datetime) : ChatSession :=
  {| session_id := sid; user_id := uid; messages := [];
     created_at := t_created; last_activity := t_activity;
     is_active := true; settings := [] |}.

Definition add_message (s : ChatSession) (m : ChatMessage) (now : datetime)
    : ChatSession :=
  {| session_id := session_id s; user_id := user_id s;
     messages := messages s ++ [m];
     created_at := created_at s; last_activity := now;
     is_active := is_active s; settings := settings s |}.

Definition set_messages (s : ChatSession) (ms : list ChatMessage) : ChatSession :=
  {| session_id := session_id s; user_id := user_id s;
     messages := ms;
     created_at := created_at s; last_activity := last_activity s;
     is_active := is_active s; settings := settings s |}.

Record ChatHistory := {
  sessions : odict ChatSession;
  max_sessions : Z;
  max_messages_per_session : Z
}.

Definition ChatHistory_new (max_s max_m : Z) : ChatHistory :=
  {| sessions := []; max_sessions := max_s; max_messages_per_session := max_m |}.

Definition with_sessions (h : ChatHistory) (ss : odict ChatSession) : ChatHistory :=
  {| sessions := ss; max_sessions := max_sessions h;
     max_messages_per_session := max_messages_per_session h |}.

Definition _cleanup_old_sessions (h : ChatHistory) : ChatHistory :=
  if max_sessions h <? Z.of_nat (length (sessions h)) then
    let sorted_sessions := sorted (fun x => last_activity x.2) (sessions h) in
    let sessions_to_keep := slice_from (- max_sessions h) sorted_sessions in
    with_sessions h (od_of_items sessions_to_keep)
  else h.

Definition create_session (h : ChatHistory) (sid : string) (uid : option string)
    (t_created t_activity : datetime) : ChatSession * ChatHistory :=
  let session := ChatSession_new sid uid t_created t_activity in
  let h1 := with_sessions h (od_set sid session (sessions h)) in
  (session, _cleanup_old_sessions h1).

Definition get_session (h : ChatHistory) (sid : string) : option ChatSession :=
  od_get sid (sessions h).

Definition get_or_create_session (h : ChatHistory) (sid : string)
    (uid : option string) (t_created t_activity : datetime)
    : ChatSession * ChatHistory :=
  match get_session h sid with
  | None => create_session h sid uid t_created t_activity
  | Some session => (session, h)
  end.

Definition delete_session (h : ChatHistory) (sid : string) : bool * ChatHistory :=
  if od_mem sid (sessions h)
  then (true, with_sessions h (od_del sid (sessions h)))
  else (false, h).

(** [cleanup_messages]: the session object is the one stored in the
    mapping, so assigning its [messages] updates the stored entry. *)
Definition cleanup_messages (h : ChatHistory) (sid : string) : ChatHistory :=
  match get_session h sid with
  | Some session =>
      if max_messages_per_session h <? Z.of_nat (length (messages session)) then
        with_sessions h
          (od_set sid
             (set_messages session
                (slice_from (- max_messages_per_session h) (messages session)))
             (sessions h))
      else h
  | None => h
  end.

(** [session.add_message(m)] on the session registered under [sid];
    the stored entry is the object mutated. *)
Definition append_message (h : ChatHistory) (sid : string) (m : ChatMessage)
    (now : datetime) : ChatHistory :=
  match get_session h sid with
  | Some session => with_sessions h (od_set sid (add_message session m now) (sessions h))
  | None => h
  end.

(** The mutating operations, as a caller issues them. *)
Inductive op :=
  | CreateSession (sid : string) (uid : option string) (t_created t_activity : datetime)
  | GetOrCreateSession (sid : string) (uid : option string) (t_created t_activity : datetime)
  | DeleteSession (sid : string)
  | AppendMessage (sid : string) (m : ChatMessage) (now : datetime)
  | CleanupMessages (sid : string).

Definition step (h : ChatHistory) (o : op) : ChatHistory :=
  match o with
  | CreateSession sid uid t1 t2 => (create_session h sid uid t1 t2).2
  | GetOrCreateSession sid uid t1 t2 => (get_or_create_session h sid uid t1 t2).2
  | DeleteSession sid => (delete_session h sid).2
  | AppendMessage sid m now => append_message h sid m now
  | CleanupMessages sid => cleanup_messages h sid
  end.

Definition run (h : ChatHistory) (ops : list op) : ChatHistory :=
  fold_left step ops h.

(** A sequence of [create_session] calls, each with its arguments and
    its two clock readings, and the entry each call stores. *)
Definition create_args : Type := string * option string * datetime * datetime.

Definition create_op (c : create_args) : op :=
  let '(sid, uid, t_created, t_activity) := c in
  CreateSession sid uid t_created t_activity.

Definition created_sid (c : create_args) : string := c.1.1.1.

Definition created_item (c : create_args) : string * ChatSession :=
  let '(sid, uid, t_created, t_activity) := c in
  (sid, ChatSession_new sid uid t_created t_activity).

(** [evicted] lies below [kept]: no evicted entry was active later than
    a kept one. *)
Definition older_than (evicted kept : list (string * ChatSession)) : Prop :=
  forall e r, e ∈ evicted -> r ∈ kept -> last_activity e.2 <= last_activity r.2.

(** The session bound, as a predicate on histories. *)
Definition sessions_bounded (h : ChatHistory) : Prop :=
  Z.of_nat (length (sessions h)) <= max_sessions h.

(** [ChatSession.get_recent_messages] *)
Definition get_recent_messages (s : ChatSession) (limit : Z) : list ChatMessage :=
  if limit <? Z.of_nat (length (messages s))
  then slice_from (- limit) (messages s)
  else messages s.

(** [ChatSession.to_dict] *)
Definition ChatSession_to_dict (s : ChatSession) : odict pyval :=
  [ ("session_id", PStr (session_id s));
    ("user_id", of_optional PStr (user_id s));
    ("messages", PList ((fun m => PDict (to_dict m)) <$> messages s));
    ("created_at", PStr (isoformat (created_at s)));
    ("last_activity", PStr (isoformat (last_activity s)));
    ("is_active", PBool (is_active s));
    ("settings", PDict (settings s)) ].

(** [ChatHistory.get_session_count] *)
Definition get_session_count (h : ChatHistory) : Z :=
  Z.of_nat (length (sessions h)).

(** [ChatHistory.get_total_messages] *)
Definition get_total_messages (h : ChatHistory) : Z :=
  fold_left (fun total s => total + Z.of_nat (length (messages s)))
    (sessions h).*2 0.

End Chat.

(** Concrete histories used by the examples below. *)
Module ChatExamples.
Import Chat.

Definition msg (i c : string) (t : datetime) : ChatMessage :=
  {| id := i; role := USER; content := c; timestamp := t;
     status := PENDING; metadata := [] |}.

(** [ChatHistory(max_messages_per_session=0)] with one session holding
    one message. *)
Definition zero_limit_history : ChatHistory :=
  append_message
    (create_session (ChatHistory_new 100 0) "s" None 10 11).2
    "s" (msg "m1" "hello" 20) 21.

(** [ChatHistory(max_messages_per_session=1)], one session, two
    appended messages. *)
Definition two_appends : list op :=
  [ CreateSession "s" None 10 11;
    AppendMessage "s" (msg "m1" "hello" 20) 21;
    AppendMessage "s" (msg "m2" "again" 30) 31 ].

Definition after_two_appends : ChatHistory :=
  run (ChatHistory_new 100 1) two_appends.

(** A mixed sequence of operations on a history of at most 2 sessions. *)
Definition mixed_ops : list op :=
  [ CreateSession "a" None 10 11;
    AppendMessage "a" (msg "m1" "one" 20) 21;
    GetOrCreateSession "b" (Some "u") 30 31;
    AppendMessage "a" (msg "m2" "two" 40) 41;
    AppendMessage "a" (msg "m3" "three" 50) 51;
    CreateSession "c" None 60 61;
    DeleteSession "b";
    GetOrCreateSession "a" None 70 71 ].

(** [ChatHistory(max_sessions=0)] after one [create_session]. *)
Definition zero_sessions_history : ChatHistory :=
  run (ChatHistory_new 0 1000) [CreateSession "s" None 10 11].

(** Five sessions created at increasing clock readings. *)
Definition five_creates : list (string * option string * datetime * datetime) :=
  [ ("a", None, 10, 11); ("b", Some "u", 20, 21); ("c", None, 30, 31);
    ("d", None, 40, 41); ("e", None, 50, 51) ].
End ChatExamples.

(** ** utils/validation.py *)

Module Validation.

(** [validate_message]: every required key is in the dictionary. The
    keys are a set in the source; the answer of [all] does not depend on
    the order they are visited in. *)
Definition validate_message (message : odict pyval) : bool :=
  forallb (fun key => od_mem key message)
    ["id"; "role"; "content"; "timestamp"; "status"].

End Validation.

(** ** rate_limiting.py *)

Module RateLimit.

Record RateLimitInfo := {
  requests_made : Z;
  window_start : datetime;
  last_request : option datetime;
  is_blocked : bool;
  block_until : option datetime
}.

(** [RateLimitInfo()]: the default factory of [window_start] reads the
    clock. *)
Definition RateLimitInfo_new (t_new : datetime) : RateLimitInfo :=
  {| requests_made := 0; window_start := t_new; last_request := None;
     is_blocked := false; block_until := None |}.

Record RateLimiter := {
  max_requests : Z;
  window_minutes : Z;
  users : gmap string RateLimitInfo
}.

Definition RateLimiter_new (max_r window_m : Z) : RateLimiter :=
  {| max_requests := max_r; window_minutes := window_m; users := ∅ |}.

(** The limiter with the entry of [user_id] replaced. *)
Definition store (rl : RateLimiter) (user_id : string) (info : RateLimitInfo)
    : RateLimiter :=
  {| max_requests := max_requests rl; window_minutes := window_minutes rl;
     users := <[user_id := info]> (users rl) |}.

(** The entry [is_allowed] works on: the stored one, or the one it
    creates for a key not yet in [users]. *)
Definition entry (rl : RateLimiter) (user_id : string) (t_new : datetime)
    : RateLimitInfo :=
  match users rl !! user_id with
  | Some info => info
  | None => RateLimitInfo_new t_new
  end.

(** Step 1: a blocked entry refuses until [block_until], then is
    unblocked. [None] stands for the early [return False]. *)
Definition check_blocked (info : RateLimitInfo) (now : datetime)
    : option RateLimitInfo :=
  match is_blocked info, block_until info with
  | true, Some until =>
      if now <? until then None
      else Some {| requests_made := requests_made info;
                   window_start := window_start info;
                   last_request := last_request info;
                   is_blocked := false; block_until := None |}
  | _, _ => Some info
  end.

(** Step 2: an expired window restarts at [now] with no requests. *)
Definition reset_window (window : timedelta) (info : RateLimitInfo)
    (now : datetime) : RateLimitInfo :=
  if window <=? now - window_start info then
    {| requests_made := 0; window_start := now;
       last_request := last_request info;
       is_blocked := is_blocked info; block_until := block_until info |}
  else info.

(** Step 3: at the limit the entry is blocked for one window length,
    below it the request is counted. The deadline is the sum in [Z];
    where it is not a datetime of the library the code raises
    OverflowError at this line ([call_in_range] below is the condition
    under which it does not). *)
Definition count_request (max_r : Z) (window : timedelta) (info : RateLimitInfo)
    (now : datetime) : bool * RateLimitInfo :=
  if max_r <=? requests_made info then
    (false, {| requests_made := requests_made info;
               window_start := window_start info;
               last_request := last_request info;
               is_blocked := true; block_until := Some (now + window) |})
  else
    (true, {| requests_made := requests_made info + 1;
              window_start := window_start info;
              last_request := Some now;
              is_blocked := is_blocked info; block_until := block_until info |}).

(** [is_allowed(user_id)]. [now] is the clock reading at entry, [t_new]
    the later reading taken when the entry of a new key is created. *)
Definition is_allowed (rl : RateLimiter) (user_id : string)
    (now t_new : datetime) : bool * RateLimiter :=
  let user_info := entry rl user_id t_new in
  match check_blocked user_info now with
  | None => (false, store rl user_id user_info)
  | Some info1 =>
      let info2 := reset_window (timedelta_minutes (window_minutes rl)) info1 now in
      let '(allowed, info3) :=
        count_request (max_requests rl) (timedelta_minutes (window_minutes rl)) info2 now in
      (allowed, store rl user_id info3)
  end.

Definition get_remaining_requests (rl : RateLimiter) (user_id : string) : Z :=
  match users rl !! user_id with
  | None => max_requests rl
  | Some user_info => Z.max 0 (max_requests rl - requests_made user_info)
  end.

(** [get_reset_time(user_id)]. The sum is taken in [Z]; the code raises
    OverflowError where it is not a datetime of the library. *)
Definition get_reset_time (rl : RateLimiter) (user_id : string) : option datetime :=
  match users rl !! user_id with
  | None => None
  | Some user_info =>
      Some (window_start user_info + timedelta_minutes (window_minutes rl))
  end.

(** Consecutive [is_allowed] calls for one key, each with its two clock
    readings; the answers in order and the final limiter. *)
Fixpoint calls (rl : RateLimiter) (user_id : string)
    (clock : list (datetime * datetime)) : list bool * RateLimiter :=
  match clock with
  | [] => ([], rl)
  | (now, t_new) :: clock' =>
      let '(b, rl1) := is_allowed rl user_id now t_new in
      let '(bs, rl2) := calls rl1 user_id clock' in
      (b :: bs, rl2)
  end.

(** The window counter that a call at [now] finds: that of the entry,
    or 0 when the entry's window has run out. *)
Definition window_counter (rl : RateLimiter) (user_id : string)
    (now t_new : datetime) : Z :=
  let info := entry rl user_id t_new in
  if timedelta_minutes (window_minutes rl) <=? now - window_start info
  then 0 else requests_made info.

(** [check_rate_limit] *)
Definition check_rate_limit (user_id : string) (rate_limiter : RateLimiter)
    (now t_new : datetime) : odict pyval * RateLimiter :=
  let '(allowed, rl1) := is_allowed rate_limiter user_id now t_new in
  let remaining := get_remaining_requests rl1 user_id in
  let reset_time := get_reset_time rl1 user_id in
  ([ ("allowed", PBool allowed);
     ("remaining", PInt remaining);
     ("reset_time", of_optional (fun t => PStr (isoformat t)) reset_time) ],
   rl1).

(** An entry counts between 0 and [max_requests], and is blocked only
    with a deadline and a used-up window. *)
Definition entry_ok (max_r : Z) (info : RateLimitInfo) : Prop :=
  0 <= requests_made info <= max_r /\
  (is_blocked info = true ->
     max_r <= requests_made info /\ is_Some (block_until info)).

Definition limiter_ok (rl : RateLimiter) : Prop :=
  map_Forall (fun _ info => entry_ok (max_requests rl) info) (users rl).

(** The two clock readings of an [is_allowed] call are datetimes of the
    library, and so is the deadline [now + window_minutes] that the call
    computes when it blocks the key. Under this condition
    [timedelta(minutes=window_minutes)] and the sum are within the range
    of the library, and the call raises no OverflowError. *)
Definition call_in_range (rl : RateLimiter) (tc : datetime * datetime) : Prop :=
  datetime_in_range tc.1 /\ datetime_in_range tc.2 /\
  datetime_in_range (tc.1 + timedelta_minutes (window_minutes rl)).

End RateLimit.

Module RateLimitExamples.
Import RateLimit.

(** 2024-01-01T00:00:00, in microseconds since 0001-01-01T00:00:00. *)
Definition t0 : datetime := 63839664000000000.
Definition second : timedelta := 1000000.
Definition hour : timedelta := 3600000000.

(** Four calls one second apart; the entry is created 5 microseconds
    after the first call reads the clock. *)
Definition four_calls : list (datetime * datetime) :=
  [ (t0, t0 + 5); (t0 + second, t0 + second + 5);
    (t0 + 2 * second, t0 + 2 * second + 5);
    (t0 + 3 * second, t0 + 3 * second + 5) ].

Definition limiter : RateLimiter := RateLimiter_new 3 60.
End RateLimitExamples.

(** ** response_models.py *)

Module Response.

Inductive ResponseType := TEXT | CODE | MARKDOWN | HTML | JSON | ERROR_TYPE | SYSTEM_TYPE.
Inductive ResponseStatus := SUCCESS | PARTIAL | ERROR | TIMEOUT | RATE_LIMITED | PROCESSING.
Inductive ResponsePriority := LOW | NORMAL | HIGH | URGENT.

Record ResponseMetadata := {
  model_name : string;
  model_version : string;
  response_time : float;
  token_count : Z;
  temperature : float;
  max_tokens : Z;
  finish_reason : string;
  safety_ratings : odict string;
  citations : list string;
  confidence_score : float
}.

Definition ResponseMetadata_default : ResponseMetadata :=
  {| model_name := "gemini-1.5-flash"; model_version := "1.0";
     response_time := 0%float; token_count := 0; temperature := 0.7%float;
     max_tokens := 1000; finish_reason := "stop"; safety_ratings := [];
     citations := []; confidence_score := 0%float |}.

Record AIResponse := {
  response_id : string;
  content : string;
  response_type : ResponseType;
  status : ResponseStatus;
  priority : ResponsePriority;
  metadata : ResponseMetadata;
  created_at : datetime;
  user_id : option string;
  session_id : option string;
  parent_message_id : option string;
  suggested_actions : list string;
  feedback_score : option Z;
  is_helpful : option bool;
  error_message : option string
}.

Definition ResponseType_value (t : ResponseType) : string :=
  match t with
  | TEXT => "text" | CODE => "code" | MARKDOWN => "markdown" | HTML => "html"
  | JSON => "json" | ERROR_TYPE => "error" | SYSTEM_TYPE => "system"
  end.

Definition ResponseType_of (v : pyval) : result ResponseType :=
  match v with
  | PStr s =>
      if String.eqb s "text" then Ok TEXT
      else if String.eqb s "code" then Ok CODE
      else if String.eqb s "markdown" then Ok MARKDOWN
      else if String.eqb s "html" then Ok HTML
      else if String.eqb s "json" then Ok JSON
      else if String.eqb s "error" then Ok ERROR_TYPE
      else if String.eqb s "system" then Ok SYSTEM_TYPE
      else Raise (ValueError "ResponseType")
  | _ => Raise (ValueError "ResponseType")
  end.

Definition ResponseStatus_value (st : ResponseStatus) : string :=
  match st with
  | SUCCESS => "success" | PARTIAL => "partial" | ERROR => "error"
  | TIMEOUT => "timeout" | RATE_LIMITED => "rate_limited"
  | PROCESSING => "processing"
  end.

Definition ResponseStatus_of (v : pyval) : result ResponseStatus :=
  match v with
  | PStr s =>
      if String.eqb s "success" then Ok SUCCESS
      else if String.eqb s "partial" then Ok PARTIAL
      else if String.eqb s "error" then Ok ERROR
      else if String.eqb s "timeout" then Ok TIMEOUT
      else if String.eqb s "rate_limited" then Ok RATE_LIMITED
      else if String.eqb s "processing" then Ok PROCESSING
      else Raise (ValueError "ResponseStatus")
  | _ => Raise (ValueError "ResponseStatus")
  end.

Definition ResponsePriority_value (p : ResponsePriority) : string :=
  match p with
  | LOW => "low" | NORMAL => "normal" | HIGH => "high" | URGENT => "urgent"
  end.

Definition ResponsePriority_of (v : pyval) : result ResponsePriority :=
  match v with
  | PStr s =>
      if String.eqb s "low" then Ok LOW
      else if String.eqb s "normal" then Ok NORMAL
      else if String.eqb s "high" then Ok HIGH
      else if String.eqb s "urgent" then Ok URGENT
      else Raise (ValueError "ResponsePriority")
  | _ => Raise (ValueError "ResponsePriority")
  end.

(** [ResponseMetadata.to_dict] *)
Definition ResponseMetadata_to_dict (md : ResponseMetadata) : odict pyval :=
  [ ("model_name", PStr (model_name md));
    ("model_version", PStr (model_version md));
    ("response_time", PFloat (response_time md));
    ("token_count", PInt (token_count md));
    ("temperature", PFloat (temperature md));
    ("max_tokens", PInt (max_tokens md));
    ("finish_reason", PStr (finish_reason md));
    ("safety_ratings", PDict (prod_map Datatypes.id PStr <$> safety_ratings md));
    ("citations", PList (PStr <$> citations md));
    ("confidence_score", PFloat (confidence_score md)) ].

Definition ResponseMetadata_fields : list string :=
  [ "model_name"; "model_version"; "response_time"; "token_count";
    "temperature"; "max_tokens"; "finish_reason"; "safety_ratings";
    "citations"; "confidence_score" ].

(** [ResponseMetadata] built from a dictionary unpacked into keywords. *)
Definition ResponseMetadata_of_keywords (kw : odict pyval) : result ResponseMetadata :=
  _ ← check_keywords ResponseMetadata_fields kw;
  a ← keyword kw "model_name" as_str (model_name ResponseMetadata_default);
  b ← keyword kw "model_version" as_str (model_version ResponseMetadata_default);
  c ← keyword kw "response_time" as_float (response_time ResponseMetadata_default);
  d ← keyword kw "token_count" as_int (token_count ResponseMetadata_default);
  e ← keyword kw "temperature" as_float (temperature ResponseMetadata_default);
  f ← keyword kw "max_tokens" as_int (max_tokens ResponseMetadata_default);
  g ← keyword kw "finish_reason" as_str (finish_reason ResponseMetadata_default);
  h ← keyword kw "safety_ratings" (as_dict_of as_str) (safety_ratings ResponseMetadata_default);
  i ← keyword kw "citations" (as_list as_str) (citations ResponseMetadata_default);
  j ← keyword kw "confidence_score" as_float (confidence_score ResponseMetadata_default);
  Ok {| model_name := a; model_version := b; response_time := c;
        token_count := d; temperature := e; max_tokens := f;
        finish_reason := g; safety_ratings := h; citations := i;
        confidence_score := j |}.

(** [AIResponse.to_dict] *)
Definition to_dict (r : AIResponse) : odict pyval :=
  [ ("response_id", PStr (response_id r));
    ("content", PStr (content r));
    ("response_type", PStr (ResponseType_value (response_type r)));
    ("status", PStr (ResponseStatus_value (status r)));
    ("priority", PStr (ResponsePriority_value (priority r)));
    ("metadata", PDict (ResponseMetadata_to_dict (metadata r)));
    ("created_at", PStr (isoformat (created_at r)));
    ("user_id", of_optional PStr (user_id r));
    ("session_id", of_optional PStr (session_id r));
    ("parent_message_id", of_optional PStr (parent_message_id r));
    ("suggested_actions", PList (PStr <$> suggested_actions r));
    ("feedback_score", of_optional PInt (feedback_score r));
    ("is_helpful", of_optional PBool (is_helpful r));
    ("error_message", of_optional PStr (error_message r)) ].

(** [AIResponse.from_dict] *)
Definition from_dict (data : odict pyval) : result AIResponse :=
  a ← getitem data "response_id" ≫= as_str;
  b ← getitem data "content" ≫= as_str;
  c ← getitem data "response_type" ≫= ResponseType_of;
  d ← getitem data "status" ≫= ResponseStatus_of;
  e ← getitem data "priority" ≫= ResponsePriority_of;
  f ← (getitem data "metadata" ≫= as_dict) ≫= ResponseMetadata_of_keywords;
  g ← getitem data "created_at" ≫= fromisoformat;
  h ← as_optional as_str (get_or_none data "user_id");
  i ← as_optional as_str (get_or_none data "session_id");
  j ← as_optional as_str (get_or_none data "parent_message_id");
  k ← as_list as_str (get_or data "suggested_actions" (PList []));
  l ← as_optional as_int (get_or_none data "feedback_score");
  m ← as_optional as_bool (get_or_none data "is_helpful");
  n ← as_optional as_str (get_or_none data "error_message");
  Ok {| response_id := a; content := b; response_type := c; status := d;
        priority := e; metadata := f; created_at := g; user_id := h;
        session_id := i; parent_message_id := j; suggested_actions := k;
        feedback_score := l; is_helpful := m; error_message := n |}.

(** [AIResponse(response_id=..., content=...)] *)
Definition AIResponse_new (rid c : string) (t_created : datetime) : AIResponse :=
  {| response_id := rid; content := c; response_type := TEXT; status := SUCCESS;
     priority := NORMAL; metadata := ResponseMetadata_default;
     created_at := t_created; user_id := None; session_id := None;
     parent_message_id := None; suggested_actions := [];
     feedback_score := None; is_helpful := None; error_message := None |}.

Record ResponseCache := {
  cache : odict AIResponse;
  max_size : Z;
  hit_count : Z;
  miss_count : Z
}.

Definition ResponseCache_new (size : Z) : ResponseCache :=
  {| cache := []; max_size := size; hit_count := 0; miss_count := 0 |}.

(** [f"{content}:{user_id or 'anonymous'}"], hashed. *)
Definition _hash_content (c : string) (uid : option string) : string :=
  let cache_key :=
    c +:+ ":" +:+ (if truthy_opt_str uid then default "" uid else "anonymous") in
  Hashlib.md5_hexdigest cache_key.

Definition get (rc : ResponseCache) (c : string) (uid : option string)
    : option AIResponse * ResponseCache :=
  let cache_key := _hash_content c uid in
  match od_get cache_key (cache rc) with
  | Some response =>
      (Some response,
       {| cache := cache rc; max_size := max_size rc;
          hit_count := hit_count rc + 1; miss_count := miss_count rc |})
  | None =>
      (None,
       {| cache := cache rc; max_size := max_size rc;
          hit_count := hit_count rc; miss_count := miss_count rc + 1 |})
  end.

(** [set]: [next(iter(self.cache))] raises [StopIteration] on an empty
    cache. *)
Definition set (rc : ResponseCache) (c : string) (response : AIResponse)
    (uid : option string) : result ResponseCache :=
  let cache_key := _hash_content c uid in
  cache1 ←
    (if max_size rc <=? Z.of_nat (length (cache rc)) then
       oldest_key ← od_first_key (cache rc);
       Ok (od_del oldest_key (cache rc))
     else Ok (cache rc));
  Ok {| cache := od_set cache_key response cache1; max_size := max_size rc;
        hit_count := hit_count rc; miss_count := miss_count rc |}.

(** [AIResponse.add_suggested_action] *)
Definition add_suggested_action (r : AIResponse) (action : string) : AIResponse :=
  if bool_decide (action ∈ suggested_actions r) then r
  else
    {| response_id := response_id r; content := content r;
       response_type := response_type r; status := status r;
       priority := priority r; metadata := metadata r;
       created_at := created_at r; user_id := user_id r;
       session_id := session_id r; parent_message_id := parent_message_id r;
       suggested_actions := suggested_actions r ++ [action];
       feedback_score := feedback_score r; is_helpful := is_helpful r;
       error_message := error_message r |}.

(** [ResponseCache.clear] *)
Definition clear (rc : ResponseCache) : ResponseCache :=
  {| cache := []; max_size := max_size rc; hit_count := 0; miss_count := 0 |}.

(** A request to cache a response: content, response and user
    identifier. *)
Definition cache_request : Type := string * AIResponse * option string.

(** The entry a request stores. *)
Definition cached_entry (q : cache_request) : string * AIResponse :=
  (_hash_content q.1.1 q.2, q.1.2).

(** Consecutive [set] calls. *)
Fixpoint set_all (rc : ResponseCache) (requests : list cache_request)
    : result ResponseCache :=
  match requests with
  | [] => Ok rc
  | q :: requests' =>
      rc1 ← set rc q.1.1 q.1.2 q.2;
      set_all rc1 requests'
  end.

(** The calls on a cache, as a caller issues them. *)
Inductive cache_op :=
  | GetOp (c : string) (uid : option string)
  | SetOp (c : string) (response : AIResponse) (uid : option string).

Fixpoint run_cache (rc : ResponseCache) (ops : list cache_op) : result ResponseCache :=
  match ops with
  | [] => Ok rc
  | GetOp c uid :: ops' => run_cache (get rc c uid).2 ops'
  | SetOp c response uid :: ops' =>
      rc1 ← set rc c response uid;
      run_cache rc1 ops'
  end.

Definition is_get (o : cache_op) : bool :=
  match o with GetOp _ _ => true | SetOp _ _ _ => false end.

End Response.

Module ResponseExamples.
Import Response.

Definition r1 : AIResponse := AIResponse_new "r1" "Hi there" 100.
Definition r2 : AIResponse := AIResponse_new "r2" "Goodbye" 200.
Definition r3 : AIResponse := AIResponse_new "r3" "See you" 300.

(** A cache of size 2 filled by two [set] calls. *)
Definition full_cache : result ResponseCache :=
  rc1 ← set (ResponseCache_new 2) "hello" r1 None;
  set rc1 "bye" r2 None.

(** The same cache after a [set] for the content cached last. *)
Definition full_cache_updated : result ResponseCache :=
  rc2 ← full_cache;
  set rc2 "bye" r3 None.
End ResponseExamples.

(** ** user_models.py *)

Module Users.

Inductive UserRole := GUEST | REGISTERED | PREMIUM | ADMIN.
Inductive Theme := DARK | LIGHT | AUTO.
Inductive Language :=
  | ENGLISH | SPANISH | FRENCH | GERMAN | ITALIAN | PORTUGUESE
  | RUSSIAN | CHINESE | JAPANESE | KOREAN | ARABIC | HINDI.

Record UserPreferences := {
  theme : Theme;
  language : Language;
  notifications : bool;
  sound_effects : bool;
  auto_scroll : bool;
  message_preview : bool;
  typing_indicators : bool;
  message_timestamps : bool;
  compact_mode : bool;
  accessibility_mode : bool
}.

Definition UserPreferences_default : UserPreferences :=
  {| theme := DARK; language := ENGLISH; notifications := true;
     sound_effects := false; auto_scroll := true; message_preview := true;
     typing_indicators := true; message_timestamps := true;
     compact_mode := false; accessibility_mode := false |}.

(** [last_activity] is annotated [Optional[datetime]]; [User.from_dict]
    stores in it whatever the dictionary holds, so the field is kept as
    a value of any type. *)
Record UserStats := {
  total_messages : Z;
  total_sessions : Z;
  total_time_spent : Z;
  favorite_topics : list string;
  most_active_hours : list Z;
  average_session_length : float;
  last_activity : pyval
}.

Definition UserStats_default : UserStats :=
  {| total_messages := 0; total_sessions := 0; total_time_spent := 0;
     favorite_topics := []; most_active_hours := [];
     average_session_length := 0%float; last_activity := PNone |}.

Record User := {
  user_id : string;
  username : string;
  email : option string;
  role : UserRole;
  preferences : UserPreferences;
  stats : UserStats;
  created_at : datetime;
  last_login : option datetime;
  is_active : bool;
  session_token : option string;
  metadata : odict pyval
}.

(** [User(user_id=..., username=..., email=..., role=...)] *)
Definition User_new (uid name : string) (mail : option string) (r : UserRole)
    (t_created : datetime) : User :=
  {| user_id := uid; username := name; email := mail; role := r;
     preferences := UserPreferences_default; stats := UserStats_default;
     created_at := t_created; last_login := None; is_active := true;
     session_token := None; metadata := [] |}.

Definition login (u : User) (token : string) (now : datetime) : User :=
  {| user_id := user_id u; username := username u; email := email u;
     role := role u; preferences := preferences u; stats := stats u;
     created_at := created_at u; last_login := Some now; is_active := true;
     session_token := Some token; metadata := metadata u |}.

Definition logout (u : User) : User :=
  {| user_id := user_id u; username := username u; email := email u;
     role := role u; preferences := preferences u; stats := stats u;
     created_at := created_at u; last_login := last_login u;
     is_active := is_active u; session_token := None; metadata := metadata u |}.

Definition UserRole_value (r : UserRole) : string :=
  match r with
  | GUEST => "guest" | REGISTERED => "registered" | PREMIUM => "premium"
  | ADMIN => "admin"
  end.

Definition UserRole_of (v : pyval) : result UserRole :=
  match v with
  | PStr s =>
      if String.eqb s "guest" then Ok GUEST
      else if String.eqb s "registered" then Ok REGISTERED
      else if String.eqb s "premium" then Ok PREMIUM
      else if String.eqb s "admin" then Ok ADMIN
      else Raise (ValueError "UserRole")
  | _ => Raise (ValueError "UserRole")
  end.

Definition Theme_value (t : Theme) : string :=
  match t with DARK => "dark" | LIGHT => "light" | AUTO => "auto" end.

Definition Theme_of (v : pyval) : result Theme :=
  match v with
  | PStr s =>
      if String.eqb s "dark" then Ok DARK
      else if String.eqb s "light" then Ok LIGHT
      else if String.eqb s "auto" then Ok AUTO
      else Raise (ValueError "Theme")
  | _ => Raise (ValueError "Theme")
  end.

Definition Language_value (l : Language) : string :=
  match l with
  | ENGLISH => "en" | SPANISH => "es" | FRENCH => "fr" | GERMAN => "de"
  | ITALIAN => "it" | PORTUGUESE => "pt" | RUSSIAN => "ru" | CHINESE => "zh"
  | JAPANESE => "ja" | KOREAN => "ko" | ARABIC => "ar" | HINDI => "hi"
  end.

Definition Language_of (v : pyval) : result Language :=
  match v with
  | PStr s =>
      if String.eqb s "en" then Ok ENGLISH
      else if String.eqb s "es" then Ok SPANISH
      else if String.eqb s "fr" then Ok FRENCH
      else if String.eqb s "de" then Ok GERMAN
      else if String.eqb s "it" then Ok ITALIAN
      else if String.eqb s "pt" then Ok PORTUGUESE
      else if String.eqb s "ru" then Ok RUSSIAN
      else if String.eqb s "zh" then Ok CHINESE
      else if String.eqb s "ja" then Ok JAPANESE
      else if String.eqb s "ko" then Ok KOREAN
      else if String.eqb s "ar" then Ok ARABIC
      else if String.eqb s "hi" then Ok HINDI
      else Raise (ValueError "Language")
  | _ => Raise (ValueError "Language")
  end.

(** [UserPreferences.to_dict] *)
Definition UserPreferences_to_dict (p : UserPreferences) : odict pyval :=
  [ ("theme", PStr (Theme_value (theme p)));
    ("language", PStr (Language_value (language p)));
    ("notifications", PBool (notifications p));
    ("sound_effects", PBool (sound_effects p));
    ("auto_scroll", PBool (auto_scroll p));
    ("message_preview", PBool (message_preview p));
    ("typing_indicators", PBool (typing_indicators p));
    ("message_timestamps", PBool (message_timestamps p));
    ("compact_mode", PBool (compact_mode p));
    ("accessibility_mode", PBool (accessibility_mode p)) ].

(** [UserPreferences.from_dict] *)
Definition UserPreferences_from_dict (data : odict pyval) : result UserPreferences :=
  a ← Theme_of (get_or data "theme" (PStr (Theme_value DARK)));
  b ← Language_of (get_or data "language" (PStr (Language_value ENGLISH)));
  c ← as_bool (get_or data "notifications" (PBool true));
  d ← as_bool (get_or data "sound_effects" (PBool false));
  e ← as_bool (get_or data "auto_scroll" (PBool true));
  f ← as_bool (get_or data "message_preview" (PBool true));
  g ← as_bool (get_or data "typing_indicators" (PBool true));
  h ← as_bool (get_or data "message_timestamps" (PBool true));
  i ← as_bool (get_or data "compact_mode" (PBool false));
  j ← as_bool (get_or data "accessibility_mode" (PBool false));
  Ok {| theme := a; language := b; notifications := c; sound_effects := d;
        auto_scroll := e; message_preview := f; typing_indicators := g;
        message_timestamps := h; compact_mode := i; accessibility_mode := j |}.

(** [self.last_activity.isoformat() if self.last_activity else None] *)
Definition isoformat_if_set (v : pyval) : result pyval :=
  if truthy v then
    match v with
    | PDatetime d => Ok (PStr (isoformat d))
    | _ => Raise (AttributeError "isoformat")
    end
  else Ok PNone.

(** [UserStats.to_dict] *)
Definition UserStats_to_dict (st : UserStats) : result (odict pyval) :=
  last ← isoformat_if_set (last_activity st);
  Ok [ ("total_messages", PInt (total_messages st));
       ("total_sessions", PInt (total_sessions st));
       ("total_time_spent", PInt (total_time_spent st));
       ("favorite_topics", PList (PStr <$> favorite_topics st));
       ("most_active_hours", PList (PInt <$> most_active_hours st));
       ("average_session_length", PFloat (average_session_length st));
       ("last_activity", last) ].

Definition UserStats_fields : list string :=
  [ "total_messages"; "total_sessions"; "total_time_spent"; "favorite_topics";
    "most_active_hours"; "average_session_length"; "last_activity" ].

(** [UserStats] built from a dictionary unpacked into keywords; the
    value of [last_activity] is stored as it is. *)
Definition UserStats_of_keywords (kw : odict pyval) : result UserStats :=
  _ ← check_keywords UserStats_fields kw;
  a ← keyword kw "total_messages" as_int 0;
  b ← keyword kw "total_sessions" as_int 0;
  c ← keyword kw "total_time_spent" as_int 0;
  d ← keyword kw "favorite_topics" (as_list as_str) [];
  e ← keyword kw "most_active_hours" (as_list as_int) [];
  f ← keyword kw "average_session_length" as_float 0%float;
  g ← keyword kw "last_activity" Ok PNone;
  Ok {| total_messages := a; total_sessions := b; total_time_spent := c;
        favorite_topics := d; most_active_hours := e;
        average_session_length := f; last_activity := g |}.

(** [User.to_dict] *)
Definition to_dict (u : User) : result (odict pyval) :=
  stats' ← UserStats_to_dict (stats u);
  Ok [ ("user_id", PStr (user_id u));
       ("username", PStr (username u));
       ("email", of_optional PStr (email u));
       ("role", PStr (UserRole_value (role u)));
       ("preferences", PDict (UserPreferences_to_dict (preferences u)));
       ("stats", PDict stats');
       ("created_at", PStr (isoformat (created_at u)));
       ("last_login", of_optional (fun t => PStr (isoformat t)) (last_login u));
       ("is_active", PBool (is_active u));
       ("session_token", of_optional PStr (session_token u));
       ("metadata", PDict (metadata u)) ].

(** [User.from_dict] *)
Definition from_dict (data : odict pyval) : result User :=
  a ← getitem data "user_id" ≫= as_str;
  b ← getitem data "username" ≫= as_str;
  c ← as_optional as_str (get_or_none data "email");
  d ← getitem data "role" ≫= UserRole_of;
  e ← (getitem data "preferences" ≫= as_dict) ≫= UserPreferences_from_dict;
  f ← (getitem data "stats" ≫= as_dict) ≫= UserStats_of_keywords;
  g ← getitem data "created_at" ≫= fromisoformat;
  h ← (if truthy (get_or_none data "last_login")
       then t ← getitem data "last_login" ≫= fromisoformat; Ok (Some t)
       else Ok None);
  i ← as_bool (get_or data "is_active" (PBool true));
  j ← as_optional as_str (get_or_none data "session_token");
  k ← as_dict (get_or data "metadata" (PDict []));
  Ok {| user_id := a; username := b; email := c; role := d; preferences := e;
        stats := f; created_at := g; last_login := h; is_active := i;
        session_token := j; metadata := k |}.

(** [u] with the value [v] in [stats.last_activity]. *)
Definition with_last_activity (u : User) (v : pyval) : User :=
  {| user_id := user_id u; username := username u; email := email u;
     role := role u; preferences := preferences u;
     stats :=
       {| total_messages := total_messages (stats u);
          total_sessions := total_sessions (stats u);
          total_time_spent := total_time_spent (stats u);
          favorite_topics := favorite_topics (stats u);
          most_active_hours := most_active_hours (stats u);
          average_session_length := average_session_length (stats u);
          last_activity := v |};
     created_at := created_at u; last_login := last_login u;
     is_active := is_active u; session_token := session_token u;
     metadata := metadata u |}.

(** The manager holds each user object under its key in [users];
    [login] and [logout] on the object found under a key update the
    entry of that key. *)
Record UserManager := {
  users : gmap string User;
  active_sessions : gmap string string;
  max_users : Z
}.

Definition UserManager_new : UserManager :=
  {| users := ∅; active_sessions := ∅; max_users := 10000 |}.

Definition create_user (um : UserManager) (uid name : string)
    (mail : option string) (r : UserRole) (t_created : datetime)
    : User * UserManager :=
  let user := User_new uid name mail r t_created in
  (user, {| users := <[uid := user]> (users um);
            active_sessions := active_sessions um;
            max_users := max_users um |}).

Definition get_user (um : UserManager) (uid : string) : option User :=
  users um !! uid.

(** [get_user_by_session], with the key under which the user it
    returns is stored. [if user_id:] is false for an absent token and
    for the empty identifier. *)
Definition session_entry (um : UserManager) (token : string)
    : option (string * User) :=
  match active_sessions um !! token with
  | Some uid =>
      if truthy_str uid then (fun user => (uid, user)) <$> get_user um uid
      else None
  | None => None
  end.

Definition get_user_by_session (um : UserManager) (token : string) : option User :=
  snd <$> session_entry um token.

Definition authenticate_user (um : UserManager) (uid token : string)
    (now : datetime) : bool * UserManager :=
  match get_user um uid with
  | Some user =>
      if is_active user then
        (true, {| users := <[uid := login user token now]> (users um);
                  active_sessions := <[token := uid]> (active_sessions um);
                  max_users := max_users um |})
      else (false, um)
  | None => (false, um)
  end.

(** [user.logout()] acts on the object [get_user_by_session] returned,
    the one stored under the identifier that the index gives. *)
Definition logout_user (um : UserManager) (token : string) : bool * UserManager :=
  match session_entry um token with
  | Some (uid, user) =>
      (true, {| users := <[uid := logout user]> (users um);
                active_sessions := delete token (active_sessions um);
                max_users := max_users um |})
  | None => (false, um)
  end.

(** The names bound at module level in [user_models.py]: its imports
    ([from datetime import datetime], the [typing] names, [dataclass],
    [field], [Enum]) and its classes. *)
Definition module_names : list string :=
  [ "datetime"; "Dict"; "Optional"; "Any"; "List"; "dataclass"; "field";
    "Enum"; "UserRole"; "Theme"; "Language"; "UserPreferences"; "UserStats";
    "User"; "UserManager" ].

(** Looking up a global name that is neither bound in the module nor a
    builtin raises [NameError]. *)
Definition global_name (name : string) : result unit :=
  if bool_decide (name ∈ module_names) then Ok tt else Raise (NameError name).

(** [cleanup_inactive_sessions]: the first statement reads the clock and
    then looks up [timedelta]. The loop goes through the entries of the
    index. *)
Definition cleanup_inactive_sessions (um : UserManager) (max_age_hours : Z)
    (now : datetime) : result UserManager :=
  _ ← global_name "timedelta";
  let cutoff_time := now - timedelta_hours max_age_hours in
  let sessions_to_remove :=
    omap (fun '(session_token, uid) =>
            match get_user um uid with
            | Some user =>
                match last_login user with
                | Some t => if t <? cutoff_time then Some session_token else None
                | None => None
                end
            | None => None
            end)
         (map_to_list (active_sessions um)) in
  Ok (foldl (fun um' session_token => (logout_user um' session_token).2)
        um sessions_to_remove).

(** The operations of the manager, as a caller issues them. An
    exception leaves the manager as the method left it. *)
Inductive op :=
  | CreateUser (uid name : string) (mail : option string) (r : UserRole) (t_created : datetime)
  | AuthenticateUser (uid token : string) (now : datetime)
  | GetUserBySession (token : string)
  | LogoutUser (token : string)
  | CleanupInactiveSessions (max_age_hours : Z) (now : datetime).

Definition step (um : UserManager) (o : op) : UserManager :=
  match o with
  | CreateUser uid name mail r t => (create_user um uid name mail r t).2
  | AuthenticateUser uid token now => (authenticate_user um uid token now).2
  | GetUserBySession _ => um
  | LogoutUser token => (logout_user um token).2
  | CleanupInactiveSessions h now =>
      match cleanup_inactive_sessions um h now with
      | Ok um' => um'
      | Raise _ => um
      end
  end.

Definition run (um : UserManager) (ops : list op) : UserManager :=
  foldl step um ops.

(** Every token of the index refers to a user whose [session_token] is
    that token. *)
Definition index_consistent (um : UserManager) : Prop :=
  forall token uid,
    active_sessions um !! token = Some uid ->
    exists u, users um !! uid = Some u /\ session_token u = Some token.

(** [create_user] does not replace a user the index refers to, and
    [authenticate_user] is not applied to a user the index refers to
    under another token. *)
Definition op_guarded (um : UserManager) (o : op) : Prop :=
  match o with
  | CreateUser uid _ _ _ _ =>
      map_Forall (fun _ uid' => uid' <> uid) (active_sessions um)
  | AuthenticateUser uid token _ =>
      map_Forall (fun token' uid' => uid' = uid -> token' = token) (active_sessions um)
  | _ => True
  end.

Fixpoint run_guarded (um : UserManager) (ops : list op) : Prop :=
  match ops with
  | [] => True
  | o :: ops' => op_guarded um o /\ run_guarded (step um o) ops'
  end.

(** [UserStats.add_topic] *)
Definition add_topic (st : UserStats) (topic : string) : UserStats :=
  if bool_decide (topic ∈ favorite_topics st) then st
  else
    {| total_messages := total_messages st;
       total_sessions := total_sessions st;
       total_time_spent := total_time_spent st;
       favorite_topics := favorite_topics st ++ [topic];
       most_active_hours := most_active_hours st;
       average_session_length := average_session_length st;
       last_activity := last_activity st |}.

#[global] Instance UserRole_eq_dec : EqDecision UserRole.
Proof. solve_decision. Defined.

(** The table of [User.can_access_feature]. *)
Definition feature_permissions : odict (list UserRole) :=
  [ ("basic_chat", [GUEST; REGISTERED; PREMIUM; ADMIN]);
    ("chat_history", [REGISTERED; PREMIUM; ADMIN]);
    ("advanced_features", [PREMIUM; ADMIN]);
    ("admin_panel", [ADMIN]);
    ("unlimited_messages", [PREMIUM; ADMIN]);
    ("priority_support", [PREMIUM; ADMIN]);
    ("custom_themes", [PREMIUM; ADMIN]);
    ("export_data", [REGISTERED; PREMIUM; ADMIN]) ].

(** [User.can_access_feature] *)
Definition can_access_feature (u : User) (feature : string) : bool :=
  let allowed_roles := default [] (od_get feature feature_permissions) in
  bool_decide (role u ∈ allowed_roles).

(** The roles from the least to the most privileged. *)
Definition role_rank (r : UserRole) : Z :=
  match r with GUEST => 0 | REGISTERED => 1 | PREMIUM => 2 | ADMIN => 3 end.

(** [UserManager.get_user_count] *)
Definition get_user_count (um : UserManager) : Z :=
  Z.of_nat (size (users um)).

End Users.

Module UsersExamples.
Import Users.

(** A user signs in a second time with a new token. *)
Definition second_login : list op :=
  [ CreateUser "u1" "alice" None GUEST 10;
    AuthenticateUser "u1" "tok1" 20;
    AuthenticateUser "u1" "tok2" 30 ].

(** Two users sign in and one signs out. *)
Definition two_users : list op :=
  [ CreateUser "u1" "alice" None GUEST 10;
    CreateUser "u2" "bob" (Some "bob@example.org") REGISTERED 11;
    AuthenticateUser "u1" "tok1" 20;
    AuthenticateUser "u2" "tok2" 21;
    GetUserBySession "tok1";
    LogoutUser "tok1";
    CleanupInactiveSessions 24 30 ].

(** A manager with one user "u1". *)
Definition one_user : UserManager :=
  (create_user UserManager_new "u1" "alice" None GUEST 10).2.

(** A manager with one user whose identifier is the empty string. *)
Definition empty_id_user : UserManager :=
  (create_user UserManager_new "" "anon" None GUEST 10).2.
End UsersExamples.

Module SerialExamples.

(** 2024-02-29T13:45:59.123456 and 2024-03-01T08:00:00. *)
Definition t_created : datetime := 63844811159123456.
Definition t_active : datetime := 63844876800000000.

Definition message : Chat.ChatMessage :=
  {| Chat.id := "m1"; Chat.role := Chat.MODEL; Chat.content := "Hello!";
     Chat.timestamp := t_created; Chat.status := Chat.DELIVERED;
     Chat.metadata := [("tokens", PInt 3); ("tags", PList [PStr "greeting"])] |}.

Definition response : Response.AIResponse :=
  {| Response.response_id := "r1"; Response.content := "print(1)";
     Response.response_type := Response.CODE; Response.status := Response.PARTIAL;
     Response.priority := Response.HIGH;
     Response.metadata :=
       {| Response.model_name := "gemini-1.5-flash"; Response.model_version := "1.0";
          Response.response_time := 12.5%float; Response.token_count := 7;
          Response.temperature := 0.5%float; Response.max_tokens := 1000;
          Response.finish_reason := "stop";
          Response.safety_ratings := [("harassment", "low")];
          Response.citations := ["https://example.org"];
          Response.confidence_score := 0.25%float |};
     Response.created_at := t_created; Response.user_id := Some "u1";
     Response.session_id := None; Response.parent_message_id := Some "m1";
     Response.suggested_actions := ["retry"; "explain"];
     Response.feedback_score := Some 4; Response.is_helpful := Some true;
     Response.error_message := None |}.

(** A user as [create_user] makes it, signed in once. *)
Definition new_user : Users.User :=
  Users.login (Users.User_new "u1" "alice" (Some "alice@example.org")
                 Users.REGISTERED t_created) "tok1" t_active.

(** The same user after one [stats.add_session(30)], which sets
    [stats.last_activity] to the time of the call. *)
Definition user_with_session : Users.User :=
  {| Users.user_id := Users.user_id new_user;
     Users.username := Users.username new_user;
     Users.email := Users.email new_user;
     Users.role := Users.role new_user;
     Users.preferences := Users.preferences new_user;
     Users.stats :=
       {| Users.total_messages := 0; Users.total_sessions := 1;
          Users.total_time_spent := 30; Users.favorite_topics := [];
          Users.most_active_hours := [];
          Users.average_session_length := 30%float;
          Users.last_activity := PDatetime t_active |};
     Users.created_at := Users.created_at new_user;
     Users.last_login := Users.last_login new_user;
     Users.is_active := Users.is_active new_user;
     Users.session_token := Users.session_token new_user;
     Users.metadata := Users.metadata new_user |}.
End SerialExamples.

(** * Properties *)

(** ** Facts about the Python idioms *)

(** Closed statements are settled by evaluation, conjunct by conjunct. *)
Ltac by_evaluation :=
  repeat match goal with |- _ /\ _ => split end; vm_compute; reflexivity.

Module PyFacts.

Lemma slice_from_neg_zero {A} (l : list A) : slice_from (- 0) l = l.
Proof.
  unfold slice_from. simpl. replace (Z.to_nat _) with 0%nat by lia. done.
Qed.

Lemma slice_from_neg_pos {A} (m : Z) (l : list A) :
  1 <= m -> slice_from (- m) l = drop (length l - Z.to_nat m) l.
Proof.
  intros Hm. unfold slice_from.
  destruct (Z.ltb_spec (- m) 0) as [_|?]; [|lia].
  f_equal. lia.
Qed.

Lemma length_slice_from_neg {A} (m : Z) (l : list A) :
  1 <= m -> length (slice_from (- m) l) = Nat.min (length l) (Z.to_nat m).
Proof.
  intros Hm. rewrite slice_from_neg_pos by done. rewrite length_drop. lia.
Qed.

Lemma slice_from_neg_suffix {A} (m : Z) (l : list A) :
  1 <= m -> (Z.to_nat m <= length l)%nat ->
  exists old, l = old ++ slice_from (- m) l /\
              length (slice_from (- m) l) = Z.to_nat m.
Proof.
  intros Hm Hl. rewrite slice_from_neg_pos by done.
  exists (take (length l - Z.to_nat m) l). split.
  - by rewrite take_drop.
  - rewrite length_drop. lia.
Qed.

Section odict_facts.
Context {V : Type}.
Implicit Types (d : odict V) (k : string) (v : V).

Lemma od_get_None k d : od_get k d = None <-> k ∉ keys d.
Proof.
  unfold keys. induction d as [|[k' v'] d IH]; simpl.
  - split; [intros _; apply not_elem_of_nil | done].
  - rewrite not_elem_of_cons. destruct (String.eqb_spec k k'); [|tauto].
    split; [done | tauto].
Qed.

Lemma od_get_Some_elem k v d : od_get k d = Some v -> (k, v) ∈ d.
Proof.
  induction d as [|[k' v'] d IH]; simpl; [done|].
  destruct (String.eqb_spec k k') as [->|].
  - intros [= ->]. apply list_elem_of_here.
  - intros. apply list_elem_of_further. auto.
Qed.

Lemma od_get_set_eq k v d : od_get k (od_set k v d) = Some v.
Proof.
  induction d as [|[k' v'] d IH]; simpl.
  - by rewrite String.eqb_refl.
  - destruct (String.eqb_spec k k') as [->|Hne]; simpl.
    + by rewrite String.eqb_refl.
    + by destruct (String.eqb_spec k k').
Qed.

Lemma od_get_set_ne k k' v d : k <> k' -> od_get k' (od_set k v d) = od_get k' d.
Proof.
  intros Hne. induction d as [|[k0 v0] d IH]; simpl.
  - by destruct (String.eqb_spec k' k); [congruence|].
  - destruct (String.eqb_spec k k0) as [->|]; simpl.
    + by destruct (String.eqb_spec k' k0); [congruence|].
    + by rewrite IH.
Qed.

Lemma od_set_fresh k v d : od_get k d = None -> od_set k v d = d ++ [(k, v)].
Proof.
  induction d as [|[k' v'] d IH]; simpl; [done|].
  destruct (String.eqb_spec k k'); [done|]. intros. by rewrite IH.
Qed.

Lemma length_od_set_present k v v0 d :
  od_get k d = Some v0 -> length (od_set k v d) = length d.
Proof.
  induction d as [|[k' v'] d IH]; simpl; [done|].
  destruct (String.eqb_spec k k'); [done|]. intros. simpl. by rewrite IH.
Qed.

Lemma length_od_set_le k v d : (length (od_set k v d) <= S (length d))%nat.
Proof.
  destruct (od_get k d) eqn:E.
  - erewrite length_od_set_present by done. lia.
  - rewrite od_set_fresh by done. rewrite length_app. simpl. lia.
Qed.

Lemma keys_od_set_present k v v0 d :
  od_get k d = Some v0 -> keys (od_set k v d) = keys d.
Proof.
  unfold keys. induction d as [|[k' v'] d IH]; simpl; [done|].
  destruct (String.eqb_spec k k') as [->|]; [done|]. intros. simpl.
  f_equal. by apply IH.
Qed.

Lemma length_od_del_le k d : (length (od_del k d) <= length d)%nat.
Proof.
  induction d as [|[k' v'] d IH]; simpl; [lia|].
  destruct (String.eqb k k'); simpl; lia.
Qed.

Lemma length_od_del_present k v d :
  od_get k d = Some v -> S (length (od_del k d)) = length d.
Proof.
  induction d as [|[k' v'] d IH]; simpl; [done|].
  destruct (String.eqb k k'); simpl; [done|]. intros. by rewrite IH.
Qed.

Lemma od_get_del_ne k k' d : k <> k' -> od_get k' (od_del k d) = od_get k' d.
Proof.
  intros Hne. induction d as [|[k0 v0] d IH]; simpl; [done|].
  destruct (String.eqb_spec k k0) as [->|]; simpl.
  - by destruct (String.eqb_spec k' k0); [congruence|].
  - by rewrite IH.
Qed.

Lemma od_get_del_eq k d : NoDup (keys d) -> od_get k (od_del k d) = None.
Proof.
  unfold keys. induction d as [|[k0 v0] d IH]; simpl; [done|].
  rewrite NoDup_cons. intros [Hnin Hnd].
  destruct (String.eqb_spec k k0) as [->|]; simpl.
  - by apply od_get_None.
  - destruct (String.eqb_spec k k0); [done|]. auto.
Qed.

Lemma od_of_items_app_fresh (items acc : list (string * V)) :
  NoDup (keys (acc ++ items)) ->
  fold_left (fun d kv => od_set kv.1 kv.2 d) items acc = acc ++ items.
Proof.
  revert acc. induction items as [|[k v] items IH]; intros acc Hnd; simpl.
  - by rewrite app_nil_r.
  - rewrite od_set_fresh.
    + rewrite IH; rewrite <- app_assoc; done.
    + apply od_get_None. unfold keys in *. rewrite fmap_app in Hnd.
      apply NoDup_app in Hnd as (_ & Hdis & _).
      intros Hin. apply (Hdis k Hin). simpl. apply list_elem_of_here.
Qed.

Lemma od_of_items_NoDup (items : list (string * V)) :
  NoDup (keys items) -> od_of_items items = items.
Proof. intros. unfold od_of_items. by rewrite od_of_items_app_fresh. Qed.

Lemma length_od_of_items_le (items : list (string * V)) :
  (length (od_of_items items) <= length items)%nat.
Proof.
  unfold od_of_items.
  cut (forall acc, (length (fold_left (fun d kv => od_set kv.1 kv.2 d) items acc)
                    <= length acc + length items)%nat).
  { intros H. apply (H []). }
  induction items as [|[k v] items IH]; intros acc; simpl; [lia|].
  etrans; [apply IH|]. pose proof (length_od_set_le k v acc). lia.
Qed.
End odict_facts.

Section sorted_facts.
Context {A : Type} (key : A -> Z).

Lemma insert_by_Permutation x l : insert_by key x l ≡ₚ x :: l.
Proof.
  induction l as [|y l IH]; simpl; [done|].
  destruct (key x <=? key y); [done|].
  rewrite IH. apply Permutation_swap.
Qed.

Lemma sorted_Permutation l : sorted key l ≡ₚ l.
Proof.
  induction l as [|x l IH]; simpl; [done|].
  rewrite insert_by_Permutation. by rewrite IH.
Qed.

Lemma length_sorted l : length (sorted key l) = length l.
Proof. apply Permutation_length, sorted_Permutation. Qed.

Lemma insert_by_StronglySorted x l :
  StronglySorted (key_le key) l -> StronglySorted (key_le key) (insert_by key x l).
Proof.
  induction 1 as [|y l Hs IH Hall]; simpl.
  - repeat constructor.
  - destruct (Z.leb_spec (key x) (key y)) as [Hle|Hgt].
    + constructor; [by constructor|].
      constructor; [done|].
      eapply Forall_impl; [exact Hall|]. unfold key_le. intros; simpl in *. lia.
    + constructor; [done|].
      rewrite insert_by_Permutation. constructor; [unfold key_le; lia | done].
Qed.

Lemma sorted_StronglySorted l : StronglySorted (key_le key) (sorted key l).
Proof.
  induction l; simpl; [constructor | by apply insert_by_StronglySorted].
Qed.

(** In a sorted list, what [drop] removes lies below what it keeps. *)
Lemma StronglySorted_take_drop n l a b :
  StronglySorted (key_le key) l -> a ∈ take n l -> b ∈ drop n l -> key a <= key b.
Proof.
  intros Hs. revert n. induction Hs as [|y l Hs IH Hall]; intros n.
  - rewrite take_nil. by intros ?%elem_of_nil.
  - destruct n as [|n]; simpl; [by intros ?%elem_of_nil|].
    intros [->|Ha]%elem_of_cons Hb; [|by eapply IH].
    rewrite Forall_forall in Hall. apply Hall.
    by apply (subseteq_drop n l).
Qed.
End sorted_facts.

End PyFacts.

(** ** The digest on the test suite of RFC 1321 *)

Module HashlibFacts.
Import Hashlib.

Lemma md5_test_suite :
  md5_hexdigest "" = "d41d8cd98f00b204e9800998ecf8427e" /\
  md5_hexdigest "a" = "0cc175b9c0f1b6a831c399e269772661" /\
  md5_hexdigest "abc" = "900150983cd24fb0d6963f7d28e17f72" /\
  md5_hexdigest "message digest" = "f96b697d7cb7938d525a2f31aaf161d0" /\
  md5_hexdigest "abcdefghijklmnopqrstuvwxyz" = "c3fcd3d76192e4007dfb496cca67e13b" /\
  md5_hexdigest
    "12345678901234567890123456789012345678901234567890123456789012345678901234567890"
    = "57edf4a22be3c955ac49da2e2107b67a".
Proof. by_evaluation. Qed.

(** The fingerprint of a content without user identifier, and with the
    empty identifier, is that of the content followed by ":anonymous". *)
Lemma hash_content_anonymous :
  Response._hash_content "hello" None = "04686c544f617a9d1eba6ce1227376d1" /\
  Response._hash_content "hello" (Some "") = Response._hash_content "hello" None /\
  Response._hash_content "hello" (Some "u1") = "fdb959eb816532e17c0515aeba765f7b".
Proof. by_evaluation. Qed.

End HashlibFacts.

(** ** ChatHistory *)

Module ChatFacts.
Import Chat PyFacts.

Lemma max_sessions_cleanup_old h :
  max_sessions (_cleanup_old_sessions h) = max_sessions h.
Proof. unfold _cleanup_old_sessions. by destruct (_ <? _). Qed.

Lemma max_sessions_step h o : max_sessions (step h o) = max_sessions h.
Proof.
  destruct o; simpl.
  - by rewrite max_sessions_cleanup_old.
  - unfold get_or_create_session. destruct (get_session _ _); simpl; [done|].
    by rewrite max_sessions_cleanup_old.
  - unfold delete_session. by destruct (od_mem _ _).
  - unfold append_message. by destruct (get_session _ _).
  - unfold cleanup_messages. destruct (get_session _ _); [|done].
    by destruct (_ <? _).
Qed.

Lemma max_messages_step h o :
  max_messages_per_session (step h o) = max_messages_per_session h.
Proof.
  assert (Hc : forall h', max_messages_per_session (_cleanup_old_sessions h')
                          = max_messages_per_session h').
  { intros h'. unfold _cleanup_old_sessions. by destruct (_ <? _). }
  destruct o; simpl.
  - by rewrite Hc.
  - unfold get_or_create_session. destruct (get_session _ _); simpl; [done|].
    by rewrite Hc.
  - unfold delete_session. by destruct (od_mem _ _).
  - unfold append_message. by destruct (get_session _ _).
  - unfold cleanup_messages. destruct (get_session _ _); [|done].
    by destruct (_ <? _).
Qed.

(** With a positive bound, [_cleanup_old_sessions] establishes the
    session bound whatever the mapping held before. *)
Lemma cleanup_old_sessions_bounded h :
  1 <= max_sessions h -> sessions_bounded (_cleanup_old_sessions h).
Proof.
  intros Hpos. unfold sessions_bounded, _cleanup_old_sessions.
  destruct (Z.ltb_spec (max_sessions h) (Z.of_nat (length (sessions h)))); [|done].
  simpl. pose proof (length_od_of_items_le
    (slice_from (- max_sessions h) (sorted (fun x => last_activity x.2) (sessions h)))) as Hle.
  rewrite length_slice_from_neg in Hle by done. lia.
Qed.

Lemma step_bounded h o :
  1 <= max_sessions h -> sessions_bounded h -> sessions_bounded (step h o).
Proof.
  intros Hpos Hb. destruct o; simpl.
  - by apply cleanup_old_sessions_bounded.
  - unfold get_or_create_session. destruct (get_session _ _); simpl; [done|].
    by apply cleanup_old_sessions_bounded.
  - unfold delete_session. destruct (od_mem _ _); simpl; [|done].
    unfold sessions_bounded in *. simpl.
    pose proof (length_od_del_le sid (sessions h)). lia.
  - unfold append_message, get_session. destruct (od_get _ _) eqn:E; [|done].
    unfold sessions_bounded in *. simpl.
    by erewrite length_od_set_present.
  - unfold cleanup_messages, get_session. destruct (od_get _ _) eqn:E; [|done].
    destruct (_ <? _); [|done].
    unfold sessions_bounded in *. simpl.
    by erewrite length_od_set_present.
Qed.

Lemma run_bounded ops : forall h,
  1 <= max_sessions h -> sessions_bounded h -> sessions_bounded (run h ops).
Proof.
  induction ops as [|o ops IH]; intros h Hpos Hb; simpl; [done|].
  apply IH; [by rewrite max_sessions_step | by apply step_bounded].
Qed.

Lemma run_max_sessions ops : forall h, max_sessions (run h ops) = max_sessions h.
Proof.
  induction ops as [|o ops IH]; intros h; simpl; [done|].
  by rewrite IH, max_sessions_step.
Qed.

Lemma run_max_messages ops : forall h,
  max_messages_per_session (run h ops) = max_messages_per_session h.
Proof.
  induction ops as [|o ops IH]; intros h; simpl; [done|].
  by rewrite IH, max_messages_step.
Qed.

(** *** cleanup_messages *)

(** Nothing changes for an absent session. *)
Lemma cleanup_messages_absent h sid :
  get_session h sid = None -> cleanup_messages h sid = h.
Proof. unfold cleanup_messages. by intros ->. Qed.

(** Nothing changes for a session within the limit. *)
Lemma cleanup_messages_within h sid s :
  get_session h sid = Some s ->
  Z.of_nat (length (messages s)) <= max_messages_per_session h ->
  cleanup_messages h sid = h.
Proof.
  unfold cleanup_messages. intros -> Hle.
  by destruct (Z.ltb_spec (max_messages_per_session h) (Z.of_nat (length (messages s)))); [lia|].
Qed.

(** With a positive limit, a session over the limit keeps its last
    [max_messages_per_session] messages, in order; its other fields and
    the other sessions are as before. *)
Lemma cleanup_messages_truncates h sid s :
  1 <= max_messages_per_session h ->
  get_session h sid = Some s ->
  max_messages_per_session h < Z.of_nat (length (messages s)) ->
  exists old kept,
    messages s = old ++ kept /\
    Z.of_nat (length kept) = max_messages_per_session h /\
    get_session (cleanup_messages h sid) sid = Some (set_messages s kept) /\
    (forall sid', sid' <> sid ->
       get_session (cleanup_messages h sid) sid' = get_session h sid') /\
    keys (sessions (cleanup_messages h sid)) = keys (sessions h).
Proof.
  intros Hpos Hget Hlt.
  destruct (slice_from_neg_suffix (max_messages_per_session h) (messages s))
    as (old & Hsplit & Hlen); [done | lia |].
  exists old, (slice_from (- max_messages_per_session h) (messages s)).
  unfold cleanup_messages. rewrite Hget.
  destruct (Z.ltb_spec (max_messages_per_session h) (Z.of_nat (length (messages s)))); [|lia].
  unfold get_session in *. simpl. repeat split.
  - done.
  - lia.
  - apply od_get_set_eq.
  - intros sid' Hne. by apply od_get_set_ne.
  - by eapply keys_od_set_present.
Qed.

(** With the limit 0 the slice [messages[-0:]] is the whole list: a
    session over the limit keeps every message. *)
Lemma cleanup_messages_zero_limit h sid s :
  max_messages_per_session h = 0 ->
  get_session h sid = Some s ->
  get_session (cleanup_messages h sid) sid = Some s.
Proof.
  intros H0 Hget. unfold cleanup_messages. rewrite Hget, H0.
  destruct (_ <? _); [|done].
  unfold get_session. simpl. rewrite od_get_set_eq. f_equal.
  rewrite slice_from_neg_zero. by destruct s.
Qed.

(** C2. [cleanup_messages] on a history whose [max_messages_per_session]
    is 0 and whose session "s" holds one message: the session is over
    the limit, [messages[-0:]] selects the whole sequence, and the
    session still holds its one message where the claim requires it to
    hold none. *)
Theorem cleanup_messages_zero_limit_keeps_message :
  max_messages_per_session ChatExamples.zero_limit_history = 0 /\
  (messages <$> get_session ChatExamples.zero_limit_history "s")
    = Some [ChatExamples.msg "m1" "hello" 20] /\
  (messages <$> get_session
     (cleanup_messages ChatExamples.zero_limit_history "s") "s")
    = Some [ChatExamples.msg "m1" "hello" 20].
Proof. by_evaluation. Qed.

(** *** Eviction keeps the most recently active sessions *)

Lemma NoDup_keys_drop {V} n (d : odict V) : NoDup (keys d) -> NoDup (keys (drop n d)).
Proof.
  unfold keys. rewrite fmap_drop. intros Hnd.
  eapply sublist_NoDup; [done | apply sublist_drop].
Qed.

(** One [create_session] with a fresh identifier. [P] lists the entries
    created so far, [E] those among them that were evicted. *)
Lemma create_session_fresh_step h sid uid t1 t2 (E P : list (string * ChatSession)) :
  1 <= max_sessions h ->
  NoDup (keys (sessions h)) ->
  sid ∉ keys (sessions h) ->
  P ≡ₚ E ++ sessions h ->
  length (sessions h) = Nat.min (length P) (Z.to_nat (max_sessions h)) ->
  older_than E (sessions h) ->
  let h' := (create_session h sid uid t1 t2).2 in
  exists E',
    P ++ [(sid, ChatSession_new sid uid t1 t2)] ≡ₚ E' ++ sessions h' /\
    length (sessions h') = Nat.min (length P + 1) (Z.to_nat (max_sessions h)) /\
    older_than E' (sessions h') /\
    NoDup (keys (sessions h')) /\
    keys (sessions h') ⊆ sid :: keys (sessions h).
Proof.
  intros Hpos Hnd Hfresh HP Hlen Hold. simpl.
  rewrite od_set_fresh by by apply od_get_None.
  unfold _cleanup_old_sessions. simpl.
  set (x := (sid, ChatSession_new sid uid t1 t2)).
  set (S1 := sessions h ++ [x]).
  assert (Hnd1 : NoDup (keys S1)).
  { unfold keys, S1. rewrite fmap_app. apply NoDup_app. repeat split; [done| |].
    - intros k Hk Hk'%list_elem_of_singleton. by subst k.
    - apply NoDup_singleton. }
  assert (HlenS1 : length S1 = S (length (sessions h))).
  { unfold S1. rewrite length_app. simpl. lia. }
  destruct (Z.ltb_spec (max_sessions h) (Z.of_nat (length S1))) as [Hover|Hfit]; simpl.
  - set (srt := sorted (fun y : string * ChatSession => last_activity y.2) S1).
    assert (Hperm : srt ≡ₚ S1) by apply sorted_Permutation.
    assert (Hsrt : StronglySorted (key_le (fun y : string * ChatSession => last_activity y.2)) srt)
      by apply sorted_StronglySorted.
    assert (Hnds : NoDup (keys srt)).
    { unfold keys. by rewrite Hperm. }
    rewrite slice_from_neg_pos by done.
    assert (Hls : length srt = length S1) by by apply Permutation_length.
    set (n := (length srt - Z.to_nat (max_sessions h))%nat).
    rewrite od_of_items_NoDup by by apply NoDup_keys_drop.
    exists (E ++ take n srt). repeat split.
    + rewrite <- app_assoc, take_drop, Hperm. unfold S1.
      rewrite HP. by rewrite app_assoc.
    + rewrite length_drop. unfold n. lia.
    + intros e r [He|He]%elem_of_app Hr.
      * assert (Hr1 : r ∈ S1) by (rewrite <- Hperm; by apply (subseteq_drop n srt)).
        apply elem_of_app in Hr1 as [Hr1|Hr1%list_elem_of_singleton]; [by apply Hold|].
        subst r.
        (* [r] is the new entry: go through the first dropped entry *)
        destruct (take n srt) as [|d tk] eqn:Htk.
        { apply (f_equal length) in Htk. rewrite length_take in Htk.
          simpl in Htk. unfold n in Htk. lia. }
        assert (Hd : d ∈ take n srt) by (rewrite Htk; apply list_elem_of_here).
        assert (Hdx : key_le (fun y : string * ChatSession => last_activity y.2) d x)
          by by eapply StronglySorted_take_drop.
        assert (Hd1 : d ∈ S1) by (rewrite <- Hperm; by apply (subseteq_take n srt)).
        apply elem_of_app in Hd1 as [Hd1|Hd1%list_elem_of_singleton]; [|subst d].
        -- pose proof (Hold e d He Hd1). unfold key_le in Hdx. simpl in *. lia.
        -- exfalso. apply NoDup_fmap_1 in Hnds.
           rewrite <- (take_drop n srt) in Hnds.
           apply NoDup_app in Hnds as (_ & Hdis & _). by apply (Hdis x).
      * by eapply (StronglySorted_take_drop (fun y : string * ChatSession => last_activity y.2)).
    + by apply NoDup_keys_drop.
    + intros k Hk. unfold keys in *. rewrite fmap_drop in Hk.
      apply (subseteq_drop n) in Hk. rewrite Hperm in Hk. unfold S1 in Hk.
      rewrite fmap_app in Hk. apply elem_of_app in Hk as [Hk|Hk%list_elem_of_singleton].
      * by apply list_elem_of_further.
      * subst k. apply list_elem_of_here.
  - assert (HE : E = []).
    { apply Permutation_length in HP.
      rewrite length_app in HP. destruct E; [done|]. simpl in HP. lia. }
    subst E. exists []. repeat split.
    + simpl in *. unfold S1. by rewrite HP.
    + lia.
    + intros e r He. by apply elem_of_nil in He.
    + done.
    + intros k Hk. unfold keys, S1 in *. rewrite fmap_app in Hk.
      apply elem_of_app in Hk as [Hk|Hk%list_elem_of_singleton].
      * by apply list_elem_of_further.
      * subst k. apply list_elem_of_here.
Qed.

Lemma step_create_op h c :
  step h (create_op c)
  = (create_session h (created_sid c) c.1.1.2 c.1.2 c.2).2.
Proof. by destruct c as [[[sid uid] t1] t2]. Qed.

Lemma created_item_eq c :
  created_item c = (created_sid c, ChatSession_new (created_sid c) c.1.1.2 c.1.2 c.2).
Proof. by destruct c as [[[sid uid] t1] t2]. Qed.

(** A run of [create_session] calls with fresh, pairwise distinct
    identifiers keeps the split of the created entries into evicted and
    retained ones, the retained ones being the later active. *)
Lemma create_sessions_fresh_run cs : forall h (E P : list (string * ChatSession)),
  1 <= max_sessions h ->
  NoDup (keys (sessions h) ++ (created_sid <$> cs)) ->
  P ≡ₚ E ++ sessions h ->
  length (sessions h) = Nat.min (length P) (Z.to_nat (max_sessions h)) ->
  older_than E (sessions h) ->
  exists E',
    P ++ (created_item <$> cs) ≡ₚ E' ++ sessions (run h (create_op <$> cs)) /\
    length (sessions (run h (create_op <$> cs)))
      = Nat.min (length P + length cs) (Z.to_nat (max_sessions h)) /\
    older_than E' (sessions (run h (create_op <$> cs))).
Proof.
  induction cs as [|c cs IH]; intros h E P Hpos Hnd HP Hlen Hold.
  - exists E. simpl. rewrite app_nil_r, Nat.add_0_r. done.
  - apply NoDup_app in Hnd as (Hnd & Hdis & Hcs).
    rewrite fmap_cons in Hdis, Hcs. apply NoDup_cons in Hcs as [Hc Hcs].
    assert (Hfresh : created_sid c ∉ keys (sessions h)).
    { intros Hin. apply (Hdis _ Hin). apply list_elem_of_here. }
    destruct (create_session_fresh_step h (created_sid c) c.1.1.2 c.1.2 c.2 E P)
      as (E1 & HP1 & Hlen1 & Hold1 & Hnd1 & Hsub); try done.
    rewrite !fmap_cons. simpl. rewrite step_create_op, created_item_eq.
    set (h1 := (create_session h (created_sid c) c.1.1.2 c.1.2 c.2).2) in *.
    assert (Hmax : max_sessions h1 = max_sessions h).
    { unfold h1. simpl. by rewrite max_sessions_cleanup_old. }
    destruct (IH h1 E1 (P ++ [(created_sid c, ChatSession_new (created_sid c) c.1.1.2 c.1.2 c.2)]))
      as (E' & HP' & Hlen' & Hold').
    + by rewrite Hmax.
    + apply NoDup_app. repeat split; [done| |done].
      intros k Hk Hk'. apply Hsub in Hk.
      apply elem_of_cons in Hk as [->|Hk]; [done|].
      apply (Hdis _ Hk). by apply list_elem_of_further.
    + done.
    + rewrite Hmax, length_app. done.
    + done.
    + exists E'. rewrite <- Hmax. repeat split; [|  |done].
      * rewrite <- HP'. by rewrite <- app_assoc.
      * rewrite Hlen', length_app. simpl. f_equal. lia.
Qed.

(** More [create_session] calls than [max_sessions], with distinct
    identifiers, on a new history: exactly [max_sessions] sessions
    remain, and no evicted session was active later than a retained one. *)
Lemma create_sessions_retain_most_recent (max_s max_m : Z) (cs : list create_args) :
  1 <= max_s ->
  NoDup (created_sid <$> cs) ->
  max_s < Z.of_nat (length cs) ->
  Z.of_nat (length (sessions (run (ChatHistory_new max_s max_m) (create_op <$> cs)))) = max_s /\
  exists evicted,
    created_item <$> cs
      ≡ₚ evicted ++ sessions (run (ChatHistory_new max_s max_m) (create_op <$> cs)) /\
    older_than evicted (sessions (run (ChatHistory_new max_s max_m) (create_op <$> cs))).
Proof.
  intros Hpos Hnd Hmore.
  destruct (create_sessions_fresh_run cs (ChatHistory_new max_s max_m) [] [])
    as (E & HP & Hlen & Hold); simpl; try done.
  - intros e r He. by apply elem_of_nil in He.
  - simpl in *. split; [lia|]. by exists E.
Qed.

(** The message limit is what [cleanup_messages] establishes for the
    session it is called on. *)
Lemma cleanup_messages_bounded h sid s :
  1 <= max_messages_per_session h ->
  get_session (cleanup_messages h sid) sid = Some s ->
  Z.of_nat (length (messages s)) <= max_messages_per_session h.
Proof.
  intros Hpos. destruct (get_session h sid) as [s0|] eqn:Hget.
  - destruct (Z.le_gt_cases (Z.of_nat (length (messages s0))) (max_messages_per_session h))
      as [Hle|Hgt].
    + rewrite (cleanup_messages_within h sid s0) by done. congruence.
    + destruct (cleanup_messages_truncates h sid s0) as (old & kept & _ & Hk & Hg & _);
        [done | done | lia |].
      rewrite Hg. intros [= <-]. simpl. lia.
  - rewrite cleanup_messages_absent by done. congruence.
Qed.

(** C1, as the code has it. For a history with [max_sessions >= 1] that
    starts within the session bound, the mapping holds at most
    [max_sessions] sessions after every sequence of [create_session],
    [get_or_create_session], [delete_session], message appends and
    [cleanup_messages]. The message limit is not kept by appends; it
    holds for a session right after [cleanup_messages] on it (limit
    [>= 1]). And after more than [max_sessions] calls of [create_session]
    with distinct identifiers on a new history, exactly [max_sessions]
    sessions remain, none of the evicted ones having a later
    [last_activity] than a retained one. *)
Theorem history_bounds (h : ChatHistory) (ops : list op) (sid : string)
    (cs : list create_args) :
  1 <= max_sessions h ->
  sessions_bounded h ->
  sessions_bounded (run h ops) /\
  (1 <= max_messages_per_session h ->
   forall s, get_session (cleanup_messages (run h ops) sid) sid = Some s ->
     Z.of_nat (length (messages s)) <= max_messages_per_session h) /\
  (NoDup (created_sid <$> cs) ->
   max_sessions h < Z.of_nat (length cs) ->
   Z.of_nat (length (sessions
     (run (ChatHistory_new (max_sessions h) (max_messages_per_session h))
          (create_op <$> cs)))) = max_sessions h /\
   exists evicted,
     created_item <$> cs
       ≡ₚ evicted ++ sessions
            (run (ChatHistory_new (max_sessions h) (max_messages_per_session h))
                 (create_op <$> cs)) /\
     older_than evicted (sessions
       (run (ChatHistory_new (max_sessions h) (max_messages_per_session h))
            (create_op <$> cs)))).
Proof.
  intros Hpos Hb. split; [by apply run_bounded|]. split.
  - intros Hm s Hs. rewrite <- (run_max_messages ops h).
    apply (cleanup_messages_bounded _ sid); [by rewrite run_max_messages | done].
  - intros Hnd Hmore. by apply create_sessions_retain_most_recent.
Qed.

(** The theorem at a history of at most 2 sessions and 2 messages per
    session, a mixed sequence of operations, and five creations. *)
Lemma history_bounds_witness :
  sessions_bounded (run (ChatHistory_new 2 2) ChatExamples.mixed_ops) /\
  (forall s,
     get_session (cleanup_messages (run (ChatHistory_new 2 2) ChatExamples.mixed_ops) "a") "a"
       = Some s ->
     Z.of_nat (length (messages s)) <= 2) /\
  Z.of_nat (length (sessions
     (run (ChatHistory_new 2 2) (create_op <$> ChatExamples.five_creates)))) = 2.
Proof.
  destruct (history_bounds (ChatHistory_new 2 2) ChatExamples.mixed_ops "a"
              ChatExamples.five_creates) as (H1 & H2 & H3).
  - simpl. lia.
  - unfold sessions_bounded. simpl. lia.
  - split; [exact H1|]. split.
    + apply H2. simpl. lia.
    + apply H3.
      * apply (bool_decide_unpack _). vm_compute. reflexivity.
      * simpl. lia.
Defined.

(** Appends do not keep the message limit: with
    [max_messages_per_session = 1], a session created and appended to
    twice holds two messages. *)
Lemma append_exceeds_message_limit :
  exists s,
    get_session ChatExamples.after_two_appends "s" = Some s /\
    max_messages_per_session ChatExamples.after_two_appends
      < Z.of_nat (length (messages s)).
Proof. eexists. split; [vm_compute; reflexivity|]. vm_compute. reflexivity. Qed.

(** With [max_sessions = 0] the slice [sorted_sessions[-0:]] keeps every
    session: one [create_session] leaves one session in the mapping. *)
Lemma zero_max_sessions_keeps_session :
  max_sessions ChatExamples.zero_sessions_history = 0 /\
  length (sessions ChatExamples.zero_sessions_history) = 1%nat.
Proof. split; reflexivity. Qed.

End ChatFacts.

(** ** RateLimiter *)

Module RateLimitFacts.
Import RateLimit.

Lemma entry_store rl key info t : entry (store rl key info) key t = info.
Proof. unfold entry, store. simpl. by rewrite lookup_insert_eq. Qed.

Lemma entry_fresh rl key t : users rl !! key = None -> entry rl key t = RateLimitInfo_new t.
Proof. unfold entry. by intros ->. Qed.

Lemma store_store rl key i1 i2 : store (store rl key i1) key i2 = store rl key i2.
Proof. unfold store. simpl. by rewrite insert_insert_eq. Qed.

Lemma store_entry rl key info t :
  users rl !! key = Some info -> store rl key (entry rl key t) = rl.
Proof.
  intros H. unfold entry, store. rewrite H, insert_id by done. by destruct rl.
Qed.

(** The four ways a call goes, by the entry it finds. *)

Lemma is_allowed_counts rl key now t_new :
  is_blocked (entry rl key t_new) = false ->
  now - window_start (entry rl key t_new) < timedelta_minutes (window_minutes rl) ->
  requests_made (entry rl key t_new) < max_requests rl ->
  is_allowed rl key now t_new =
    (true, store rl key
       {| requests_made := requests_made (entry rl key t_new) + 1;
          window_start := window_start (entry rl key t_new);
          last_request := Some now;
          is_blocked := false;
          block_until := block_until (entry rl key t_new) |}).
Proof.
  intros Hb Hw Hr. unfold is_allowed, check_blocked. rewrite Hb.
  unfold reset_window.
  destruct (Z.leb_spec (timedelta_minutes (window_minutes rl))
              (now - window_start (entry rl key t_new))); [lia|].
  unfold count_request.
  destruct (Z.leb_spec (max_requests rl) (requests_made (entry rl key t_new))); [lia|].
  by rewrite Hb.
Qed.

Lemma is_allowed_blocks rl key now t_new :
  is_blocked (entry rl key t_new) = false ->
  now - window_start (entry rl key t_new) < timedelta_minutes (window_minutes rl) ->
  max_requests rl <= requests_made (entry rl key t_new) ->
  is_allowed rl key now t_new =
    (false, store rl key
       {| requests_made := requests_made (entry rl key t_new);
          window_start := window_start (entry rl key t_new);
          last_request := last_request (entry rl key t_new);
          is_blocked := true;
          block_until := Some (now + timedelta_minutes (window_minutes rl)) |}).
Proof.
  intros Hb Hw Hr. unfold is_allowed, check_blocked. rewrite Hb.
  unfold reset_window.
  destruct (Z.leb_spec (timedelta_minutes (window_minutes rl))
              (now - window_start (entry rl key t_new))); [lia|].
  unfold count_request.
  by destruct (Z.leb_spec (max_requests rl) (requests_made (entry rl key t_new))); [|lia].
Qed.

Lemma is_allowed_refuses rl key now t_new until :
  is_blocked (entry rl key t_new) = true ->
  block_until (entry rl key t_new) = Some until ->
  now < until ->
  is_allowed rl key now t_new = (false, store rl key (entry rl key t_new)).
Proof.
  intros Hb Hu Hlt. unfold is_allowed, check_blocked. rewrite Hb, Hu.
  by destruct (Z.ltb_spec now until); [|lia].
Qed.

Lemma is_allowed_unblocks rl key now t_new until :
  is_blocked (entry rl key t_new) = true ->
  block_until (entry rl key t_new) = Some until ->
  until <= now ->
  timedelta_minutes (window_minutes rl) <= now - window_start (entry rl key t_new) ->
  0 < max_requests rl ->
  is_allowed rl key now t_new =
    (true, store rl key
       {| requests_made := 1;
          window_start := now;
          last_request := Some now;
          is_blocked := false;
          block_until := None |}).
Proof.
  intros Hb Hu Hle Hw Hpos. unfold is_allowed, check_blocked. rewrite Hb, Hu.
  destruct (Z.ltb_spec now until); [lia|].
  unfold reset_window. simpl.
  destruct (Z.leb_spec (timedelta_minutes (window_minutes rl))
              (now - window_start (entry rl key t_new))); [|lia].
  unfold count_request. simpl.
  by destruct (Z.leb_spec (max_requests rl) 0); [lia|].
Qed.

(** A call that answers [True] has counted the request in the window
    it found. *)
Lemma is_allowed_true_counts rl key now t_new rl' :
  is_allowed rl key now t_new = (true, rl') ->
  exists info',
    users rl' !! key = Some info' /\
    requests_made info' = window_counter rl key now t_new + 1 /\
    last_request info' = Some now.
Proof.
  unfold is_allowed, window_counter.
  destruct (check_blocked (entry rl key t_new) now) as [info1|] eqn:Hcb; [|done].
  assert (H1 : requests_made info1 = requests_made (entry rl key t_new) /\
               window_start info1 = window_start (entry rl key t_new)).
  { unfold check_blocked in Hcb.
    destruct (is_blocked _); [|by inversion Hcb].
    destruct (block_until _); [|by inversion Hcb].
    destruct (_ <? _); [done|]. by inversion Hcb. }
  destruct H1 as [Hr Hw].
  unfold reset_window, count_request. rewrite Hw.
  destruct (Z.leb_spec (timedelta_minutes (window_minutes rl))
              (now - window_start (entry rl key t_new))); simpl.
  - destruct (_ <=? _); [done|]. intros [= <-].
    eexists. unfold store. simpl. rewrite lookup_insert_eq. done.
  - destruct (_ <=? _); [done|]. intros [= <-].
    eexists. unfold store. simpl. rewrite lookup_insert_eq, Hr. done.
Qed.

(** While the block lasts, calls are refused and change nothing. *)
Lemma calls_while_blocked rl key info until clock :
  users rl !! key = Some info ->
  is_blocked info = true ->
  block_until info = Some until ->
  Forall (fun tc : datetime * datetime => tc.1 < until) clock ->
  calls rl key clock = (replicate (length clock) false, rl).
Proof.
  intros Hget Hb Hu. induction 1 as [|[now t_new] clock Hlt _ IH]; simpl; [done|].
  assert (He : entry rl key t_new = info) by (unfold entry; by rewrite Hget).
  rewrite (is_allowed_refuses rl key now t_new until); rewrite ?He; try done.
  rewrite <- He, (store_entry rl key info) by done. by rewrite IH.
Qed.

(** C3. A limiter with [max_requests = 3] and [window_minutes = 60],
    a key with no entry, four calls at non-decreasing clock readings
    that all fall within the window opened by the first: the answers are
    true, true, true, false; the fourth call leaves the key blocked
    with [block_until] one window length after it; every later call
    before [block_until] is refused; a call at or after [block_until]
    is allowed, unblocks the key and restarts its window with this one
    request counted. Any call that answers true has added one to the
    window counter it found. *)
Theorem three_per_hour (m : gmap string RateLimitInfo) (key : string)
    (t1 c1 t2 c2 t3 c3 t4 c4 : datetime) :
  m !! key = None ->
  t1 <= c1 -> c1 <= t2 -> t2 <= t3 -> t3 <= t4 ->
  t4 - c1 < timedelta_minutes 60 ->
  exists rl4,
    calls {| max_requests := 3; window_minutes := 60; users := m |} key
      [(t1, c1); (t2, c2); (t3, c3); (t4, c4)]
    = ([true; true; true; false], rl4) /\
    max_requests rl4 = 3 /\ window_minutes rl4 = 60 /\
    users rl4 !! key =
      Some {| requests_made := 3; window_start := c1; last_request := Some t3;
              is_blocked := true;
              block_until := Some (t4 + timedelta_minutes 60) |} /\
    (forall clock,
       Forall (fun tc : datetime * datetime => tc.1 < t4 + timedelta_minutes 60) clock ->
       calls rl4 key clock = (replicate (length clock) false, rl4)) /\
    (forall t5 c5,
       t4 + timedelta_minutes 60 <= t5 ->
       exists rl5,
         is_allowed rl4 key t5 c5 = (true, rl5) /\
         users rl5 !! key =
           Some {| requests_made := 1; window_start := t5; last_request := Some t5;
                   is_blocked := false; block_until := None |}) /\
    (forall rl now t_new rl',
       is_allowed rl key now t_new = (true, rl') ->
       requests_made <$> users rl' !! key = Some (window_counter rl key now t_new + 1)).
Proof.
  intros Hfresh H1 H2 H3 H4 Hin.
  set (rl0 := {| max_requests := 3; window_minutes := 60; users := m |}).
  assert (HW : timedelta_minutes 60 = 3600000000) by reflexivity.
  unfold calls.
  rewrite (is_allowed_counts rl0 key t1 c1);
    rewrite ?(entry_fresh rl0 key c1 Hfresh); simpl; try done; try lia.
  set (rl1 := store rl0 key _).
  rewrite (is_allowed_counts rl1 key t2 c2);
    unfold rl1; rewrite ?entry_store; simpl; try done; try lia.
  rewrite store_store. set (rl2 := store rl0 key _).
  rewrite (is_allowed_counts rl2 key t3 c3);
    unfold rl2; rewrite ?entry_store; simpl; try done; try lia.
  rewrite store_store. set (rl3 := store rl0 key _).
  rewrite (is_allowed_blocks rl3 key t4 c4);
    unfold rl3; rewrite ?entry_store; simpl; try done; try lia.
  rewrite store_store. set (rl4 := store rl0 key _).
  assert (Hget : users rl4 !! key =
      Some {| requests_made := 3; window_start := c1; last_request := Some t3;
              is_blocked := true; block_until := Some (t4 + timedelta_minutes 60) |}).
  { unfold rl4, store. simpl. by rewrite lookup_insert_eq. }
  exists rl4. repeat split; try done.
  - intros clock Hclock. by eapply calls_while_blocked.
  - intros t5 c5 H5.
    rewrite (is_allowed_unblocks rl4 key t5 c5 (t4 + timedelta_minutes 60));
      unfold rl4; rewrite ?entry_store; simpl; try done; try lia.
    eexists. split; [done|]. unfold store. simpl. by rewrite lookup_insert_eq.
  - intros rl now t_new rl' Hok.
    destruct (is_allowed_true_counts rl key now t_new rl' Hok) as (info' & -> & <- & _).
    done.
Qed.

(** The theorem at four calls one second apart on a new limiter. *)
Lemma three_per_hour_witness :
  (calls RateLimitExamples.limiter "alice" RateLimitExamples.four_calls).1
  = [true; true; true; false].
Proof.
  destruct (three_per_hour ∅ "alice"
              RateLimitExamples.t0 (RateLimitExamples.t0 + 5)
              (RateLimitExamples.t0 + RateLimitExamples.second)
              (RateLimitExamples.t0 + RateLimitExamples.second + 5)
              (RateLimitExamples.t0 + 2 * RateLimitExamples.second)
              (RateLimitExamples.t0 + 2 * RateLimitExamples.second + 5)
              (RateLimitExamples.t0 + 3 * RateLimitExamples.second)
              (RateLimitExamples.t0 + 3 * RateLimitExamples.second + 5))
    as (rl4 & Hcalls & _); [reflexivity | vm_compute; discriminate .. | reflexivity |].
  exact (f_equal fst Hcalls).
Defined.

(** *** get_remaining_requests and get_reset_time *)

(** A key without an entry has no reset time. *)
Lemma reset_time_of_unseen_key :
  ~ exists t, get_reset_time (RateLimiter_new 100 60) "never-seen" = Some t.
Proof. intros [t Ht]. vm_compute in Ht. discriminate. Qed.

(** Any [is_allowed] call leaves an entry for its key. *)
Lemma is_allowed_leaves_entry rl key now t_new :
  is_Some (users (is_allowed rl key now t_new).2 !! key).
Proof.
  unfold is_allowed. destruct (check_blocked _ _).
  - destruct (count_request _ _ _ _). simpl. by rewrite lookup_insert_eq.
  - simpl. by rewrite lookup_insert_eq.
Qed.

(** C10, as the code has it. For a key with an entry, [get_reset_time]
    is [window_start + window_minutes] of the entry, where that sum is a
    datetime of the library (the code raises OverflowError where it is
    not), and [get_remaining_requests] is
    [max(0, max_requests - requests_made)]; for a key without an entry,
    [get_reset_time] is absent and [get_remaining_requests] is
    [max_requests]. A key has an entry once [is_allowed] was called for
    it: after the first call for a key, with clock readings and
    deadlines in the range of the library, the window starts at one of
    the two readings and [get_reset_time] is that start plus the
    window. *)
Theorem remaining_and_reset (rl : RateLimiter) (key : string) :
  (forall info,
     users rl !! key = Some info ->
     datetime_in_range (window_start info) ->
     datetime_in_range (window_start info + timedelta_minutes (window_minutes rl)) ->
     get_reset_time rl key
       = Some (window_start info + timedelta_minutes (window_minutes rl))) /\
  get_remaining_requests rl key
    = from_option (fun info => Z.max 0 (max_requests rl - requests_made info))
        (max_requests rl) (users rl !! key) /\
  (users rl !! key = None ->
     get_reset_time rl key = None /\ get_remaining_requests rl key = max_requests rl) /\
  (forall now t_new,
     users rl !! key = None ->
     call_in_range rl (now, t_new) ->
     datetime_in_range (t_new + timedelta_minutes (window_minutes rl)) ->
     exists info,
       users (is_allowed rl key now t_new).2 !! key = Some info /\
       (window_start info = t_new \/ window_start info = now) /\
       datetime_in_range (window_start info + timedelta_minutes (window_minutes rl)) /\
       get_reset_time (is_allowed rl key now t_new).2 key
         = Some (window_start info + timedelta_minutes (window_minutes rl))).
Proof.
  unfold get_reset_time, get_remaining_requests.
  split; [|split; [|split]].
  - by intros info -> _ _.
  - by destruct (users rl !! key).
  - by intros ->.
  - intros now t_new Hnone (Hnow & Hnew & Hdeadline) Hnew'.
    cbn [fst snd] in Hnow, Hnew, Hdeadline.
    unfold is_allowed, entry. rewrite Hnone.
    unfold check_blocked, reset_window, count_request, RateLimitInfo_new, store.
    cbn [is_blocked block_until window_start requests_made].
    destruct (_ <=? now - t_new); cbn [requests_made window_start];
      destruct (max_requests rl <=? 0); cbn [snd users window_minutes];
      rewrite lookup_insert_eq; eexists; (split; [reflexivity|]);
      cbn [window_start]; (split; [by (left + right)|]); by split.
Qed.

(** The theorem at a key without an entry, and after its first call. *)
Lemma remaining_and_reset_witness :
  get_reset_time (RateLimiter_new 100 60) "never-seen" = None /\
  get_remaining_requests (RateLimiter_new 100 60) "never-seen" = 100 /\
  get_reset_time
    (is_allowed (RateLimiter_new 100 60) "never-seen"
       RateLimitExamples.t0 (RateLimitExamples.t0 + 5)).2 "never-seen"
    = Some (RateLimitExamples.t0 + 5 + RateLimitExamples.hour).
Proof.
  destruct (remaining_and_reset (RateLimiter_new 100 60) "never-seen")
    as (_ & _ & Hnone & Hfirst).
  destruct (Hnone eq_refl) as [Hreset Hremaining].
  split; [exact Hreset|]. split; [exact Hremaining|].
  destruct (Hfirst RateLimitExamples.t0 (RateLimitExamples.t0 + 5) eq_refl)
    as (info & Hinfo & _ & _ & Hget).
  - unfold call_in_range, datetime_in_range. cbn [fst snd].
    repeat split; vm_compute; congruence.
  - unfold datetime_in_range. split; vm_compute; congruence.
  - rewrite Hget. vm_compute in Hinfo. injection Hinfo as <-. reflexivity.
Defined.

End RateLimitFacts.

(** ** ResponseCache *)

Module ResponseFacts.
Import Response PyFacts.

(** [set] completes unless the cache is empty and [max_size] is not
    positive; it then stores the response under the fingerprint, after
    dropping the oldest entry when the cache held [max_size] entries or
    more. *)
Lemma set_spec rc c response uid :
  set rc c response uid =
    match cache rc with
    | [] =>
        if max_size rc <=? 0 then Raise StopIteration
        else Ok {| cache := [(_hash_content c uid, response)];
                   max_size := max_size rc;
                   hit_count := hit_count rc; miss_count := miss_count rc |}
    | (k0, v0) :: rest =>
        Ok {| cache :=
                od_set (_hash_content c uid) response
                  (if max_size rc <=? Z.of_nat (length (cache rc))
                   then rest else cache rc);
              max_size := max_size rc;
              hit_count := hit_count rc; miss_count := miss_count rc |}
    end.
Proof.
  unfold set. destruct (cache rc) as [|[k0 v0] rest] eqn:Hc.
  - change (Z.of_nat (length [])) with 0. by destruct (max_size rc <=? 0).
  - destruct (max_size rc <=? Z.of_nat (length ((k0, v0) :: rest))); [|done].
    cbn [od_first_key mbind result_bind od_del]. by rewrite String.eqb_refl.
Qed.

Lemma set_returns rc c response uid :
  1 <= max_size rc \/ cache rc <> [] ->
  exists rc', set rc c response uid = Ok rc'.
Proof.
  intros H. rewrite set_spec. destruct (cache rc) as [|[k0 v0] rest].
  - destruct H as [H|H]; [|done].
    destruct (Z.leb_spec (max_size rc) 0); [lia|]. by eexists.
  - by eexists.
Qed.

Lemma set_lookup rc c response uid rc' :
  set rc c response uid = Ok rc' ->
  od_get (_hash_content c uid) (cache rc') = Some response /\
  max_size rc' = max_size rc /\
  hit_count rc' = hit_count rc /\ miss_count rc' = miss_count rc.
Proof.
  rewrite set_spec. destruct (cache rc) as [|[k0 v0] rest].
  - destruct (_ <=? _); [done|]. intros [= <-]. cbn [cache od_get].
    by rewrite String.eqb_refl.
  - intros [= <-]. cbn [cache max_size hit_count miss_count].
    by rewrite od_get_set_eq.
Qed.

(** C6, as the code has it. For a cache with [max_size >= 1] holding
    at most [max_size] entries, [set] completes and leaves at most
    [max_size] entries. It evicts exactly when the cache already holds
    [max_size] entries, whether or not the fingerprint is among them:
    the oldest entry by insertion order is removed, then the response is
    stored. Below [max_size] nothing is evicted. *)
Theorem set_keeps_bound (rc : ResponseCache) (c : string) (response : AIResponse)
    (uid : option string) :
  1 <= max_size rc ->
  Z.of_nat (length (cache rc)) <= max_size rc ->
  exists rc',
    set rc c response uid = Ok rc' /\
    max_size rc' = max_size rc /\
    Z.of_nat (length (cache rc')) <= max_size rc' /\
    (Z.of_nat (length (cache rc)) < max_size rc ->
       cache rc' = od_set (_hash_content c uid) response (cache rc)) /\
    (Z.of_nat (length (cache rc)) = max_size rc ->
       exists oldest rest,
         cache rc = oldest :: rest /\
         cache rc' = od_set (_hash_content c uid) response rest).
Proof.
  intros Hpos Hb. rewrite set_spec.
  destruct (cache rc) as [|[k0 v0] rest] eqn:Hc.
  - destruct (Z.leb_spec (max_size rc) 0); [lia|].
    eexists. split; [done|]. cbn [cache max_size length].
    split; [done|]. split; [lia|]. split; [done|].
    intros H0. change (Z.of_nat 0) with 0 in H0. lia.
  - eexists. split; [done|]. cbn [cache max_size].
    destruct (Z.leb_spec (max_size rc) (Z.of_nat (length ((k0, v0) :: rest)))) as [Hfull|Hroom].
    + split; [done|]. split; [|split].
      * pose proof (length_od_set_le (_hash_content c uid) response rest).
        cbn [length] in Hb, Hfull. lia.
      * intros. lia.
      * intros _. by exists (k0, v0), rest.
    + split; [done|]. split; [|split].
      * pose proof (length_od_set_le (_hash_content c uid) response ((k0, v0) :: rest)). lia.
      * done.
      * intros. lia.
Qed.

(** The theorem at a cache of size 2 holding two entries. *)
Lemma set_keeps_bound_witness :
  exists rc rc',
    ResponseExamples.full_cache = Ok rc /\
    set rc "bye" ResponseExamples.r3 None = Ok rc' /\
    Z.of_nat (length (cache rc')) <= max_size rc'.
Proof.
  eexists. 
  destruct (set_keeps_bound
    {| cache := [("04686c544f617a9d1eba6ce1227376d1", ResponseExamples.r1);
                 ("036c214ad706b66b557e3671f558d4ca", ResponseExamples.r2)];
       max_size := 2; hit_count := 0; miss_count := 0 |}
    "bye" ResponseExamples.r3 None) as (rc' & Hset & _ & Hlen & _).
  - simpl. lia.
  - simpl. lia.
  - exists rc'. split; [vm_compute; reflexivity|]. split; [exact Hset | exact Hlen].
Defined.

(** A [set] for a fingerprint that is in a full cache evicts the oldest
    entry all the same: the cache of size 2 holds the entries of "hello"
    and "bye"; storing a new response for "bye" would not exceed the
    bound, and the entry of "hello" is gone afterwards. *)
Lemma set_present_key_evicts_oldest :
  exists rc rc',
    ResponseExamples.full_cache = Ok rc /\
    ResponseExamples.full_cache_updated = Ok rc' /\
    Z.of_nat (length (cache rc)) = max_size rc /\
    od_mem (_hash_content "bye" None) (cache rc) = true /\
    od_mem (_hash_content "hello" None) (cache rc) = true /\
    od_mem (_hash_content "hello" None) (cache rc') = false.
Proof.
  eexists. eexists.
  split; [vm_compute; reflexivity|]. split; [vm_compute; reflexivity|].
  by_evaluation.
Qed.

(** With [max_size = 0] the first [set] stops with [StopIteration]. *)
Lemma set_zero_size_raises :
  set (ResponseCache_new 0) "hello" ResponseExamples.r1 None = Raise StopIteration.
Proof. reflexivity. Qed.

(** C7. A [set] followed by a [get] with the same content and user
    identifier returns the response that was stored and adds one to
    [hit_count], [miss_count] staying as it was; [set] completes for
    every cache with [max_size >= 1]. A [get] whose fingerprint is not
    in the cache returns absent and adds one to [miss_count], [hit_count]
    and the entries staying as they were. *)
Theorem set_then_get (rc : ResponseCache) (c : string) (response : AIResponse)
    (uid : option string) :
  (1 <= max_size rc \/ cache rc <> [] -> exists rc', set rc c response uid = Ok rc') /\
  (forall rc', set rc c response uid = Ok rc' ->
     get rc' c uid =
       (Some response,
        {| cache := cache rc'; max_size := max_size rc';
           hit_count := hit_count rc + 1; miss_count := miss_count rc |})) /\
  (od_get (_hash_content c uid) (cache rc) = None ->
     get rc c uid =
       (None,
        {| cache := cache rc; max_size := max_size rc;
           hit_count := hit_count rc; miss_count := miss_count rc + 1 |})).
Proof.
  split; [apply set_returns|]. split.
  - intros rc' Hset. apply set_lookup in Hset as (Hget & _ & Hh & Hm).
    unfold get. by rewrite Hget, Hh, Hm.
  - intros Hnone. unfold get. by rewrite Hnone.
Qed.

(** The theorem at a new cache of size 2. *)
Lemma set_then_get_witness :
  exists rc',
    set (ResponseCache_new 2) "hello" ResponseExamples.r1 (Some "u1") = Ok rc' /\
    (get rc' "hello" (Some "u1")).1 = Some ResponseExamples.r1 /\
    hit_count (get rc' "hello" (Some "u1")).2 = 1 /\
    miss_count (get rc' "hello" (Some "u1")).2 = 0 /\
    (get (ResponseCache_new 2) "hello" (Some "u1")).1 = None /\
    miss_count (get (ResponseCache_new 2) "hello" (Some "u1")).2 = 1.
Proof.
  destruct (set_then_get (ResponseCache_new 2) "hello" ResponseExamples.r1 (Some "u1"))
    as (Hret & Hhit & Hmiss).
  destruct Hret as [rc' Hset]; [left; simpl; lia|].
  exists rc'. split; [exact Hset|].
  rewrite (Hhit rc' Hset), Hmiss by reflexivity.
  repeat split.
Defined.

(** A new cache of size 0: [set] raises [StopIteration] before it
    stores anything, so no [set] is followed by a [get] that returns
    the response; the [get] after the call finds nothing and is counted
    as a miss. *)
Lemma set_then_get_fails_at_size_zero :
  set (ResponseCache_new 0) "hello" ResponseExamples.r1 None = Raise StopIteration /\
  ~ (exists rc',
       set (ResponseCache_new 0) "hello" ResponseExamples.r1 None = Ok rc' /\
       (get rc' "hello" None).1 = Some ResponseExamples.r1) /\
  get (ResponseCache_new 0) "hello" None
    = (None, {| cache := []; max_size := 0; hit_count := 0; miss_count := 1 |}).
Proof.
  split; [reflexivity|]. split; [|reflexivity].
  intros (rc' & Hset & _). discriminate Hset.
Qed.

End ResponseFacts.

(** ** UserManager *)

Module UsersFacts.
Import Users.

(** *** cleanup_inactive_sessions *)

(** C5. [cleanup_inactive_sessions] stops with [NameError] at its first
    statement, whatever the manager and the age: [timedelta] is not
    among the names the module imports. No entry is removed, and the
    exception reaches the caller. *)
Theorem cleanup_inactive_sessions_raises (um : UserManager) (max_age_hours : Z)
    (now : datetime) :
  cleanup_inactive_sessions um max_age_hours now = Raise (NameError "timedelta") /\
  step um (CleanupInactiveSessions max_age_hours now) = um.
Proof. split; reflexivity. Qed.

(** *** The index and the session tokens *)

Lemma create_user_consistent um uid name mail r t :
  index_consistent um ->
  op_guarded um (CreateUser uid name mail r t) ->
  index_consistent (create_user um uid name mail r t).2.
Proof.
  intros Hinv Hg token uid' Hidx. simpl in *.
  destruct (Hinv token uid' Hidx) as (u & Hu & Ht).
  exists u. split; [|done]. rewrite lookup_insert_ne; [done|].
  intros <-. by apply (map_Forall_lookup_1 _ _ _ _ Hg Hidx).
Qed.

Lemma authenticate_user_consistent um uid token now :
  index_consistent um ->
  op_guarded um (AuthenticateUser uid token now) ->
  index_consistent (authenticate_user um uid token now).2.
Proof.
  intros Hinv Hg. unfold authenticate_user, get_user.
  destruct (users um !! uid) as [user|] eqn:Huser; [|done].
  destruct (is_active user); [|done].
  intros token' uid' Hidx. simpl in *.
  destruct (decide (token' = token)) as [->|Hne].
  - rewrite lookup_insert_eq in Hidx. injection Hidx as <-.
    exists (login user token now). by rewrite lookup_insert_eq.
  - rewrite lookup_insert_ne in Hidx by done.
    destruct (Hinv token' uid' Hidx) as (u & Hu & Ht).
    exists u. split; [|done]. rewrite lookup_insert_ne; [done|].
    intros <-. apply Hne. by apply (map_Forall_lookup_1 _ _ _ _ Hg Hidx).
Qed.

Lemma logout_user_consistent um token :
  index_consistent um -> index_consistent (logout_user um token).2.
Proof.
  intros Hinv. unfold logout_user, session_entry, get_user.
  destruct (active_sessions um !! token) as [uid|] eqn:Hidx; [|done].
  destruct (truthy_str uid); [|done].
  destruct (users um !! uid) as [user|] eqn:Huser; [|done].
  intros token' uid' Hidx'. simpl in *.
  destruct (decide (token' = token)) as [->|Hne].
  - by rewrite lookup_delete_eq in Hidx'.
  - rewrite lookup_delete_ne in Hidx' by done.
    destruct (Hinv token' uid' Hidx') as (u & Hu & Ht).
    exists u. split; [|done]. rewrite lookup_insert_ne; [done|].
    intros <-. destruct (Hinv token uid Hidx) as (u0 & Hu0 & Ht0).
    congruence.
Qed.

Lemma step_consistent um o :
  index_consistent um -> op_guarded um o -> index_consistent (step um o).
Proof.
  intros Hinv Hg. destruct o; simpl.
  - by apply create_user_consistent.
  - by apply authenticate_user_consistent.
  - done.
  - by apply logout_user_consistent.
  - done.
Qed.

(** The index stays consistent through every guarded sequence. *)
Lemma run_consistent um ops :
  index_consistent um -> run_guarded um ops -> index_consistent (run um ops).
Proof.
  revert um. induction ops as [|o ops IH]; intros um Hinv Hg; simpl; [done|].
  destruct Hg as [Hg Hrest]. apply IH; [by apply step_consistent | done].
Qed.

Lemma index_consistent_new : index_consistent UserManager_new.
Proof. intros token uid H. simpl in H. by rewrite lookup_empty in H. Qed.

(** C4, as the code has it. Starting from a manager whose index is
    consistent (the new manager is), the index stays consistent through
    every sequence of [create_user], [authenticate_user],
    [get_user_by_session], [logout_user] and
    [cleanup_inactive_sessions] in which [create_user] never replaces a
    user that the index refers to and [authenticate_user] is never
    applied to a user that the index refers to under another token:
    every token of the index then refers to a user whose
    [session_token] is that token. In such a state [logout_user] on a
    token of the index whose user identifier is not the empty string
    answers true, removes the entry of the token from the index and
    stores the user with [session_token] cleared, nothing else being
    changed, and the index is consistent afterwards; on a token that is
    not in the index it answers false and changes nothing. *)
Theorem index_consistent_run (um : UserManager) (ops : list op) :
  index_consistent um ->
  run_guarded um ops ->
  index_consistent (run um ops) /\
  (forall token uid,
     active_sessions (run um ops) !! token = Some uid ->
     uid <> "" ->
     exists user,
       users (run um ops) !! uid = Some user /\
       session_token user = Some token /\
       logout_user (run um ops) token
         = (true, {| users := <[uid := logout user]> (users (run um ops));
                     active_sessions := delete token (active_sessions (run um ops));
                     max_users := max_users (run um ops) |}) /\
       session_token (logout user) = None /\
       active_sessions (logout_user (run um ops) token).2 !! token = None /\
       index_consistent (logout_user (run um ops) token).2) /\
  (forall token,
     active_sessions (run um ops) !! token = None ->
     logout_user (run um ops) token = (false, run um ops)).
Proof.
  intros Hinv Hg. pose proof (run_consistent um ops Hinv Hg) as Hrun.
  split; [exact Hrun|]. split.
  - intros token uid Hidx Hne.
    destruct (Hrun token uid Hidx) as (user & Huser & Htoken).
    exists user. split; [done|]. split; [done|].
    assert (Hout : logout_user (run um ops) token
              = (true, {| users := <[uid := logout user]> (users (run um ops));
                          active_sessions := delete token (active_sessions (run um ops));
                          max_users := max_users (run um ops) |})).
    { unfold logout_user, session_entry, get_user. rewrite Hidx.
      destruct uid as [|a uid]; [done|]. cbn [truthy_str]. by rewrite Huser. }
    split; [exact Hout|]. split; [done|]. split.
    + rewrite Hout. cbn [snd active_sessions]. apply lookup_delete_eq.
    + by apply logout_user_consistent.
  - intros token Hnone. unfold logout_user, session_entry. by rewrite Hnone.
Qed.

(** The theorem at the new manager and two users who sign in, one of
    whom signs out; the other then signs out as well. *)
Lemma index_consistent_run_witness :
  index_consistent (run UserManager_new UsersExamples.two_users) /\
  (logout_user (run UserManager_new UsersExamples.two_users) "tok2").1 = true /\
  active_sessions (logout_user (run UserManager_new UsersExamples.two_users) "tok2").2
    !! "tok2" = None.
Proof.
  destruct (index_consistent_run UserManager_new UsersExamples.two_users)
    as (Hinv & Hout & _).
  - apply index_consistent_new.
  - simpl. repeat split; apply (bool_decide_unpack _); vm_compute; reflexivity.
  - split; [exact Hinv|].
    destruct (Hout "tok2" "u2") as (user & _ & _ & Hl & _ & Hgone & _);
      [vm_compute; reflexivity|discriminate|].
    split; [by rewrite Hl | exact Hgone].
Defined.

(** A second sign-in of the same user with a new token leaves the first
    token in the index, while the user's [session_token] is the new
    one. *)
Lemma second_login_breaks_index :
  ~ index_consistent (run UserManager_new UsersExamples.second_login).
Proof.
  intros H. destruct (H "tok1" "u1") as (u & Hu & Ht); [vm_compute; reflexivity|].
  vm_compute in Hu. injection Hu as <-. discriminate Ht.
Qed.

(** *** authenticate_user, get_user_by_session, logout_user *)

(** Signing in an active user whose identifier is not the empty string:
    the call answers true, the stored user carries the time and the
    token, and the token leads back to that user. *)
Lemma authenticate_then_lookup um uid user token now :
  users um !! uid = Some user ->
  is_active user = true ->
  uid <> "" ->
  exists um1,
    authenticate_user um uid token now = (true, um1) /\
    users um1 !! uid = Some (login user token now) /\
    last_login (login user token now) = Some now /\
    session_token (login user token now) = Some token /\
    active_sessions um1 !! token = Some uid /\
    get_user_by_session um1 token = Some (login user token now).
Proof.
  intros Huser Hact Hne. unfold authenticate_user, get_user. rewrite Huser, Hact.
  eexists. split; [done|]. simpl.
  unfold get_user_by_session, session_entry, get_user. simpl.
  rewrite !lookup_insert_eq.
  by destruct uid.
Qed.

(** Signing out with a token that leads to a user: the call answers
    true, the user's [session_token] is cleared and the token no longer
    leads anywhere. *)
Lemma logout_then_lookup um uid user token :
  active_sessions um !! token = Some uid ->
  users um !! uid = Some user ->
  uid <> "" ->
  exists um2,
    logout_user um token = (true, um2) /\
    users um2 !! uid = Some (logout user) /\
    session_token (logout user) = None /\
    active_sessions um2 !! token = None /\
    get_user_by_session um2 token = None.
Proof.
  intros Hidx Huser Hne. unfold logout_user, session_entry, get_user.
  rewrite Hidx. destruct uid; [done|]. simpl. rewrite Huser. simpl.
  eexists. split; [done|]. simpl.
  unfold get_user_by_session, session_entry. simpl.
  rewrite lookup_insert_eq, lookup_delete_eq. done.
Qed.

(** [authenticate_user] answers false and changes nothing when the user
    is absent or not active. *)
Lemma authenticate_user_refused um uid token now :
  (users um !! uid = None \/
   exists user, users um !! uid = Some user /\ is_active user = false) ->
  authenticate_user um uid token now = (false, um).
Proof.
  unfold authenticate_user, get_user. intros [->|(user & -> & ->)]; done.
Qed.

(** [logout_user] answers false and changes nothing for a token that
    is not in the index. *)
Lemma logout_user_unknown um token :
  active_sessions um !! token = None -> logout_user um token = (false, um).
Proof. unfold logout_user, session_entry. by intros ->. Qed.

(** C9. A manager holding an active user whose identifier is the empty
    string: [authenticate_user] answers true and registers the token,
    but [get_user_by_session] on that token returns absent, because the
    identifier found in the index is tested for truth, and [logout_user]
    answers false and leaves the token in the index. *)
Theorem empty_identifier_session_lookup :
  (is_active <$> users UsersExamples.empty_id_user !! "") = Some true /\
  (authenticate_user UsersExamples.empty_id_user "" "tok1" 20).1 = true /\
  active_sessions (authenticate_user UsersExamples.empty_id_user "" "tok1" 20).2 !! "tok1"
    = Some "" /\
  get_user_by_session (authenticate_user UsersExamples.empty_id_user "" "tok1" 20).2 "tok1"
    = None /\
  logout_user (authenticate_user UsersExamples.empty_id_user "" "tok1" 20).2 "tok1"
    = (false, (authenticate_user UsersExamples.empty_id_user "" "tok1" 20).2).
Proof. by_evaluation. Qed.

(** The same calls for the user "u1". *)
Lemma authenticate_then_lookup_example :
  get_user_by_session (authenticate_user UsersExamples.one_user "u1" "tok1" 20).2 "tok1"
    = Some (login (User_new "u1" "alice" None GUEST 10) "tok1" 20) /\
  get_user_by_session
    (logout_user (authenticate_user UsersExamples.one_user "u1" "tok1" 20).2 "tok1").2 "tok1"
    = None.
Proof. by_evaluation. Qed.

End UsersFacts.

(** ** ISO text of datetimes *)

Module DatetimeFacts.

(** Reading back what [zero_padded] printed. *)
Lemma digit_value_char d : 0 <= d < 10 -> digit_value (digit_char d) = Some d.
Proof.
  intros H.
  assert (Hd : d = 0 \/ d = 1 \/ d = 2 \/ d = 3 \/ d = 4 \/ d = 5 \/ d = 6
               \/ d = 7 \/ d = 8 \/ d = 9) by lia.
  repeat (destruct Hd as [->|Hd]; [reflexivity|]). by subst.
Qed.

(** [read_digits] by its last digit, the way [zero_padded] prints. *)
Lemma read_digits_last n : forall acc s,
  read_digits (S n) acc s =
    match read_digits n acc s with
    | Some (v, c :: s') =>
        match digit_value c with
        | Some d => Some (10 * v + d, s')
        | None => None
        end
    | _ => None
    end.
Proof.
  induction n as [|n IH]; intros acc s.
  - simpl. destruct s as [|c s']; [done|]. by destruct (digit_value c).
  - change (read_digits (S (S n)) acc s) with
      (match s with
       | c :: s' =>
           match digit_value c with
           | Some d => read_digits (S n) (10 * acc + d) s'
           | None => None
           end
       | [] => None
       end).
    destruct s as [|c s']; [done|].
    destruct (digit_value c) as [d|] eqn:Hc.
    + rewrite IH. simpl. by rewrite Hc.
    + simpl. by rewrite Hc.
Qed.

Lemma read_zero_padded n : forall x acc rest,
  0 <= x < 10 ^ Z.of_nat n ->
  read_digits n acc (zero_padded n x ++ rest) = Some (acc * 10 ^ Z.of_nat n + x, rest).
Proof.
  induction n as [|n IH]; intros x acc rest Hx.
  - simpl in *. f_equal. f_equal. lia.
  - rewrite Nat2Z.inj_succ, Z.pow_succ_r in * by lia.
    rewrite read_digits_last. cbn [zero_padded]. rewrite <- app_assoc.
    rewrite IH by (split; [apply Z.div_pos; lia | apply Z.div_lt_upper_bound; lia]).
    cbn [app]. rewrite digit_value_char by (apply Z.mod_pos_bound; lia).
    f_equal. f_equal. pose proof (Z.div_mod x 10). lia.
Qed.

Lemma read_zero_padded_0 n x rest :
  0 <= x < 10 ^ Z.of_nat n ->
  read_digits n 0 (zero_padded n x ++ rest) = Some (x, rest).
Proof. intros Hx. by rewrite read_zero_padded. Qed.

Lemma days_in_month_le y m : days_in_month y m <= 31.
Proof.
  unfold days_in_month. destruct (_ && _); [lia|].
  generalize (Z.to_nat (m - 1)). intros n. unfold month_lengths.
  do 12 (destruct n as [|n]; [simpl; lia|]). simpl. destruct n; lia.
Qed.

(** The calendar. *)

Lemma range_all_spec bits f : forall lo r,
  range_all bits f lo = true -> lo <= r < lo + 2 ^ Z.of_nat bits -> f r = true.
Proof.
  induction bits as [|b IH]; intros lo r Hall Hr.
  - simpl in *. by replace r with lo by lia.
  - rewrite Nat2Z.inj_succ, Z.pow_succ_r in Hr by lia.
    simpl in Hall. apply andb_true_iff in Hall as [H1 H2].
    destruct (Z.lt_ge_cases r (lo + 2 ^ Z.of_nat b)).
    + apply (IH lo); [done | lia].
    + apply (IH (lo + 2 ^ Z.of_nat b)); [done | lia].
Qed.

(** Every day number of a year, common or leap, is checked by
    evaluation. *)
Lemma month_day_all leap :
  range_all 9 (fun k => (365 <=? k) || month_day_ok leap k) 0 = true.
Proof. destruct leap; vm_compute; reflexivity. Qed.

(** The year reached after [a] cycles of 400 years, [b] of 100, [c] of
    4 and [e] single years: the days before it, and whether it is a
    leap year. *)
Lemma year_arith a b c e :
  0 <= a -> 0 <= b <= 3 -> 0 <= c <= 24 -> 0 <= e <= 3 ->
  days_before_year (400 * a + 100 * b + 4 * c + e + 1)
    = 146097 * a + 36524 * b + 1461 * c + 365 * e /\
  is_leap (400 * a + 100 * b + 4 * c + e + 1)
    = (e =? 3) && (negb (c =? 24) || (b =? 3)).
Proof.
  intros Ha Hb Hc He. split.
  - unfold days_before_year. cbv zeta. Z.div_mod_to_equations. lia.
  - unfold is_leap.
    destruct (Z.eqb_spec e 3), (Z.eqb_spec c 24), (Z.eqb_spec b 3);
      repeat match goal with |- context [?x =? 0] => destruct (Z.eqb_spec x 0) end;
      simpl; try done; Z.div_mod_to_equations; lia.
Qed.

Lemma month_and_day_spec leap k :
  0 <= k < 365 ->
  exists m dd,
    month_and_day leap k = (m, dd) /\
    1 <= m <= 12 /\ 1 <= dd /\
    dd <= (if (m =? 2) && leap then 29 else nth (Z.to_nat (m - 1)) month_lengths 0) /\
    nth (Z.to_nat (m - 1)) month_starts 0 + (if (2 <? m) && leap then 1 else 0) + dd
      = k + 1.
Proof.
  intros Hk.
  pose proof (range_all_spec 9 _ 0 k (month_day_all leap)) as H.
  cbv beta in H. destruct (Z.leb_spec 365 k); [lia|].
  simpl orb in H. unfold month_day_ok in H.
  destruct (month_and_day leap k) as [m dd]. exists m, dd.
  specialize (H ltac:(simpl; lia)).
  repeat (apply andb_true_iff in H as [H ?]).
  repeat split; try lia.
Qed.

(** Day numbers below that of 10000-01-01 belong to years up to 9999. *)
Lemma days_before_year_bound y :
  days_before_year y < 3652059 -> y <= 9999.
Proof. unfold days_before_year. cbv zeta. intros H. Z.div_mod_to_equations. lia. Qed.

(** The last day of a leap year. *)
Lemma ymd2ord_december_31 y :
  is_leap y = true -> days_in_month y 12 = 31 /\ ymd2ord y 12 31 = days_before_year y + 366.
Proof.
  intros Hleap. unfold days_in_month, ymd2ord, days_before_month. rewrite Hleap.
  simpl. split; [done | lia].
Qed.

(** The date of a day number is a date of the calendar, and
    [ymd2ord] leads back from it. *)
Lemma ord2ymd_spec n :
  0 <= n < 3652059 ->
  exists y m dd,
    ord2ymd (n + 1) = (y, m, dd) /\
    1 <= y <= 9999 /\ 1 <= m <= 12 /\ 1 <= dd <= days_in_month y m /\
    ymd2ord y m dd = n + 1.
Proof.
  intros Hn. unfold ord2ymd. replace (n + 1 - 1) with n by lia.
  set (a := n / 146097). set (r := n mod 146097).
  set (b := r / 36524). set (r1 := r mod 36524).
  set (c := r1 / 1461). set (r2 := r1 mod 1461).
  set (e := r2 / 365). set (k := r2 mod 365).
  assert (Hdec : n = 146097 * a + 36524 * b + 1461 * c + 365 * e + k /\
                 0 <= a /\ 0 <= b <= 4 /\ 0 <= c <= 24 /\ 0 <= e <= 4 /\ 0 <= k < 365 /\
                 (b = 4 -> c = 0 /\ e = 0 /\ k = 0) /\
                 (c = 24 -> e <= 3) /\ (e = 4 -> k = 0)).
  { pose proof (Z.div_mod n 146097 ltac:(lia)) as E1.
    pose proof (Z.mod_pos_bound n 146097 ltac:(lia)) as B1.
    pose proof (Z.div_mod r 36524 ltac:(lia)) as E2.
    pose proof (Z.mod_pos_bound r 36524 ltac:(lia)) as B2.
    pose proof (Z.div_mod r1 1461 ltac:(lia)) as E3.
    pose proof (Z.mod_pos_bound r1 1461 ltac:(lia)) as B3.
    pose proof (Z.div_mod r2 365 ltac:(lia)) as E4.
    pose proof (Z.mod_pos_bound r2 365 ltac:(lia)) as B4.
    fold a r in E1, B1. fold b r1 in E2, B2. fold c r2 in E3, B3. fold e k in E4, B4.
    clearbody a r b r1 c r2 e k. lia. }
  clearbody a b c e k. clear r r1 r2.
  destruct Hdec as (Hdec & Ha & Hb & Hc & He & Hk & Hb4 & Hc24 & He4).
  destruct (Z.eqb_spec e 4) as [He'|He']; [|destruct (Z.eqb_spec b 4) as [Hb'|Hb']];
    cbn [orb].
  - (* the last day of a 4-year cycle *)
    destruct (year_arith a b c 3) as [Hdby Hleap]; try lia.
    assert (Hl : is_leap (400 * a + 100 * b + 4 * c + 3 + 1) = true).
    { rewrite Hleap. destruct (Z.eqb_spec c 24); [lia|done]. }
    destruct (ymd2ord_december_31 _ Hl) as [Hdim Hord].
    exists (400 * a + 100 * b + 4 * c + 3 + 1), 12, 31.
    split; [f_equal; f_equal; lia|].
    split; [split; [lia | apply days_before_year_bound; lia]|].
    split; [lia|]. split; [lia|]. lia.
  - (* the last day of a 400-year cycle *)
    destruct (year_arith a 3 24 3) as [Hdby Hleap]; try lia.
    destruct (ymd2ord_december_31 _ Hleap) as [Hdim Hord].
    exists (400 * a + 100 * 3 + 4 * 24 + 3 + 1), 12, 31.
    split; [f_equal; f_equal; lia|].
    split; [split; [lia | apply days_before_year_bound; lia]|].
    split; [lia|]. split; [lia|]. lia.
  - (* any other day *)
    destruct (year_arith a b c e) as [Hdby Hleap]; try lia.
    rewrite <- Hleap.
    replace (a * 400 + 1 + b * 100 + c * 4 + e)
      with (400 * a + 100 * b + 4 * c + e + 1) by lia.
    set (y := 400 * a + 100 * b + 4 * c + e + 1) in *.
    destruct (month_and_day_spec (is_leap y) k Hk) as (m & dd & -> & Hm & Hdd1 & Hdd2 & Hsum).
    exists y, m, dd. split; [done|].
    split; [split; [lia | apply days_before_year_bound; lia]|].
    split; [done|]. split; [done|].
    unfold ymd2ord, days_before_month. lia.
Qed.

(** Every datetime of the library is read back from its ISO text. *)
Lemma fromisoformat_isoformat d :
  datetime_in_range d -> fromisoformat (PStr (isoformat d)) = Ok d.
Proof.
  unfold datetime_in_range, microseconds_per_day. intros Hd.
  unfold fromisoformat, isoformat.
  set (us := d mod 1000000). set (secs := d / 1000000).
  set (ss := secs mod 60). set (mins := secs / 60).
  set (mm := mins mod 60). set (hours := mins / 60).
  set (hh := hours mod 24). set (days := hours / 24).
  assert (Hus : 0 <= us < 1000000) by (apply Z.mod_pos_bound; lia).
  assert (Hss : 0 <= ss < 60) by (apply Z.mod_pos_bound; lia).
  assert (Hmm : 0 <= mm < 60) by (apply Z.mod_pos_bound; lia).
  assert (Hhh : 0 <= hh < 24) by (apply Z.mod_pos_bound; lia).
  assert (Hsum : d = ((((days * 24 + hh) * 60 + mm) * 60 + ss) * 1000000 + us)).
  { pose proof (Z.div_mod d 1000000). pose proof (Z.div_mod secs 60).
    pose proof (Z.div_mod mins 60). pose proof (Z.div_mod hours 24).
    unfold us, ss, mm, hh, days, hours, mins, secs in *. lia. }
  assert (Hdays : 0 <= days < 3652059) by lia.
  destruct (ord2ymd_spec days Hdays) as (y & m & dd & -> & Hy & Hm & Hdd & Hord).
  rewrite list_ascii_of_string_of_list_ascii. unfold parse_isoformat.
  pose proof (days_in_month_le y m) as Hdim.
  rewrite (read_zero_padded_0 4) by (simpl; lia).
  cbn [mbind option_bind expect_char Ascii.eqb Bool.eqb].
  do 5 (rewrite (read_zero_padded_0 2) by (simpl; lia);
        cbn [mbind option_bind expect_char Ascii.eqb Bool.eqb]).
  assert (Hvalid : (1 <=? y) && (1 <=? m) && (m <=? 12) && (1 <=? dd)
                   && (dd <=? days_in_month y m) && (hh <? 24) && (mm <? 60)
                   && (ss <? 60) = true).
  { repeat (apply andb_true_intro; split); lia. }
  destruct (Z.eqb_spec us 0) as [Hz|Hnz].
  - cbn [mbind option_bind andb]. rewrite Hvalid.
    do 2 f_equal. lia.
  - cbn [mbind option_bind expect_char Ascii.eqb Bool.eqb].
    rewrite <- (app_nil_r (zero_padded 6 us)).
    rewrite (read_zero_padded_0 6) by (simpl; lia).
    cbn [mbind option_bind andb]. rewrite Hvalid.
    do 2 f_equal. lia.
Qed.

(** The ISO text of some datetimes, among them the first and the last
    of the library. *)
Lemma isoformat_examples :
  isoformat 0 = "0001-01-01T00:00:00" /\
  isoformat 315537897599999999 = "9999-12-31T23:59:59.999999" /\
  isoformat 63844811159123456 = "2024-02-29T13:45:59.123456" /\
  isoformat 59931723967000008 = "1900-03-01T05:06:07.000008" /\
  fromisoformat (PStr "2023-02-29T00:00:00") = Raise (ValueError "Invalid isoformat string").
Proof. by_evaluation. Qed.

End DatetimeFacts.

(** ** to_dict and from_dict *)

Module SerialFacts.
Import DatetimeFacts.

Lemma read_all_as_str l : read_all as_str (PStr <$> l) = Ok l.
Proof.
  induction l as [|x l IH]; [done|].
  rewrite fmap_cons. cbn [read_all as_str mbind result_bind]. by rewrite IH.
Qed.

Lemma read_all_as_int l : read_all as_int (PInt <$> l) = Ok l.
Proof.
  induction l as [|x l IH]; [done|].
  rewrite fmap_cons. cbn [read_all as_int mbind result_bind]. by rewrite IH.
Qed.

Lemma read_all_items_as_str (d : odict string) :
  read_all_items as_str (prod_map Datatypes.id PStr <$> d) = Ok d.
Proof.
  induction d as [|[k v] d IH]; [done|].
  rewrite fmap_cons. cbn [read_all_items prod_map as_str mbind result_bind fst snd].
  by rewrite IH.
Qed.

Lemma as_optional_str o : as_optional as_str (of_optional PStr o) = Ok o.
Proof. by destruct o. Qed.

Lemma as_optional_int o : as_optional as_int (of_optional PInt o) = Ok o.
Proof. by destruct o. Qed.

Lemma as_optional_bool o : as_optional as_bool (of_optional PBool o) = Ok o.
Proof. by destruct o. Qed.

(** *** ChatMessage *)

Lemma MessageRole_of_value r : Chat.MessageRole_of (PStr (Chat.MessageRole_value r)) = Ok r.
Proof. by destruct r. Qed.

Lemma MessageStatus_of_value st :
  Chat.MessageStatus_of (PStr (Chat.MessageStatus_value st)) = Ok st.
Proof. by destruct st. Qed.

(** A message comes back from its dictionary unchanged. *)
Lemma ChatMessage_round_trip (m : Chat.ChatMessage) :
  datetime_in_range (Chat.timestamp m) ->
  Chat.from_dict (Chat.to_dict m) = Ok m.
Proof.
  intros Hrange. unfold Chat.from_dict, Chat.to_dict, getitem, get_or.
  cbn [od_get String.eqb Ascii.eqb Bool.eqb mbind result_bind as_str as_dict default].
  rewrite MessageRole_of_value, fromisoformat_isoformat, MessageStatus_of_value by done.
  by destruct m.
Qed.

(** *** AIResponse *)

Lemma ResponseType_of_value t :
  Response.ResponseType_of (PStr (Response.ResponseType_value t)) = Ok t.
Proof. by destruct t. Qed.

Lemma ResponseStatus_of_value st :
  Response.ResponseStatus_of (PStr (Response.ResponseStatus_value st)) = Ok st.
Proof. by destruct st. Qed.

Lemma ResponsePriority_of_value p :
  Response.ResponsePriority_of (PStr (Response.ResponsePriority_value p)) = Ok p.
Proof. by destruct p. Qed.

Lemma ResponseMetadata_round_trip (md : Response.ResponseMetadata) :
  Response.ResponseMetadata_of_keywords (Response.ResponseMetadata_to_dict md) = Ok md.
Proof.
  unfold Response.ResponseMetadata_of_keywords.
  replace (check_keywords _ _) with (Ok tt) by reflexivity.
  unfold Response.ResponseMetadata_to_dict, keyword.
  cbn [od_get String.eqb Ascii.eqb Bool.eqb mbind result_bind
       as_str as_int as_float as_dict_of as_list].
  rewrite read_all_items_as_str, read_all_as_str.
  by destruct md.
Qed.

(** A response comes back from its dictionary unchanged. *)
Lemma AIResponse_round_trip (r : Response.AIResponse) :
  datetime_in_range (Response.created_at r) ->
  Response.from_dict (Response.to_dict r) = Ok r.
Proof.
  intros Hrange.
  unfold Response.from_dict, Response.to_dict, getitem, get_or_none, get_or.
  cbn [od_get String.eqb Ascii.eqb Bool.eqb mbind result_bind
       as_str as_dict as_list default].
  rewrite ResponseType_of_value, ResponseStatus_of_value, ResponsePriority_of_value.
  rewrite ResponseMetadata_round_trip, fromisoformat_isoformat by done.
  cbn [mbind result_bind Datatypes.id as_list].
  rewrite !as_optional_str, read_all_as_str, as_optional_int, as_optional_bool.
  by destruct r.
Qed.

(** *** User *)

Lemma UserRole_of_value r : Users.UserRole_of (PStr (Users.UserRole_value r)) = Ok r.
Proof. by destruct r. Qed.

Lemma Theme_of_value t : Users.Theme_of (PStr (Users.Theme_value t)) = Ok t.
Proof. by destruct t. Qed.

Lemma Language_of_value l : Users.Language_of (PStr (Users.Language_value l)) = Ok l.
Proof. by destruct l. Qed.

Lemma UserPreferences_round_trip (p : Users.UserPreferences) :
  Users.UserPreferences_from_dict (Users.UserPreferences_to_dict p) = Ok p.
Proof.
  unfold Users.UserPreferences_from_dict, Users.UserPreferences_to_dict, get_or.
  cbn [od_get String.eqb Ascii.eqb Bool.eqb mbind result_bind as_bool default
       from_option Datatypes.id].
  rewrite Theme_of_value, Language_of_value.
  by destruct p.
Qed.

(** What [UserStats] is after the round trip: [last_activity] is the
    value [to_dict] wrote, the other fields are as before. *)
Lemma UserStats_round_trip (st : Users.UserStats) (last : pyval) :
  Users.isoformat_if_set (Users.last_activity st) = Ok last ->
  exists kw,
    Users.UserStats_to_dict st = Ok kw /\
    Users.UserStats_of_keywords kw =
      Ok {| Users.total_messages := Users.total_messages st;
            Users.total_sessions := Users.total_sessions st;
            Users.total_time_spent := Users.total_time_spent st;
            Users.favorite_topics := Users.favorite_topics st;
            Users.most_active_hours := Users.most_active_hours st;
            Users.average_session_length := Users.average_session_length st;
            Users.last_activity := last |}.
Proof.
  intros Hlast. unfold Users.UserStats_to_dict. rewrite Hlast.
  eexists. split; [reflexivity|].
  unfold Users.UserStats_of_keywords.
  replace (check_keywords _ _) with (Ok tt) by reflexivity.
  unfold keyword.
  cbn [od_get String.eqb Ascii.eqb Bool.eqb mbind result_bind
       as_int as_float as_list].
  by rewrite read_all_as_str, read_all_as_int.
Qed.

Lemma isoformat_truthy d : truthy (PStr (isoformat d)) = true.
Proof.
  unfold isoformat. by destruct (ord2ymd _) as [[y m] dd].
Qed.

(** What a user is after the round trip: [stats.last_activity] is the
    value [UserStats.to_dict] wrote, the other fields are as before. *)
Lemma User_round_trip (u : Users.User) (last : pyval) :
  Users.isoformat_if_set (Users.last_activity (Users.stats u)) = Ok last ->
  datetime_in_range (Users.created_at u) ->
  (forall t, Users.last_login u = Some t -> datetime_in_range t) ->
  exists data,
    Users.to_dict u = Ok data /\
    Users.from_dict data = Ok (Users.with_last_activity u last).
Proof.
  intros Hlast Hcreated Hlogin.
  destruct (UserStats_round_trip (Users.stats u) last Hlast) as (kw & Hkw & Hstats).
  unfold Users.to_dict. rewrite Hkw. eexists. split; [reflexivity|].
  unfold Users.from_dict, getitem, get_or_none, get_or.
  cbn [od_get String.eqb Ascii.eqb Bool.eqb mbind result_bind
       as_str as_dict as_bool default from_option Datatypes.id].
  rewrite as_optional_str, UserRole_of_value, UserPreferences_round_trip, Hstats.
  rewrite fromisoformat_isoformat by done.
  cbn [mbind result_bind].
  rewrite as_optional_str.
  unfold Users.with_last_activity.
  destruct (Users.last_login u) as [t|] eqn:Hl; cbn [of_optional].
  - by rewrite isoformat_truthy, fromisoformat_isoformat by auto.
  - done.
Qed.

(** A user whose [stats.last_activity] is unset comes back unchanged. *)
Lemma User_round_trip_unset (u : Users.User) :
  Users.last_activity (Users.stats u) = PNone ->
  datetime_in_range (Users.created_at u) ->
  (forall t, Users.last_login u = Some t -> datetime_in_range t) ->
  exists data, Users.to_dict u = Ok data /\ Users.from_dict data = Ok u.
Proof.
  intros Hnone Hc Hl.
  destruct (User_round_trip u PNone) as (data & Hto & Hfrom); try done.
  - by rewrite Hnone.
  - exists data. split; [done|]. rewrite Hfrom. f_equal.
    destruct u as [? ? ? ? ? [] ? ? ? ? ?]. simpl in *. by subst.
Qed.

(** A user whose [stats.last_activity] is a datetime comes back with the
    ISO text of that datetime in the field, which is another value. *)
Lemma User_round_trip_set (u : Users.User) (d : datetime) :
  Users.last_activity (Users.stats u) = PDatetime d ->
  datetime_in_range (Users.created_at u) ->
  (forall t, Users.last_login u = Some t -> datetime_in_range t) ->
  exists data u',
    Users.to_dict u = Ok data /\ Users.from_dict data = Ok u' /\
    Users.last_activity (Users.stats u') = PStr (isoformat d) /\
    u' <> u.
Proof.
  intros Hset Hc Hl.
  destruct (User_round_trip u (PStr (isoformat d))) as (data & Hto & Hfrom); try done.
  - by rewrite Hset.
  - exists data, (Users.with_last_activity u (PStr (isoformat d))).
    repeat split; try done.
    intros Heq. apply (f_equal (fun x => Users.last_activity (Users.stats x))) in Heq.
    simpl in Heq. by rewrite Hset in Heq.
Qed.

(** C8. The round trip of a user whose [stats.last_activity] is set (as
    [stats.add_session] sets it): [to_dict] writes the field as ISO text
    and [from_dict] passes the dictionary of [stats] to [UserStats]
    unread, so the field comes back as that text, not as the datetime,
    and the user that comes back differs from the one that went in. For
    [created_at] and [last_login] the same [from_dict] does parse the
    text. *)
Theorem user_round_trip_loses_last_activity :
  exists u',
    Users.to_dict SerialExamples.user_with_session ≫= Users.from_dict = Ok u' /\
    Users.last_activity (Users.stats SerialExamples.user_with_session)
      = PDatetime SerialExamples.t_active /\
    Users.last_activity (Users.stats u') = PStr "2024-03-01T08:00:00" /\
    Users.created_at u' = Users.created_at SerialExamples.user_with_session /\
    Users.last_login u' = Users.last_login SerialExamples.user_with_session /\
    u' <> SerialExamples.user_with_session.
Proof.
  eexists. split; [vm_compute; reflexivity|].
  do 4 (split; [vm_compute; reflexivity|]).
  intros Heq. apply (f_equal (fun x => Users.last_activity (Users.stats x))) in Heq.
  vm_compute in Heq. discriminate.
Qed.

(** The three round trips on examples: the message, the response and a
    user without [stats.last_activity] come back unchanged. *)
Lemma round_trip_examples :
  Chat.from_dict (Chat.to_dict SerialExamples.message) = Ok SerialExamples.message /\
  Response.from_dict (Response.to_dict SerialExamples.response) = Ok SerialExamples.response /\
  Users.to_dict SerialExamples.new_user ≫= Users.from_dict = Ok SerialExamples.new_user.
Proof. by_evaluation. Qed.

End SerialFacts.

(** * Further properties of the code *)

(** ** chat_models.py and validation.py *)

Module ChatMore.
Import Chat PyFacts ChatFacts.

(** X1. A message whose timestamp is a datetime of the library comes
    back unchanged from [ChatMessage.from_dict (ChatMessage.to_dict m)]. *)
Theorem message_round_trip (m : ChatMessage) :
  datetime_in_range (timestamp m) ->
  from_dict (to_dict m) = Ok m.
Proof. apply SerialFacts.ChatMessage_round_trip. Qed.

Lemma message_round_trip_witness :
  from_dict (to_dict SerialExamples.message) = Ok SerialExamples.message.
Proof.
  apply message_round_trip. unfold datetime_in_range. split; vm_compute; congruence.
Defined.

(** X2. [validate_message] and [ChatMessage.from_dict] agree on the
    dictionaries that [to_dict] writes (for a timestamp in the range of
    the library): the dictionary of a message passes both; without its
    'metadata' entry it still passes both, [from_dict] reading the
    message with empty metadata; without any one of the five required
    keys [validate_message] rejects it and [from_dict] raises KeyError
    for that key. *)
Theorem message_dict_validates (m : ChatMessage) (key : string) :
  datetime_in_range (timestamp m) ->
  Validation.validate_message (to_dict m) = true /\
  from_dict (to_dict m) = Ok m /\
  Validation.validate_message (od_del "metadata" (to_dict m)) = true /\
  from_dict (od_del "metadata" (to_dict m))
    = Ok {| id := id m; role := role m; content := content m;
            timestamp := timestamp m; status := status m; metadata := [] |} /\
  (key ∈ ["id"; "role"; "content"; "timestamp"; "status"] ->
   Validation.validate_message (od_del key (to_dict m)) = false /\
   from_dict (od_del key (to_dict m)) = Raise (KeyError key)).
Proof.
  intros Hrange.
  pose proof (SerialFacts.MessageRole_of_value (role m)) as Hrole.
  pose proof (SerialFacts.MessageStatus_of_value (status m)) as Hstatus.
  pose proof (DatetimeFacts.fromisoformat_isoformat (timestamp m) Hrange) as Htime.
  split; [reflexivity|]. split; [by apply SerialFacts.ChatMessage_round_trip|].
  split; [reflexivity|]. split.
  - unfold from_dict, to_dict, getitem, get_or.
    cbn [od_del od_get String.eqb Ascii.eqb Bool.eqb mbind result_bind as_str as_dict
         default].
    by rewrite Hrole, Htime, Hstatus.
  - intros Hkey. split.
    + repeat (apply elem_of_cons in Hkey as [->|Hkey]); try reflexivity.
      by apply elem_of_nil in Hkey.
    + unfold from_dict, to_dict, getitem, get_or.
      repeat (apply elem_of_cons in Hkey as [->|Hkey]);
        [..|by apply elem_of_nil in Hkey];
        cbn [od_del od_get String.eqb Ascii.eqb Bool.eqb mbind result_bind as_str
             as_dict default];
        rewrite ?Hrole; cbn [mbind result_bind]; rewrite ?Htime;
        cbn [mbind result_bind]; reflexivity.
Qed.

Lemma message_dict_validates_witness :
  Validation.validate_message (od_del "status" (to_dict SerialExamples.message)) = false /\
  from_dict (od_del "status" (to_dict SerialExamples.message)) = Raise (KeyError "status").
Proof.
  destruct (message_dict_validates SerialExamples.message "status")
    as (_ & _ & _ & _ & H).
  - unfold datetime_in_range. split; vm_compute; congruence.
  - apply H. apply (bool_decide_unpack _). vm_compute. reflexivity.
Defined.

(** X3. With a limit of at least 1, [cleanup_messages] on a session
    over the limit leaves exactly the last [max_messages_per_session]
    messages, in order, and nothing else changed; a session within the
    limit is left as it is. *)
Theorem cleanup_messages_keeps_latest (h : ChatHistory) (sid : string)
    (s : ChatSession) :
  1 <= max_messages_per_session h ->
  get_session h sid = Some s ->
  (Z.of_nat (length (messages s)) <= max_messages_per_session h ->
     cleanup_messages h sid = h) /\
  (max_messages_per_session h < Z.of_nat (length (messages s)) ->
     exists old kept,
       messages s = old ++ kept /\
       Z.of_nat (length kept) = max_messages_per_session h /\
       get_session (cleanup_messages h sid) sid = Some (set_messages s kept) /\
       (forall sid', sid' <> sid ->
          get_session (cleanup_messages h sid) sid' = get_session h sid')).
Proof.
  intros Hpos Hget. split.
  - intros Hle. by eapply cleanup_messages_within.
  - intros Hgt.
    destruct (cleanup_messages_truncates h sid s Hpos Hget Hgt)
      as (old & kept & H1 & H2 & H3 & H4 & _).
    by exists old, kept.
Qed.

Lemma cleanup_messages_keeps_latest_witness :
  exists s kept,
    get_session (run (ChatHistory_new 2 2) ChatExamples.mixed_ops) "a" = Some s /\
    length (messages s) = 3%nat /\
    get_session
      (cleanup_messages (run (ChatHistory_new 2 2) ChatExamples.mixed_ops) "a") "a"
      = Some (set_messages s kept) /\
    Z.of_nat (length kept) = 2.
Proof.
  eexists.
  edestruct (cleanup_messages_keeps_latest
               (run (ChatHistory_new 2 2) ChatExamples.mixed_ops) "a") as [_ H].
  - vm_compute. congruence.
  - vm_compute. reflexivity.
  - destruct H as (old & kept & _ & Hlen & Hget & _); [vm_compute; reflexivity|].
    exists kept. split; [reflexivity|]. split; [reflexivity|].
    split; [exact Hget | exact Hlen].
Defined.

(** *** Sessions *)

Lemma insert_by_snoc {A} (key : A -> Z) y x l :
  key y <= key x -> insert_by key y (l ++ [x]) = insert_by key y l ++ [x].
Proof.
  intros Hle. induction l as [|z l IH]; simpl.
  - by destruct (Z.leb_spec (key y) (key x)); [|lia].
  - destruct (key y <=? key z); [done|]. by rewrite IH.
Qed.

(** An element that sorts last stays last. *)
Lemma sorted_snoc {A} (key : A -> Z) x l :
  (forall y, y ∈ l -> key y <= key x) -> sorted key (l ++ [x]) = sorted key l ++ [x].
Proof.
  induction l as [|y l IH]; intros Hmax; [done|].
  simpl. rewrite IH by (intros z Hz; apply Hmax; by apply list_elem_of_further).
  apply insert_by_snoc, Hmax, list_elem_of_here.
Qed.

Lemma od_get_snoc_fresh {V} k (v : V) (d : odict V) :
  k ∉ keys d -> od_get k (d ++ [(k, v)]) = Some v.
Proof.
  unfold keys. induction d as [|[k' v'] d IH]; simpl.
  - by rewrite String.eqb_refl.
  - rewrite not_elem_of_cons. intros [Hne Hnin].
    destruct (String.eqb_spec k k'); [done|]. by apply IH.
Qed.

(** A session created no earlier than every registered one was last
    active survives the eviction that follows its creation. *)
Lemma create_session_registers h sid uid t1 t2 :
  NoDup (keys (sessions h)) ->
  1 <= max_sessions h ->
  (forall k s, (k, s) ∈ sessions h -> last_activity s <= t2) ->
  get_session h sid = None ->
  get_session (create_session h sid uid t1 t2).2 sid
    = Some (ChatSession_new sid uid t1 t2).
Proof.
  intros Hnd Hpos Hclock Hnone. unfold get_session in *. simpl.
  rewrite od_set_fresh by done.
  assert (Hfresh : sid ∉ keys (sessions h)) by by apply od_get_None.
  unfold _cleanup_old_sessions. simpl.
  destruct (Z.ltb_spec (max_sessions h)
              (Z.of_nat (length (sessions h ++ [(sid, ChatSession_new sid uid t1 t2)]))));
    simpl; [|by apply od_get_snoc_fresh].
  rewrite sorted_snoc by (intros [k s] Hin; simpl; by eapply Hclock).
  rewrite slice_from_neg_pos by done.
  rewrite length_app, length_sorted. simpl.
  rewrite drop_app_le by (rewrite length_sorted; lia).
  assert (Hk : keys (drop (length (sessions h) + 1 - Z.to_nat (max_sessions h))
                       (sorted (fun x : string * ChatSession => last_activity x.2) (sessions h)))
               ⊆ keys (sessions h)).
  { intros k Hk. unfold keys in *. rewrite fmap_drop in Hk.
    apply (subseteq_drop _ _) in Hk. by rewrite sorted_Permutation in Hk. }
  rewrite od_of_items_NoDup.
  - apply od_get_snoc_fresh. intros Hin. by apply Hfresh, Hk.
  - unfold keys in *. rewrite fmap_app. apply NoDup_app. repeat split.
    + rewrite fmap_drop. eapply sublist_NoDup; [|apply sublist_drop].
      by rewrite sorted_Permutation.
    + intros k Hin Hin'. apply list_elem_of_singleton in Hin'. subst k.
      by apply Hfresh, Hk.
    + apply NoDup_singleton.
Qed.

(** X4. [get_or_create_session] is idempotent: on a history with
    [max_sessions >= 1], when the clock is not behind the registered
    sessions, a second call with the same identifier returns the session
    of the first call and changes nothing, whatever its other
    arguments. *)
Theorem get_or_create_session_idempotent (h : ChatHistory) (sid : string)
    (uid uid' : option string) (t1 t2 t1' t2' : datetime) :
  NoDup (keys (sessions h)) ->
  1 <= max_sessions h ->
  (forall k s, (k, s) ∈ sessions h -> last_activity s <= t2) ->
  get_or_create_session (get_or_create_session h sid uid t1 t2).2 sid uid' t1' t2'
    = get_or_create_session h sid uid t1 t2.
Proof.
  intros Hnd Hpos Hclock. unfold get_or_create_session at 2 3.
  destruct (get_session h sid) as [s|] eqn:Hget.
  - simpl. unfold get_or_create_session. by rewrite Hget.
  - unfold get_or_create_session.
    rewrite (create_session_registers h sid uid t1 t2) by done.
    done.
Qed.

Lemma get_or_create_session_idempotent_witness :
  get_or_create_session
    (get_or_create_session (run (ChatHistory_new 2 2) ChatExamples.mixed_ops)
       "z" None 80 81).2 "z" (Some "u") 90 91
  = get_or_create_session (run (ChatHistory_new 2 2) ChatExamples.mixed_ops)
      "z" None 80 81.
Proof.
  apply get_or_create_session_idempotent.
  - apply (bool_decide_unpack _). vm_compute. reflexivity.
  - simpl. lia.
  - intros k s Hin. vm_compute in Hin.
    repeat (apply elem_of_cons in Hin as [Hin|Hin]; [injection Hin as -> ->; vm_compute; congruence|]).
    by apply elem_of_nil in Hin.
Defined.

(** X5. [delete_session] answers true exactly for a registered
    identifier; the session is then gone, the count is one less and the
    other sessions are as before. For an identifier that is not
    registered it answers false and changes nothing. *)
Theorem delete_session_removes (h : ChatHistory) (sid : string) :
  NoDup (keys (sessions h)) ->
  (get_session h sid = None -> delete_session h sid = (false, h)) /\
  (forall s, get_session h sid = Some s ->
     (delete_session h sid).1 = true /\
     get_session (delete_session h sid).2 sid = None /\
     get_session_count (delete_session h sid).2 = get_session_count h - 1 /\
     (forall sid', sid' <> sid ->
        get_session (delete_session h sid).2 sid' = get_session h sid')).
Proof.
  intros Hnd. unfold delete_session, get_session, od_mem, get_session_count. split.
  - by intros ->.
  - intros s Hget. rewrite Hget. simpl. repeat split.
    + by apply od_get_del_eq.
    + pose proof (length_od_del_present sid s (sessions h) Hget). lia.
    + intros sid' Hne. by apply od_get_del_ne.
Qed.

Lemma delete_session_removes_witness :
  get_session (delete_session (run (ChatHistory_new 2 2) ChatExamples.mixed_ops) "a").2 "a"
    = None /\
  delete_session (run (ChatHistory_new 2 2) ChatExamples.mixed_ops) "b"
    = (false, run (ChatHistory_new 2 2) ChatExamples.mixed_ops).
Proof.
  destruct (delete_session_removes (run (ChatHistory_new 2 2) ChatExamples.mixed_ops) "a")
    as [_ Ha]; [apply (bool_decide_unpack _); vm_compute; reflexivity|].
  destruct (delete_session_removes (run (ChatHistory_new 2 2) ChatExamples.mixed_ops) "b")
    as [Hb _]; [apply (bool_decide_unpack _); vm_compute; reflexivity|].
  split.
  - eapply Ha. vm_compute. reflexivity.
  - apply Hb. vm_compute. reflexivity.
Defined.

(** X6. [get_recent_messages] always returns a suffix of the messages of
    the session, and for a limit of at least 1 the suffix has
    [min(limit, len(messages))] messages. *)
Theorem get_recent_messages_suffix (s : ChatSession) (limit : Z) :
  (exists old, messages s = old ++ get_recent_messages s limit) /\
  (1 <= limit ->
     length (get_recent_messages s limit)
       = Nat.min (Z.to_nat limit) (length (messages s))).
Proof.
  unfold get_recent_messages. split.
  - destruct (_ <? _).
    + unfold slice_from. eexists. symmetry. apply take_drop.
    + by exists [].
  - intros Hpos.
    destruct (Z.ltb_spec limit (Z.of_nat (length (messages s)))).
    + rewrite length_slice_from_neg by done. lia.
    + lia.
Qed.

Lemma get_recent_messages_suffix_witness :
  length (get_recent_messages
            {| session_id := "s"; user_id := None;
               messages := [ChatExamples.msg "m1" "one" 1; ChatExamples.msg "m2" "two" 2;
                            ChatExamples.msg "m3" "three" 3];
               created_at := 0; last_activity := 3; is_active := true;
               settings := [] |} 2)
  = 2%nat.
Proof.
  destruct (get_recent_messages_suffix
              {| session_id := "s"; user_id := None;
                 messages := [ChatExamples.msg "m1" "one" 1; ChatExamples.msg "m2" "two" 2;
                              ChatExamples.msg "m3" "three" 3];
                 created_at := 0; last_activity := 3; is_active := true;
                 settings := [] |} 2) as [_ H].
  apply H. lia.
Defined.

(** X7. On any history with [max_sessions >= 1],
    [_cleanup_old_sessions] keeps [min(len(sessions), max_sessions)]
    sessions; the sessions it drops and the sessions it keeps are
    together the sessions it found, and no dropped session was active
    later than a kept one. *)
Theorem cleanup_old_sessions_keeps_latest (h : ChatHistory) :
  NoDup (keys (sessions h)) ->
  1 <= max_sessions h ->
  length (sessions (_cleanup_old_sessions h))
    = Nat.min (length (sessions h)) (Z.to_nat (max_sessions h)) /\
  exists evicted,
    sessions h ≡ₚ evicted ++ sessions (_cleanup_old_sessions h) /\
    older_than evicted (sessions (_cleanup_old_sessions h)).
Proof.
  intros Hnd Hpos. unfold _cleanup_old_sessions.
  destruct (Z.ltb_spec (max_sessions h) (Z.of_nat (length (sessions h)))) as [Hover|Hfit].
  - simpl. rewrite slice_from_neg_pos by done.
    set (srt := sorted (fun x : string * ChatSession => last_activity x.2) (sessions h)).
    set (n := (length srt - Z.to_nat (max_sessions h))%nat).
    assert (Hperm : srt ≡ₚ sessions h) by apply sorted_Permutation.
    rewrite od_of_items_NoDup
      by (apply NoDup_keys_drop; unfold keys; by rewrite Hperm).
    split.
    + rewrite length_drop. unfold n, srt. rewrite length_sorted. lia.
    + exists (take n srt). split; [by rewrite take_drop|].
      intros e r He Hr.
      eapply (StronglySorted_take_drop (fun y : string * ChatSession => last_activity y.2));
        [apply sorted_StronglySorted | exact He | exact Hr].
  - split; [lia|]. exists []. split; [done|].
    intros e r He. by apply elem_of_nil in He.
Qed.

Lemma cleanup_old_sessions_keeps_latest_witness :
  length (sessions (_cleanup_old_sessions
    {| sessions := [("a", ChatSession_new "a" None 10 30);
                    ("b", ChatSession_new "b" None 11 20);
                    ("c", ChatSession_new "c" None 12 40)];
       max_sessions := 2; max_messages_per_session := 10 |}))
  = 2%nat.
Proof.
  edestruct (cleanup_old_sessions_keeps_latest
    {| sessions := [("a", ChatSession_new "a" None 10 30);
                    ("b", ChatSession_new "b" None 11 20);
                    ("c", ChatSession_new "c" None 12 40)];
       max_sessions := 2; max_messages_per_session := 10 |}) as [H _].
  - apply (bool_decide_unpack _). vm_compute. reflexivity.
  - simpl. lia.
  - exact H.
Defined.

Lemma total_shift (l : list ChatSession) (a : Z) :
  fold_left (fun total s => total + Z.of_nat (length (messages s))) l a
  = a + fold_left (fun total s => total + Z.of_nat (length (messages s))) l 0.
Proof.
  revert a. induction l as [|s l IH]; intros a; simpl; [lia|].
  rewrite (IH (a + _)), (IH (0 + _)). lia.
Qed.

Lemma total_od_set (d : odict ChatSession) sid s s' :
  od_get sid d = Some s ->
  fold_left (fun total s => total + Z.of_nat (length (messages s))) (od_set sid s' d).*2 0
  = fold_left (fun total s => total + Z.of_nat (length (messages s))) d.*2 0
    + Z.of_nat (length (messages s')) - Z.of_nat (length (messages s)).
Proof.
  induction d as [|[k v] d IH]; cbn [od_get od_set]; [done|].
  destruct (String.eqb_spec sid k) as [->|Hne].
  - intros [= ->]. rewrite !fmap_cons. cbn [fold_left snd].
    rewrite (total_shift _ (0 + Z.of_nat (length (messages s')))),
      (total_shift _ (0 + Z.of_nat (length (messages s)))).
    lia.
  - intros Hget. rewrite !fmap_cons. cbn [fold_left snd].
    rewrite (total_shift (od_set sid s' d).*2), IH by done.
    rewrite (total_shift d.*2 (0 + _)). lia.
Qed.

(** X8. Appending a message to a registered session puts it last in
    that session and sets the session's [last_activity]; the total
    number of messages grows by one, the number of sessions does not
    change, and the other sessions are as before. *)
Theorem append_message_counts (h : ChatHistory) (sid : string) (s : ChatSession)
    (m : ChatMessage) (now : datetime) :
  get_session h sid = Some s ->
  get_session (append_message h sid m now) sid = Some (add_message s m now) /\
  messages (add_message s m now) = messages s ++ [m] /\
  last_activity (add_message s m now) = now /\
  get_total_messages (append_message h sid m now) = get_total_messages h + 1 /\
  get_session_count (append_message h sid m now) = get_session_count h /\
  (forall sid', sid' <> sid ->
     get_session (append_message h sid m now) sid' = get_session h sid').
Proof.
  intros Hget. unfold append_message, get_total_messages, get_session_count.
  rewrite Hget. unfold get_session in *. simpl.
  split; [apply od_get_set_eq|]. split; [done|]. split; [done|]. split; [|split].
  - rewrite (total_od_set _ _ s) by done. simpl. rewrite length_app. simpl. lia.
  - by erewrite length_od_set_present.
  - intros sid' Hne. by apply od_get_set_ne.
Qed.

Lemma append_message_counts_witness :
  get_total_messages
    (append_message (run (ChatHistory_new 2 2) ChatExamples.mixed_ops) "a"
       (ChatExamples.msg "m4" "four" 90) 91)
  = get_total_messages (run (ChatHistory_new 2 2) ChatExamples.mixed_ops) + 1.
Proof.
  edestruct (append_message_counts (run (ChatHistory_new 2 2) ChatExamples.mixed_ops) "a")
    as (_ & _ & _ & H & _); [vm_compute; reflexivity|].
  exact H.
Defined.

(** X9. [create_session] with an identifier that is already registered,
    on a history within its session bound, replaces the session by a new
    one without messages; no session is evicted and the other sessions
    are as before. *)
Theorem create_session_overwrites (h : ChatHistory) (sid : string) (s : ChatSession)
    (uid : option string) (t1 t2 : datetime) :
  get_session h sid = Some s ->
  sessions_bounded h ->
  (create_session h sid uid t1 t2).1 = ChatSession_new sid uid t1 t2 /\
  get_session (create_session h sid uid t1 t2).2 sid
    = Some (ChatSession_new sid uid t1 t2) /\
  messages (ChatSession_new sid uid t1 t2) = [] /\
  keys (sessions (create_session h sid uid t1 t2).2) = keys (sessions h) /\
  (forall sid', sid' <> sid ->
     get_session (create_session h sid uid t1 t2).2 sid' = get_session h sid').
Proof.
  unfold sessions_bounded, get_session. intros Hget Hb.
  split; [done|]. simpl. unfold _cleanup_old_sessions. simpl.
  rewrite (length_od_set_present sid _ s) by done.
  destruct (Z.ltb_spec (max_sessions h) (Z.of_nat (length (sessions h)))); [lia|].
  simpl. split; [apply od_get_set_eq|]. split; [done|]. split.
  - by eapply keys_od_set_present.
  - intros sid' Hne. by apply od_get_set_ne.
Qed.

Lemma create_session_overwrites_witness :
  (messages <$> get_session (run (ChatHistory_new 2 2) ChatExamples.mixed_ops) "a")
    = Some [ChatExamples.msg "m1" "one" 20; ChatExamples.msg "m2" "two" 40;
            ChatExamples.msg "m3" "three" 50] /\
  (messages <$> get_session
     (create_session (run (ChatHistory_new 2 2) ChatExamples.mixed_ops) "a" None 80 81).2 "a")
    = Some [].
Proof.
  split; [vm_compute; reflexivity|].
  edestruct (create_session_overwrites (run (ChatHistory_new 2 2) ChatExamples.mixed_ops) "a")
    as (_ & H & _).
  - vm_compute. reflexivity.
  - unfold sessions_bounded. vm_compute. congruence.
  - rewrite H. reflexivity.
Defined.

(** X28. The dictionary of a session holds one dictionary per message,
    in conversation order; each passes [validate_message], and reading
    them with [ChatMessage.from_dict] gives back the messages of the
    session, when their timestamps are datetimes of the library. *)
Theorem session_dict_messages_read_back (s : ChatSession) :
  Forall (fun m => datetime_in_range (timestamp m)) (messages s) ->
  exists l,
    od_get "messages" (ChatSession_to_dict s) = Some (PList l) /\
    length l = length (messages s) /\
    Forall (fun v => exists d, v = PDict d /\ Validation.validate_message d = true) l /\
    read_all (fun v => as_dict v ≫= from_dict) l = Ok (messages s).
Proof.
  intros Hrange. eexists. split; [reflexivity|].
  split; [by rewrite length_fmap|].
  induction Hrange as [|m ms Hm Hms [IH1 IH2]]; [by split|].
  rewrite fmap_cons. split.
  - apply List.Forall_cons; [|done]. by eexists.
  - cbn [read_all as_dict mbind result_bind].
    rewrite SerialFacts.ChatMessage_round_trip by done.
    cbn [mbind result_bind]. by rewrite IH2.
Qed.

Lemma session_dict_messages_read_back_witness :
  exists l,
    od_get "messages"
      (ChatSession_to_dict
         (add_message (ChatSession_new "s1" None 10 10) SerialExamples.message 20))
      = Some (PList l) /\
    read_all (fun v => as_dict v ≫= from_dict) l = Ok [SerialExamples.message].
Proof.
  destruct (session_dict_messages_read_back
              (add_message (ChatSession_new "s1" None 10 10) SerialExamples.message 20))
    as (l & H1 & _ & _ & H2).
  - apply List.Forall_cons; [|apply List.Forall_nil].
    unfold datetime_in_range. split; vm_compute; congruence.
  - exists l. exact (conj H1 H2).
Defined.

End ChatMore.

(** ** rate_limiting.py *)

Module RateLimitMore.
Import RateLimit RateLimitFacts.

Lemma check_blocked_Some info now info1 :
  check_blocked info now = Some info1 ->
  requests_made info1 = requests_made info /\
  window_start info1 = window_start info /\
  (is_Some (block_until info) -> is_blocked info1 = false).
Proof.
  unfold check_blocked. destruct (is_blocked info) eqn:Hb.
  - destruct (block_until info) as [u|] eqn:Hu.
    + destruct (now <? u); [done|]. by intros [= <-].
    + intros [= <-]. repeat split. by intros [? ?].
  - intros [= <-]. done.
Qed.

Lemma entry_ok_new max_r t : 0 <= max_r -> entry_ok max_r (RateLimitInfo_new t).
Proof. intros H. split; simpl; [lia|done]. Qed.

(** The entry of a key stays within its bounds through one call. *)
Lemma is_allowed_entry_ok rl key now t_new :
  0 <= max_requests rl ->
  entry_ok (max_requests rl) (entry rl key t_new) ->
  exists info',
    users (is_allowed rl key now t_new).2 !! key = Some info' /\
    entry_ok (max_requests rl) info' /\
    ((is_allowed rl key now t_new).1 = false -> max_requests rl <= requests_made info').
Proof.
  intros Hmax [Hrange Hblk]. unfold is_allowed.
  destruct (check_blocked (entry rl key t_new) now) as [info1|] eqn:Hcb.
  - destruct (check_blocked_Some _ _ _ Hcb) as (Hr & Hw & Hb1).
    assert (Hnb : is_blocked info1 = false).
    { destruct (is_blocked (entry rl key t_new)) eqn:Hb.
      - apply Hb1. by apply Hblk.
      - unfold check_blocked in Hcb. rewrite Hb in Hcb. by injection Hcb as <-. }
    unfold reset_window, count_request.
    destruct (_ <=? now - _); simpl.
    + destruct (Z.leb_spec (max_requests rl) 0); simpl;
        rewrite lookup_insert_eq; eexists; (split; [done|]);
        unfold entry_ok; simpl; rewrite ?Hnb; repeat split;
        try done; try lia; try (by eexists).
    + destruct (Z.leb_spec (max_requests rl) (requests_made info1)); simpl;
        rewrite lookup_insert_eq; eexists; (split; [done|]);
        unfold entry_ok; simpl; rewrite ?Hnb; repeat split;
        try done; try lia; try (by eexists).
  - simpl. rewrite lookup_insert_eq. eexists. split; [done|]. split; [done|].
    intros _. unfold check_blocked in Hcb.
    destruct (is_blocked (entry rl key t_new)) eqn:Hb; [|done].
    by apply Hblk.
Qed.

Lemma is_allowed_other rl key key' now t_new :
  key' <> key ->
  users (is_allowed rl key now t_new).2 !! key' = users rl !! key'.
Proof.
  intros Hne. unfold is_allowed. destruct (check_blocked _ _).
  - destruct (count_request _ _ _ _). simpl. by rewrite lookup_insert_ne.
  - simpl. by rewrite lookup_insert_ne.
Qed.

Lemma is_allowed_settings rl key now t_new :
  max_requests (is_allowed rl key now t_new).2 = max_requests rl /\
  window_minutes (is_allowed rl key now t_new).2 = window_minutes rl.
Proof.
  unfold is_allowed. destruct (check_blocked _ _); [|done].
  by destruct (count_request _ _ _ _).
Qed.

Lemma limiter_ok_entry rl key t_new :
  0 <= max_requests rl -> limiter_ok rl ->
  entry_ok (max_requests rl) (entry rl key t_new).
Proof.
  intros Hmax Hok. unfold entry. destruct (users rl !! key) as [info|] eqn:Hget.
  - by apply (map_Forall_lookup_1 _ _ _ _ Hok Hget).
  - by apply entry_ok_new.
Qed.

(** X10. With [max_requests >= 0], a limiter all of whose entries count
    between 0 and [max_requests] (the new limiter is one) stays such
    through every [is_allowed] call; the call changes no entry but that
    of its key and never the settings. *)
Theorem is_allowed_keeps_limiter (rl : RateLimiter) (key : string)
    (now t_new : datetime) :
  0 <= max_requests rl ->
  limiter_ok rl ->
  limiter_ok (is_allowed rl key now t_new).2 /\
  (forall key', key' <> key ->
     users (is_allowed rl key now t_new).2 !! key' = users rl !! key') /\
  max_requests (is_allowed rl key now t_new).2 = max_requests rl /\
  window_minutes (is_allowed rl key now t_new).2 = window_minutes rl.
Proof.
  intros Hmax Hok.
  destruct (is_allowed_settings rl key now t_new) as [Hm Hw].
  split; [|split; [|done]].
  - unfold limiter_ok. rewrite Hm. intros key' info' Hget.
    destruct (decide (key' = key)) as [->|Hne].
    + destruct (is_allowed_entry_ok rl key now t_new Hmax
                  (limiter_ok_entry rl key t_new Hmax Hok)) as (i & Hi & Hoki & _).
      congruence.
    + rewrite is_allowed_other in Hget by done.
      by apply (map_Forall_lookup_1 _ _ _ _ Hok Hget).
  - intros key' Hne. by apply is_allowed_other.
Qed.

Lemma is_allowed_keeps_limiter_witness :
  limiter_ok (is_allowed RateLimitExamples.limiter "alice" RateLimitExamples.t0
                (RateLimitExamples.t0 + 5)).2.
Proof.
  apply is_allowed_keeps_limiter.
  - simpl. lia.
  - unfold limiter_ok. simpl. apply map_Forall_empty.
Defined.

(** X11. On such a limiter, right after an [is_allowed] call that
    answered false [get_remaining_requests] is 0, and right after one
    that answered true it is [max_requests] minus the requests counted
    in the window, this one included. *)
Theorem remaining_after_is_allowed (rl : RateLimiter) (key : string)
    (now t_new : datetime) :
  0 <= max_requests rl ->
  limiter_ok rl ->
  ((is_allowed rl key now t_new).1 = false ->
     get_remaining_requests (is_allowed rl key now t_new).2 key = 0) /\
  ((is_allowed rl key now t_new).1 = true ->
     get_remaining_requests (is_allowed rl key now t_new).2 key
       = max_requests rl - (window_counter rl key now t_new + 1) /\
     0 <= get_remaining_requests (is_allowed rl key now t_new).2 key).
Proof.
  intros Hmax Hok.
  destruct (is_allowed_entry_ok rl key now t_new Hmax
              (limiter_ok_entry rl key t_new Hmax Hok)) as (i & Hi & [Hr _] & Hden).
  destruct (is_allowed_settings rl key now t_new) as [Hm _].
  unfold get_remaining_requests. rewrite Hi, Hm. split.
  - intros Hf. specialize (Hden Hf). lia.
  - intros Ht.
    destruct (is_allowed rl key now t_new) as [b rl'] eqn:E. simpl in *. subst b.
    destruct (is_allowed_true_counts rl key now t_new rl' E) as (i' & Hi' & Hc & _).
    assert (i' = i) by congruence. subst i'. lia.
Qed.

Lemma remaining_after_is_allowed_witness :
  get_remaining_requests
    (is_allowed RateLimitExamples.limiter "alice" RateLimitExamples.t0
       (RateLimitExamples.t0 + 5)).2 "alice" = 2.
Proof.
  destruct (remaining_after_is_allowed RateLimitExamples.limiter "alice"
              RateLimitExamples.t0 (RateLimitExamples.t0 + 5)) as [_ H].
  - simpl. lia.
  - unfold limiter_ok. simpl. apply map_Forall_empty.
  - destruct H as [H _]; [reflexivity|]. rewrite H. reflexivity.
Defined.

(** Calls that all fall in the window of the entry: the requests left
    in the window are allowed, the others refused. *)
Lemma calls_in_window clock : forall rl key info,
  users rl !! key = Some info ->
  0 <= requests_made info <= max_requests rl ->
  (is_blocked info = true -> max_requests rl <= requests_made info) ->
  Forall (fun tc : datetime * datetime =>
            tc.1 - window_start info < timedelta_minutes (window_minutes rl)) clock ->
  (calls rl key clock).1
  = replicate (Nat.min (length clock) (Z.to_nat (max_requests rl - requests_made info))) true
    ++ replicate (length clock - Z.to_nat (max_requests rl - requests_made info)) false.
Proof.
  induction clock as [|[now t_new] clock IH]; intros rl key info Hget Hrange Hblk Hwin.
  - done.
  - apply Forall_cons in Hwin as [Hnow Hwin]. simpl in Hnow.
    cbn [calls].
    assert (He : entry rl key t_new = info) by (unfold entry; by rewrite Hget).
    destruct (is_allowed rl key now t_new) as [b rl1] eqn:Hcall.
    destruct (calls rl1 key clock) as [bs rl2] eqn:Hrest. cbn [fst].
    assert (Hbs : bs = (calls rl1 key clock).1) by by rewrite Hrest.
    unfold is_allowed in Hcall. rewrite He in Hcall.
    destruct (check_blocked info now) as [info1|] eqn:Hcb.
    + destruct (check_blocked_Some _ _ _ Hcb) as (Hr & Hw & _).
      assert (Hb1 : is_blocked info1 = true -> is_blocked info = true).
      { intros H1. unfold check_blocked in Hcb.
        destruct (is_blocked info) eqn:Hbi; [done|]. injection Hcb as <-. congruence. }
      unfold reset_window, count_request in Hcall. rewrite Hw in Hcall.
      destruct (Z.leb_spec (timedelta_minutes (window_minutes rl))
                  (now - window_start info)); [lia|].
      rewrite Hr in Hcall.
      destruct (Z.leb_spec (max_requests rl) (requests_made info)) as [Hfull|Hroom];
        injection Hcall as <- <-.
      * rewrite Hbs, (IH _ key _ (lookup_insert_eq _ _ _)); simpl; try done; try lia.
        -- replace (Z.to_nat (max_requests rl - requests_made info)) with 0%nat by lia.
           rewrite !Nat.min_0_r, !Nat.sub_0_r. done.
        -- by rewrite Hw.
      * rewrite Hbs, (IH _ key _ (lookup_insert_eq _ _ _)); simpl; try done; try lia.
        -- replace (Z.to_nat (max_requests rl - requests_made info))
             with (S (Z.to_nat (max_requests rl - (requests_made info + 1)))) by lia.
           done.
        -- intros Hb. apply Hb1, Hblk in Hb. lia.
        -- by rewrite Hw.
    + injection Hcall as <- <-.
      assert (Hb : is_blocked info = true).
      { unfold check_blocked in Hcb. by destruct (is_blocked info). }
      specialize (Hblk Hb).
      rewrite Hbs, (IH _ key info (lookup_insert_eq _ _ _)); simpl; try done.
      replace (Z.to_nat (max_requests rl - requests_made info)) with 0%nat by lia.
      rewrite !Nat.min_0_r, !Nat.sub_0_r. done.
Qed.

Lemma is_allowed_fresh_store rl key now t_new :
  users rl !! key = None ->
  is_allowed rl key now t_new
  = is_allowed (store rl key (RateLimitInfo_new t_new)) key now t_new.
Proof.
  intros Hnone. unfold is_allowed. rewrite entry_store, (entry_fresh _ _ _ Hnone).
  destruct (check_blocked _ _); [|by rewrite store_store].
  destruct (count_request _ _ _ _). simpl. by rewrite store_store.
Qed.

(** X12. A key without entry, any [max_requests >= 0] and any window
    length for which the clock readings and the deadlines
    [now + window_minutes] of the calls are datetimes of the library
    (the code raises OverflowError where a deadline is not): of
    consecutive [is_allowed] calls that all fall in the window opened
    by the first, the first [max_requests] are allowed and every later
    one is refused. *)
Theorem new_key_allows_max_requests (rl : RateLimiter) (key : string)
    (t1 c1 : datetime) (later : list (datetime * datetime)) :
  users rl !! key = None ->
  0 <= max_requests rl ->
  Forall (call_in_range rl) ((t1, c1) :: later) ->
  Forall (fun tc : datetime * datetime =>
            tc.1 - c1 < timedelta_minutes (window_minutes rl)) ((t1, c1) :: later) ->
  (calls rl key ((t1, c1) :: later)).1
  = replicate (Nat.min (S (length later)) (Z.to_nat (max_requests rl))) true
    ++ replicate (S (length later) - Z.to_nat (max_requests rl)) false.
Proof.
  intros Hnone Hmax _ Hwin.
  assert (Hsame : calls rl key ((t1, c1) :: later)
                  = calls (store rl key (RateLimitInfo_new c1)) key ((t1, c1) :: later)).
  { cbn [calls]. by rewrite (is_allowed_fresh_store rl key t1 c1 Hnone). }
  rewrite Hsame.
  rewrite (calls_in_window _ _ key (RateLimitInfo_new c1)); simpl; try done; try lia.
  - by rewrite Z.sub_0_r.
  - by rewrite lookup_insert_eq.
Qed.

Lemma new_key_allows_max_requests_witness :
  (calls (RateLimiter_new 2 1) "bob"
     [(RateLimitExamples.t0, RateLimitExamples.t0 + 5);
      (RateLimitExamples.t0 + 10, RateLimitExamples.t0 + 15);
      (RateLimitExamples.t0 + 20, RateLimitExamples.t0 + 25);
      (RateLimitExamples.t0 + 30, RateLimitExamples.t0 + 35);
      (RateLimitExamples.t0 + 40, RateLimitExamples.t0 + 45)]).1
  = [true; true; false; false; false].
Proof.
  apply (new_key_allows_max_requests (RateLimiter_new 2 1) "bob").
  - reflexivity.
  - simpl. lia.
  - unfold call_in_range, datetime_in_range. cbn [fst snd].
    repeat first [apply List.Forall_nil
                 | apply List.Forall_cons; [repeat split; vm_compute; congruence|]].
  - repeat first [apply List.Forall_nil
                 | apply List.Forall_cons; [vm_compute; reflexivity|]].
Defined.

(** X13. The report of [check_rate_limit] carries the answer of
    [is_allowed], and always a reset time: the call has left an entry
    for the key, so [reset_time] is the ISO text of that entry's
    [window_start + window_minutes], never [None], and [remaining] is
    that entry's [max(0, max_requests - requests_made)]. *)
Theorem check_rate_limit_reports (rl : RateLimiter) (key : string)
    (now t_new : datetime) :
  (check_rate_limit key rl now t_new).2 = (is_allowed rl key now t_new).2 /\
  od_get "allowed" (check_rate_limit key rl now t_new).1
    = Some (PBool (is_allowed rl key now t_new).1) /\
  exists info,
    users (is_allowed rl key now t_new).2 !! key = Some info /\
    od_get "reset_time" (check_rate_limit key rl now t_new).1
      = Some (PStr (isoformat
                      (window_start info + timedelta_minutes (window_minutes rl)))) /\
    od_get "remaining" (check_rate_limit key rl now t_new).1
      = Some (PInt (Z.max 0 (max_requests rl - requests_made info))).
Proof.
  unfold check_rate_limit.
  destruct (is_allowed_leaves_entry rl key now t_new) as [info Hinfo].
  destruct (is_allowed_settings rl key now t_new) as [Hm Hw].
  destruct (is_allowed rl key now t_new) as [b rl1]. simpl in *.
  split; [done|]. split; [done|]. exists info. split; [done|].
  unfold get_reset_time, get_remaining_requests. rewrite Hinfo, Hm, Hw. done.
Qed.

(** X14. While a key is blocked, every [is_allowed] call before its
    [block_until] is refused and leaves the limiter as it is, whatever
    the settings and however many calls are made. *)
Theorem blocked_key_is_refused (rl : RateLimiter) (key : string)
    (info : RateLimitInfo) (until : datetime) (clock : list (datetime * datetime)) :
  users rl !! key = Some info ->
  is_blocked info = true ->
  block_until info = Some until ->
  Forall (fun tc : datetime * datetime => tc.1 < until) clock ->
  calls rl key clock = (replicate (length clock) false, rl).
Proof. apply calls_while_blocked. Qed.

Lemma blocked_key_is_refused_witness :
  exists rl,
    (calls (RateLimiter_new 1 1) "bob"
       [(RateLimitExamples.t0, RateLimitExamples.t0 + 5);
        (RateLimitExamples.t0 + 10, RateLimitExamples.t0 + 15)]).2 = rl /\
    calls rl "bob" [(RateLimitExamples.t0 + 20, 0); (RateLimitExamples.t0 + 30, 0)]
      = ([false; false], rl).
Proof.
  eexists. split; [reflexivity|].
  eapply (blocked_key_is_refused _ "bob").
  - vm_compute. reflexivity.
  - reflexivity.
  - reflexivity.
  - repeat first [apply List.Forall_nil
                 | apply List.Forall_cons; [vm_compute; reflexivity|]].
Defined.

End RateLimitMore.

(** ** response_models.py *)

Module ResponseMore.
Import Response PyFacts ResponseFacts.

(** X15. A response whose [created_at] is a datetime of the library
    comes back unchanged from [AIResponse.from_dict (AIResponse.to_dict r)],
    its metadata included. *)
Theorem response_round_trip (r : AIResponse) :
  datetime_in_range (created_at r) ->
  from_dict (to_dict r) = Ok r.
Proof. apply SerialFacts.AIResponse_round_trip. Qed.

Lemma response_round_trip_witness :
  from_dict (to_dict SerialExamples.response) = Ok SerialExamples.response.
Proof.
  apply response_round_trip. unfold datetime_in_range. split; vm_compute; congruence.
Defined.

(** One [set] with a fingerprint that is not in the cache. *)
Lemma set_fresh rc c response uid :
  1 <= max_size rc ->
  Z.of_nat (length (cache rc)) <= max_size rc ->
  _hash_content c uid ∉ keys (cache rc) ->
  exists rc',
    set rc c response uid = Ok rc' /\
    cache rc' = drop (length (cache rc) + 1 - Z.to_nat (max_size rc))
                  (cache rc ++ [(_hash_content c uid, response)]) /\
    max_size rc' = max_size rc /\ hit_count rc' = hit_count rc /\
    miss_count rc' = miss_count rc.
Proof.
  intros Hpos Hb Hfresh. rewrite set_spec.
  destruct (cache rc) as [|[k0 v0] rest] eqn:Hc.
  - destruct (Z.leb_spec (max_size rc) 0); [lia|]. eexists. split; [done|].
    cbn [cache max_size hit_count miss_count]. split; [|done].
    replace (length [] + 1 - Z.to_nat (max_size rc))%nat with 0%nat
      by (cbn [length]; lia).
    done.
  - eexists. split; [done|]. cbn [cache max_size hit_count miss_count].
    split; [|done].
    destruct (Z.leb_spec (max_size rc) (Z.of_nat (length ((k0, v0) :: rest)))) as [Hfull|Hroom].
    + replace (length ((k0, v0) :: rest) + 1 - Z.to_nat (max_size rc))%nat with 1%nat
        by (simpl in *; lia).
      rewrite od_set_fresh; [done|]. apply od_get_None.
      unfold keys in *. rewrite fmap_cons in Hfresh.
      by apply not_elem_of_cons in Hfresh as [_ ?].
    + replace (length ((k0, v0) :: rest) + 1 - Z.to_nat (max_size rc))%nat with 0%nat by lia.
      rewrite od_set_fresh; [done|]. by apply od_get_None.
Qed.

Lemma set_all_fresh requests : forall rc,
  1 <= max_size rc ->
  Z.of_nat (length (cache rc)) <= max_size rc ->
  NoDup (keys (cache rc ++ (cached_entry <$> requests))) ->
  exists rc',
    set_all rc requests = Ok rc' /\
    cache rc' = drop (length (cache rc) + length requests - Z.to_nat (max_size rc))
                  (cache rc ++ (cached_entry <$> requests)) /\
    hit_count rc' = hit_count rc /\ miss_count rc' = miss_count rc.
Proof.
  induction requests as [|[[c r] uid] requests IH]; intros rc Hpos Hb Hnd.
  - exists rc. split; [done|]. simpl. rewrite app_nil_r.
    replace (length (cache rc) + 0 - Z.to_nat (max_size rc))%nat with 0%nat by lia. done.
  - rewrite fmap_cons in Hnd. unfold cached_entry at 1 in Hnd. simpl in Hnd.
    assert (Hfresh : _hash_content c uid ∉ keys (cache rc)).
    { unfold keys in *. rewrite fmap_app in Hnd. apply NoDup_app in Hnd as (_ & Hdis & _).
      intros Hin. apply (Hdis _ Hin). rewrite fmap_cons. apply list_elem_of_here. }
    destruct (set_fresh rc c r uid Hpos Hb Hfresh) as (rc1 & Hset & Hc1 & Hm1 & Hh1 & Hmi1).
    assert (Hnd1 : NoDup (keys ((cache rc ++ [(_hash_content c uid, r)])
                                ++ (cached_entry <$> requests)))).
    { by rewrite <- app_assoc. }
    destruct (IH rc1) as (rc' & Hall & Hc' & Hh' & Hmi').
    + by rewrite Hm1.
    + rewrite Hc1, Hm1, length_drop, length_app. simpl. lia.
    + rewrite Hc1. unfold keys in *. rewrite fmap_app in *. rewrite fmap_drop.
      apply NoDup_app in Hnd1 as (Hn1 & Hdis & Hn2). apply NoDup_app. repeat split.
      * eapply sublist_NoDup; [exact Hn1 | apply sublist_drop].
      * intros k Hk. apply Hdis. by apply (subseteq_drop _ _) in Hk.
      * done.
    + exists rc'. cbn [set_all fst snd]. rewrite Hset. cbn [mbind result_bind].
      split; [done|]. split; [|by rewrite Hh', Hmi'].
      rewrite Hc', Hc1, Hm1, length_drop, length_app. cbn [length].
      rewrite fmap_cons. unfold cached_entry at 3. cbn [fst snd].
      rewrite <- drop_app_le by (rewrite length_app; simpl; lia).
      rewrite drop_drop, <- app_assoc. cbn [app]. f_equal. lia.
Qed.

(** X16. Eviction is first in, first out: after any number of [set]
    calls with pairwise distinct fingerprints on a new cache with
    [max_size >= 1], the cache holds the last [max_size] of the
    responses stored (all of them if they are fewer), in the order they
    were stored, and the counters are still 0. *)
Theorem set_all_keeps_latest (size : Z) (requests : list cache_request) :
  1 <= size ->
  NoDup (cached_entry <$> requests).*1 ->
  exists rc,
    set_all (ResponseCache_new size) requests = Ok rc /\
    cache rc = drop (length requests - Z.to_nat size) (cached_entry <$> requests) /\
    hit_count rc = 0 /\ miss_count rc = 0.
Proof.
  intros Hpos Hnd.
  destruct (set_all_fresh requests (ResponseCache_new size)) as (rc & H1 & H2 & H3 & H4);
    simpl; try done; try lia.
  by exists rc.
Qed.

Lemma set_all_keeps_latest_witness :
  exists rc,
    set_all (ResponseCache_new 2)
      [("hello", ResponseExamples.r1, None); ("bye", ResponseExamples.r2, None);
       ("hello", ResponseExamples.r3, Some "u1")] = Ok rc /\
    (fun e => response_id e.2) <$> cache rc = ["r2"; "r3"].
Proof.
  destruct (set_all_keeps_latest 2
      [("hello", ResponseExamples.r1, None); ("bye", ResponseExamples.r2, None);
       ("hello", ResponseExamples.r3, Some "u1")]) as (rc & H1 & H2 & _).
  - lia.
  - apply (bool_decide_unpack _). vm_compute. reflexivity.
  - exists rc. split; [exact H1|]. rewrite H2. vm_compute. reflexivity.
Defined.

Lemma get_counts rc c uid :
  hit_count (get rc c uid).2 + miss_count (get rc c uid).2
    = hit_count rc + miss_count rc + 1 /\
  cache (get rc c uid).2 = cache rc /\ max_size (get rc c uid).2 = max_size rc.
Proof. unfold get. destruct (od_get _ _); simpl; repeat split; lia. Qed.

(** X17. Every [get] is counted once, as a hit or as a miss, and [set]
    counts nothing: after any sequence of [get] and [set] calls that
    completes, [hit_count + miss_count] has grown by the number of [get]
    calls. *)
Theorem gets_are_counted (ops : list cache_op) (rc rc' : ResponseCache) :
  run_cache rc ops = Ok rc' ->
  hit_count rc' + miss_count rc'
    = hit_count rc + miss_count rc + Z.of_nat (length (List.filter is_get ops)).
Proof.
  revert rc. induction ops as [|[c0 uid0|c0 r0 uid0] ops IH]; intros rc Hrun.
  - injection Hrun as ->. simpl. lia.
  - cbn [run_cache] in Hrun. rewrite (IH _ Hrun).
    destruct (get_counts rc c0 uid0) as (Hc & _). cbn [List.filter is_get length]. lia.
  - cbn [run_cache] in Hrun. destruct (set rc c0 r0 uid0) as [rc1|e] eqn:Hset; [|done].
    cbn [mbind result_bind] in Hrun. rewrite (IH _ Hrun).
    apply set_lookup in Hset as (_ & _ & Hh & Hm). cbn [List.filter is_get]. lia.
Qed.

Lemma gets_are_counted_witness :
  exists rc',
    run_cache (ResponseCache_new 2)
      [GetOp "hello" None; SetOp "hello" ResponseExamples.r1 None;
       GetOp "hello" None; GetOp "bye" None] = Ok rc' /\
    hit_count rc' + miss_count rc' = 3.
Proof.
  eexists. split; [vm_compute; reflexivity|].
  eapply (gets_are_counted
      [GetOp "hello" None; SetOp "hello" ResponseExamples.r1 None;
       GetOp "hello" None; GetOp "bye" None] (ResponseCache_new 2)).
  vm_compute. reflexivity.
Defined.

Lemma string_app_assoc (a b c : string) : (a +:+ b) +:+ c = a +:+ (b +:+ c).
Proof.
  induction a as [|x a IH]; [done|].
  change (String x ((a +:+ b) +:+ c) = String x (a +:+ (b +:+ c))).
  by rewrite IH.
Qed.

Lemma truthy_str_app_colon (x u : string) : truthy_str (x +:+ ":" +:+ u) = true.
Proof. by destruct x. Qed.

(** X18. The fingerprint joins content and user identifier with a
    colon and puts "anonymous" for a missing identifier, so it does not
    keep users apart: a response cached without user identifier is
    returned to the user named "anonymous", and a response cached for
    user [u] under the content [c:x] is returned to user [x:u] asking
    for [c]. *)
Theorem cache_is_shared_between_users (rc rc' : ResponseCache) (c x u : string)
    (response : AIResponse) :
  (set rc c response None = Ok rc' ->
     (get rc' c (Some "anonymous")).1 = Some response) /\
  (u <> "" ->
   set rc (c +:+ ":" +:+ x) response (Some u) = Ok rc' ->
     (get rc' c (Some (x +:+ ":" +:+ u))).1 = Some response).
Proof.
  split.
  - intros Hset. apply set_lookup in Hset as (Hget & _).
    unfold get. change (_hash_content c (Some "anonymous")) with (_hash_content c None).
    by rewrite Hget.
  - intros Hu Hset. apply set_lookup in Hset as (Hget & _).
    assert (Hsame : _hash_content c (Some (x +:+ ":" +:+ u))
                    = _hash_content (c +:+ ":" +:+ x) (Some u)).
    { unfold _hash_content. cbn [truthy_opt_str default from_option Datatypes.id].
      rewrite truthy_str_app_colon. destruct u as [|a u]; [done|].
      cbn [truthy_str]. f_equal.
      by rewrite !string_app_assoc. }
    unfold get. by rewrite Hsame, Hget.
Qed.

Lemma cache_is_shared_between_users_witness :
  exists rc',
    set (ResponseCache_new 2) "weather:paris" ResponseExamples.r1 (Some "u1") = Ok rc' /\
    (get rc' "weather" (Some "paris:u1")).1 = Some ResponseExamples.r1.
Proof.
  destruct (set_returns (ResponseCache_new 2) "weather:paris" ResponseExamples.r1 (Some "u1"))
    as [rc' Hset]; [left; simpl; lia|].
  exists rc'. split; [exact Hset|].
  destruct (cache_is_shared_between_users (ResponseCache_new 2) rc' "weather" "paris" "u1"
              ResponseExamples.r1) as [_ H].
  apply H; [discriminate | exact Hset].
Defined.

(** X19. [add_suggested_action] never stores an action twice: the
    action is among the suggested actions afterwards, a list without
    duplicates stays without duplicates, and adding the same action
    again changes nothing. *)
Theorem add_suggested_action_once (r : AIResponse) (action : string) :
  action ∈ suggested_actions (add_suggested_action r action) /\
  (NoDup (suggested_actions r) ->
     NoDup (suggested_actions (add_suggested_action r action))) /\
  add_suggested_action (add_suggested_action r action) action
    = add_suggested_action r action.
Proof.
  destruct (decide (action ∈ suggested_actions r)) as [Hin|Hnin].
  - assert (E : add_suggested_action r action = r).
    { unfold add_suggested_action. by rewrite bool_decide_eq_true_2. }
    by rewrite !E.
  - assert (E : suggested_actions (add_suggested_action r action)
                = suggested_actions r ++ [action]).
    { unfold add_suggested_action. by rewrite bool_decide_eq_false_2. }
    assert (Hin : action ∈ suggested_actions (add_suggested_action r action)).
    { rewrite E. apply elem_of_app. right. apply list_elem_of_here. }
    split; [done|]. split.
    + intros Hnd. rewrite E. apply NoDup_app. repeat split; [done| |apply NoDup_singleton].
      intros a Ha Ha'. apply list_elem_of_singleton in Ha'. by subst a.
    + unfold add_suggested_action at 1. by rewrite bool_decide_eq_true_2.
Qed.

Lemma add_suggested_action_once_witness :
  NoDup (suggested_actions (add_suggested_action SerialExamples.response "undo")).
Proof.
  destruct (add_suggested_action_once SerialExamples.response "undo") as (_ & H & _).
  apply H. apply (bool_decide_unpack _). vm_compute. reflexivity.
Defined.

(** X29. [clear] starts the cache again with its size: for every
    cache, what was cached is no longer found and the lookup is the
    first miss counted; with [max_size >= 1] the next [set] is the only
    entry and its [get] is the first hit, and with [max_size <= 0] the
    next [set] raises [StopIteration]. *)
Theorem clear_restarts_cache (rc : ResponseCache) (c : string)
    (response : AIResponse) (uid : option string) :
  get (clear rc) c uid =
    (None, {| cache := []; max_size := max_size rc;
              hit_count := 0; miss_count := 1 |}) /\
  (1 <= max_size rc ->
   exists rc',
     set (clear rc) c response uid = Ok rc' /\
     cache rc' = [(_hash_content c uid, response)] /\
     max_size rc' = max_size rc /\
     get rc' c uid =
       (Some response,
        {| cache := cache rc'; max_size := max_size rc;
           hit_count := 1; miss_count := 0 |})) /\
  (max_size rc <= 0 -> set (clear rc) c response uid = Raise StopIteration).
Proof.
  split; [done|].
  rewrite set_spec. cbn [clear cache max_size hit_count miss_count].
  split; intros Hsize; (destruct (Z.leb_spec (max_size rc) 0); [|]); try lia; [|done].
  eexists. split; [reflexivity|]. cbn [cache max_size]. split; [done|]. split; [done|].
  unfold get. cbn [cache od_get max_size hit_count miss_count].
  by rewrite String.eqb_refl.
Qed.

Lemma clear_restarts_cache_witness :
  (get (clear {| cache := [(_hash_content "hello" None, ResponseExamples.r1)];
                 max_size := 2; hit_count := 3; miss_count := 1 |})
     "hello" None).1 = None.
Proof.
  destruct (clear_restarts_cache
              {| cache := [(_hash_content "hello" None, ResponseExamples.r1)];
                 max_size := 2; hit_count := 3; miss_count := 1 |}
              "hello" ResponseExamples.r1 None) as [H _].
  exact (f_equal fst H).
Defined.

End ResponseMore.


(** ** user_models.py *)

Module UsersMore.
Import Users PyFacts UsersFacts DatetimeFacts.

(** X20. Preferences come back unchanged from
    [UserPreferences.from_dict (p.to_dict ())], whatever their values;
    so two preferences with the same dictionary are equal. *)
Theorem preferences_round_trip (p q : UserPreferences) :
  UserPreferences_from_dict (UserPreferences_to_dict p) = Ok p /\
  (UserPreferences_to_dict p = UserPreferences_to_dict q -> p = q).
Proof.
  split; [apply SerialFacts.UserPreferences_round_trip|].
  intros Heq. pose proof (SerialFacts.UserPreferences_round_trip p) as Hp.
  rewrite Heq, SerialFacts.UserPreferences_round_trip in Hp. congruence.
Qed.

(** X21. A user whose [stats.last_activity] is unset (every user until
    the first [stats.add_session]) and whose [created_at] and
    [last_login] are datetimes of the library comes back unchanged from
    [User.from_dict (u.to_dict ())]. *)
Theorem user_round_trip_without_activity (u : User) :
  last_activity (stats u) = PNone ->
  datetime_in_range (created_at u) ->
  (forall t, last_login u = Some t -> datetime_in_range t) ->
  to_dict u ≫= from_dict = Ok u.
Proof.
  intros Hnone Hc Hl.
  destruct (SerialFacts.User_round_trip_unset u Hnone Hc Hl) as (data & -> & Hfrom).
  exact Hfrom.
Qed.

Lemma user_round_trip_without_activity_witness :
  to_dict SerialExamples.new_user ≫= from_dict = Ok SerialExamples.new_user.
Proof.
  apply (user_round_trip_without_activity SerialExamples.new_user).
  - reflexivity.
  - unfold datetime_in_range. split; vm_compute; congruence.
  - intros t Ht. injection Ht as <-.
    unfold datetime_in_range. split; vm_compute; congruence.
Defined.

(** X22. A user whose [stats.last_activity] is set is written by
    [to_dict] and read by [from_dict], but the user that comes back
    cannot be written again: its [stats.last_activity] is the ISO text,
    on which [UserStats.to_dict] calls [isoformat], and [to_dict] raises
    AttributeError. *)
Theorem restored_user_to_dict_raises (u : User) (d : datetime) :
  last_activity (stats u) = PDatetime d ->
  datetime_in_range (created_at u) ->
  (forall t, last_login u = Some t -> datetime_in_range t) ->
  exists data u',
    to_dict u = Ok data /\
    from_dict data = Ok u' /\
    last_activity (stats u') = PStr (isoformat d) /\
    to_dict u' = Raise (AttributeError "isoformat").
Proof.
  intros Hset Hc Hl.
  destruct (SerialFacts.User_round_trip u (PStr (isoformat d))) as (data & Hto & Hfrom);
    [by rewrite Hset|done|done|].
  exists data, (with_last_activity u (PStr (isoformat d))).
  split; [done|]. split; [done|]. split; [done|].
  unfold to_dict, UserStats_to_dict, isoformat_if_set.
  cbn [stats with_last_activity last_activity].
  by rewrite SerialFacts.isoformat_truthy.
Qed.

Lemma restored_user_to_dict_raises_witness :
  exists data u',
    to_dict SerialExamples.user_with_session = Ok data /\
    from_dict data = Ok u' /\
    last_activity (stats u') = PStr (isoformat SerialExamples.t_active) /\
    to_dict u' = Raise (AttributeError "isoformat").
Proof.
  apply (restored_user_to_dict_raises SerialExamples.user_with_session
           SerialExamples.t_active).
  - reflexivity.
  - unfold datetime_in_range. split; vm_compute; congruence.
  - intros t Ht. injection Ht as <-.
    unfold datetime_in_range. split; vm_compute; congruence.
Defined.

(** X23. One session of an active user whose identifier is not the
    empty string: [authenticate_user] answers true and the token leads
    to the user, signed in at that time; [logout_user] on the token then
    answers true, the token leads nowhere, the user is kept without its
    token, and the other users and the other tokens are as they were
    before the sign-in. *)
Theorem sign_in_then_sign_out (um : UserManager) (uid token : string)
    (user : User) (now : datetime) :
  get_user um uid = Some user ->
  is_active user = true ->
  uid <> "" ->
  let um1 := (authenticate_user um uid token now).2 in
  let um2 := (logout_user um1 token).2 in
  (authenticate_user um uid token now).1 = true /\
  get_user_by_session um1 token = Some (login user token now) /\
  (logout_user um1 token).1 = true /\
  get_user_by_session um2 token = None /\
  get_user um2 uid = Some (logout (login user token now)) /\
  (forall uid', uid' <> uid -> get_user um2 uid' = get_user um uid') /\
  (forall token', token' <> token ->
     active_sessions um2 !! token' = active_sessions um !! token').
Proof.
  intros Huser Hact Hne um1 um2.
  destruct (authenticate_then_lookup um uid user token now Huser Hact Hne)
    as (um1' & Hauth & Hu1 & _ & _ & Hidx1 & Hlook1).
  assert (um1 = um1') as Hum1 by (unfold um1; by rewrite Hauth).
  destruct (logout_then_lookup um1' uid (login user token now) token Hidx1 Hu1 Hne)
    as (um2' & Hout & Hu2 & _ & _ & Hlook2).
  assert (um2 = um2') as Hum2 by (unfold um2; by rewrite Hum1, Hout).
  rewrite Hauth, Hum2. rewrite Hum1. rewrite Hout.
  split; [done|]. split; [done|]. split; [done|]. split; [done|]. split; [done|].
  revert Hauth Hout. unfold authenticate_user, logout_user, session_entry, get_user.
  unfold get_user in Huser. rewrite Huser, Hact. intros [= <-]. cbn [active_sessions users].
  rewrite lookup_insert_eq. destruct uid as [|a uid]; [done|].
  cbn [truthy_str]. rewrite lookup_insert_eq. cbn [fmap option_fmap option_map].
  intros [= <-]. cbn [users active_sessions]. split.
  - intros uid' Hne'. by rewrite !lookup_insert_ne.
  - intros token' Hne'. by rewrite lookup_delete_ne, lookup_insert_ne.
Qed.

Lemma sign_in_then_sign_out_witness :
  get_user_by_session
    (authenticate_user UsersExamples.one_user "u1" "tok1" 20).2 "tok1"
    = Some (login (User_new "u1" "alice" None GUEST 10) "tok1" 20) /\
  get_user_by_session
    (logout_user (authenticate_user UsersExamples.one_user "u1" "tok1" 20).2 "tok1").2
    "tok1" = None.
Proof.
  destruct (sign_in_then_sign_out UsersExamples.one_user "u1" "tok1"
              (User_new "u1" "alice" None GUEST 10) 20)
    as (_ & H1 & _ & H2 & _); [vm_compute; reflexivity|reflexivity|discriminate|].
  exact (conj H1 H2).
Defined.

(** X24. A call that answers false changes nothing: [authenticate_user]
    answers false exactly when the user is absent or not active, and
    [logout_user] exactly when the token leads to no user; in both cases
    the manager is as before. *)
Theorem refused_calls_change_nothing (um : UserManager) (uid token : string)
    (now : datetime) :
  ((authenticate_user um uid token now).1 = false <->
     (get_user um uid = None \/
      exists user, get_user um uid = Some user /\ is_active user = false)) /\
  ((authenticate_user um uid token now).1 = false ->
     (authenticate_user um uid token now).2 = um) /\
  ((logout_user um token).1 = false <-> get_user_by_session um token = None) /\
  ((logout_user um token).1 = false -> (logout_user um token).2 = um).
Proof.
  unfold authenticate_user, logout_user, get_user_by_session.
  destruct (get_user um uid) as [user|] eqn:Hu;
    [destruct (is_active user) eqn:Ha|];
    (destruct (session_entry um token) as [[uid' user']|] eqn:Hs);
    cbn [fst snd fmap option_fmap option_map];
    repeat split; try done; try (intros [?|(? & ? & ?)]; congruence);
    try (intros _; right; by eexists); try (intros _; by left).
Qed.

(** X25. [create_user] stores a new user under the identifier, in place
    of any user that was there: [get_user] returns the new user, the
    other users are kept, [get_user_count] grows by one for a new
    identifier and stays for a known one, and the index of tokens is
    not touched, so a token that led to the replaced user now leads to
    the new one, which carries no token. *)
Theorem create_user_replaces (um : UserManager) (uid name : string)
    (mail : option string) (r : UserRole) (t : datetime) :
  let user := User_new uid name mail r t in
  let um' := (create_user um uid name mail r t).2 in
  (create_user um uid name mail r t).1 = user /\
  get_user um' uid = Some user /\
  (forall uid', uid' <> uid -> get_user um' uid' = get_user um uid') /\
  (get_user um uid = None -> get_user_count um' = get_user_count um + 1) /\
  (is_Some (get_user um uid) -> get_user_count um' = get_user_count um) /\
  active_sessions um' = active_sessions um /\
  (forall token, uid <> "" -> active_sessions um !! token = Some uid ->
     get_user_by_session um' token = Some user /\ session_token user = None).
Proof.
  intros user um'. unfold um', create_user, get_user, get_user_count.
  cbn [fst snd users active_sessions]. fold user.
  split; [done|]. split; [by rewrite lookup_insert_eq|].
  split; [intros uid' Hne; by rewrite lookup_insert_ne|].
  split; [intros Hnone; rewrite map_size_insert_None by done; lia|].
  split; [intros Hsome; by rewrite map_size_insert_Some|].
  split; [done|].
  intros token Hne Hidx. split; [|done].
  unfold get_user_by_session, session_entry, get_user. cbn [active_sessions users].
  rewrite Hidx. destruct uid as [|a uid]; [done|]. cbn [truthy_str].
  by rewrite lookup_insert_eq.
Qed.

(** X26. [can_access_feature] follows the order of the roles guest,
    registered, premium, admin: a feature open to a role is open to
    every higher role, an admin is given every feature of the table,
    and a feature that is not in the table is given to nobody. *)
Theorem can_access_feature_by_rank (u u' : User) (feature : string) :
  (role_rank (role u) <= role_rank (role u') ->
   can_access_feature u feature = true -> can_access_feature u' feature = true) /\
  (role u = ADMIN -> od_mem feature feature_permissions = true ->
   can_access_feature u feature = true) /\
  (od_mem feature feature_permissions = false ->
   can_access_feature u feature = false).
Proof.
  unfold can_access_feature, od_mem, feature_permissions.
  cbn [od_get].
  repeat (match goal with
          | |- context [String.eqb ?k feature] => destruct (String.eqb k feature)
          | |- context [String.eqb feature ?k] => destruct (String.eqb feature k)
          end; cbn [default]);
    destruct (role u), (role u'); cbn [role_rank];
    (split; [|split]); intros;
    try lia; try discriminate; try (vm_compute; reflexivity);
    try match goal with
    | H : bool_decide _ = true |- _ => vm_compute in H; discriminate H
    end.
Qed.

(** X27. [UserStats.add_topic] appends a topic that is not yet in
    [favorite_topics] and does nothing for one that is: the topic is in
    the list afterwards, a list without repetition stays without
    repetition, a second call with the same topic changes nothing, and
    [total_messages] is not touched. *)
Theorem add_topic_once (st : UserStats) (topic : string) :
  topic ∈ favorite_topics (add_topic st topic) /\
  (NoDup (favorite_topics st) -> NoDup (favorite_topics (add_topic st topic))) /\
  add_topic (add_topic st topic) topic = add_topic st topic /\
  (topic ∈ favorite_topics st -> add_topic st topic = st) /\
  (topic ∉ favorite_topics st ->
   favorite_topics (add_topic st topic) = favorite_topics st ++ [topic]) /\
  total_messages (add_topic st topic) = total_messages st.
Proof.
  assert (E : forall st', topic ∈ favorite_topics st' -> add_topic st' topic = st').
  { intros st' Hin. unfold add_topic. by rewrite bool_decide_eq_true_2. }
  destruct (decide (topic ∈ favorite_topics st)) as [Hin|Hnin].
  - rewrite !E by (by rewrite ?E). repeat split; try done.
  - assert (Hf : favorite_topics (add_topic st topic) = favorite_topics st ++ [topic]).
    { unfold add_topic. by rewrite bool_decide_eq_false_2. }
    assert (Hin' : topic ∈ favorite_topics (add_topic st topic)).
    { rewrite Hf. set_solver. }
    split; [done|]. split.
    { intros Hnd. rewrite Hf. apply NoDup_app. split; [done|]. split.
      - intros x Hx Hx'. apply list_elem_of_singleton in Hx'. by subst.
      - apply NoDup_singleton. }
    split; [by apply E|]. split; [done|]. split; [done|].
    unfold add_topic. by rewrite bool_decide_eq_false_2.
Qed.

End UsersMore.
